(** * Tuya dashboard: the device servers, embedded and verified

    The repository holds two Express/WebSocket servers that talk to Tuya
    smart plugs through the [tuyapi] library:

    - the single-device server (one global [latestDeviceData] object), and
    - the multi-device server (the [devices], [deviceData] and
      [deviceWriters] maps, the [devices.json] configuration file, and the
      REST endpoints that add, remove and toggle devices).

    Both are event-driven programs: every callback runs to completion, and
    an [await] suspends the rest of a handler until the awaited promise
    settles.  The embedding follows that shape.  Each callback is a function
    on an explicit server state, an [await] stores the suspended continuation
    in the state, and everything a handler sends outwards (console lines,
    broadcasts, WebSocket and HTTP replies, CSV rows, calls on the device
    link) is appended, in order, to an effect trace.  Console lines are
    recorded by their fixed text; timers may fire, and the refresh interval
    may visit devices, in any order.  The file [devices.json], when it
    exists, holds a well-formed list of entries; failures of the file
    system are not modelled, nor are the endpoints that only read files or
    make up sample histories.

    JavaScript numbers are IEEE-754 binary64 values and are modelled by the
    primitive floats of Rocq, so that [x / 10] below is the division the
    program performs.  The objects stored in [deviceData] are shared by
    reference between the map and the closures that captured them; the
    multi-device model therefore keeps an object store and maps that hold
    references into it. *)

From Stdlib Require Import String List Bool Arith NArith Lia.
From Stdlib Require Import Floats.PrimFloat.
From stdpp Require Import base list.
Import ListNotations.

Local Open Scope string_scope.
Local Open Scope list_scope.

(** ** JavaScript values *)

Module JS.

(** The values a data point, or a field of a reading, can hold. *)
Inductive Value : Type :=
| Undefined
| Null
| Bool (b : bool)
| Num (x : float)
| Str (s : string).

(** Truthiness, as used by [!v], [a || b] and [if (v)]. *)
Definition truthy (v : Value) : bool :=
  match v with
  | Undefined | Null => false
  | Bool b => b
  | Num x => negb (PrimFloat.eqb x 0%float || PrimFloat.is_nan x)
  | Str s => negb (String.eqb s "")
  end.

(** [!v] *)
Definition not (v : Value) : bool := negb (truthy v).

(** A plain object used as a bag of data points: [dps["18"]] and the like.
    Reading a property that is not there gives [undefined]. *)
Definition Object := list (string * Value).

Fixpoint prop (o : Object) (k : string) : Value :=
  match o with
  | [] => Undefined
  | (k', v) :: o' => if String.eqb k' k then v else prop o' k
  end.

(** [v !== undefined] *)
Definition defined (v : Value) : bool :=
  match v with Undefined => false | _ => true end.

(** [dps[k] !== undefined ? dps[k] : prev] *)
Definition pick (dps : Object) (k : string) (prev : Value) : Value :=
  if defined (prop dps k) then prop dps k else prev.

(** [if (typeof v === "number") v = v / d] *)
Definition scale (d : float) (v : Value) : Value :=
  match v with
  | Num x => Num (PrimFloat.div x d)
  | _ => v
  end.

(** [if (typeof v === "number" && v > 1000) v = v / 10] *)
Definition scale_above_1000 (v : Value) : Value :=
  match v with
  | Num x => if PrimFloat.ltb 1000%float x then Num (PrimFloat.div x 10%float) else v
  | _ => v
  end.

(** What the link hands to a ["data"] listener or returns from [get]:
    either an object with a [dps] property or the bare data points.
    [dps_of] is [data.dps || data]. *)
Inductive RawData : Type :=
| Wrapped (dps : Object)
| Bare (points : Object).

Definition dps_of (data : RawData) : Object :=
  match data with
  | Wrapped dps => dps
  | Bare points => points
  end.

(** The settlement of an awaited promise. *)
Inductive Outcome : Type :=
| Resolved
| Rejected (message : string).

End JS.

(** ** Insertion-ordered maps ([Map] of JavaScript)

    A [Map] iterates in insertion order, [set] on an existing key keeps the
    key's position, and the servers enumerate their maps
    ([Array.from(deviceData.values())], [for (... of devices)]), so the model
    is an association list with unique keys. *)

Module JSMap.

Section Operations.
Context {V : Type}.

Fixpoint get (k : string) (m : list (string * V)) : option V :=
  match m with
  | [] => None
  | (k', v) :: m' => if String.eqb k' k then Some v else get k m'
  end.

Fixpoint set (k : string) (v : V) (m : list (string * V)) : list (string * V) :=
  match m with
  | [] => [(k, v)]
  | (k', v') :: m' =>
      if String.eqb k' k then (k', v) :: m' else (k', v') :: set k v m'
  end.

Definition delete (k : string) (m : list (string * V)) : list (string * V) :=
  List.filter (fun e => negb (String.eqb (fst e) k)) m.

Definition values (m : list (string * V)) : list V := List.map snd m.

End Operations.

End JSMap.

(** ** The single-device server

    One global [device], one global [latestDeviceData] that handlers read
    afresh each time they run, and a [deviceConnected] flag.  The handlers
    below are the callbacks of that server; the clock value a handler reads
    with [new Date().toISOString()] is its [now] argument. *)

Module Single.

Record Reading : Type := {
  timestamp : string;
  power_state : JS.Value;
  current : JS.Value;
  power : JS.Value;
  voltage : JS.Value;
  energy : JS.Value;
  connected : bool
}.

Inductive Message : Type :=
| MConnection (is_connected : bool) (error : option string)
| MError (error : string)
| MData (data : Reading).

Inductive LinkCall : Type :=
| LFind
| LConnect
| LGet
| LSet (dps : nat) (value : bool)
| LDisconnect.

Inductive Effect : Type :=
| Console (line : string)
| Broadcast (m : Message)
| Csv (row : Reading)
| Link (c : LinkCall).

Record State : Type := {
  latestDeviceData : Reading;
  deviceConnected : bool;
  listeners : nat;        (* registrations of the data/error/disconnect listeners *)
  intervals : nat;        (* running [setInterval] pollers *)
  timers : list N;        (* delays of pending [setTimeout(connectToDevice, _)] *)
  trace : list Effect
}.

Definition emit (e : Effect) (st : State) : State :=
  {| latestDeviceData := latestDeviceData st;
     deviceConnected := deviceConnected st;
     listeners := listeners st;
     intervals := intervals st;
     timers := timers st;
     trace := trace st ++ [e] |}.

Definition set_latest (r : Reading) (st : State) : State :=
  {| latestDeviceData := r;
     deviceConnected := deviceConnected st;
     listeners := listeners st;
     intervals := intervals st;
     timers := timers st;
     trace := trace st |}.

Definition set_deviceConnected (b : bool) (st : State) : State :=
  {| latestDeviceData := latestDeviceData st;
     deviceConnected := b;
     listeners := listeners st;
     intervals := intervals st;
     timers := timers st;
     trace := trace st |}.

Definition add_listeners (st : State) : State :=
  {| latestDeviceData := latestDeviceData st;
     deviceConnected := deviceConnected st;
     listeners := S (listeners st);
     intervals := intervals st;
     timers := timers st;
     trace := trace st |}.

Definition add_interval (st : State) : State :=
  {| latestDeviceData := latestDeviceData st;
     deviceConnected := deviceConnected st;
     listeners := listeners st;
     intervals := S (intervals st);
     timers := timers st;
     trace := trace st |}.

Definition setTimeout (delay : N) (st : State) : State :=
  {| latestDeviceData := latestDeviceData st;
     deviceConnected := deviceConnected st;
     listeners := listeners st;
     intervals := intervals st;
     timers := timers st ++ [delay];
     trace := trace st |}.

(** [latestDeviceData.connected = b] *)
Definition with_connected (b : bool) (r : Reading) : Reading :=
  {| timestamp := timestamp r;
     power_state := power_state r;
     current := current r;
     power := power r;
     voltage := voltage r;
     energy := energy r;
     connected := b |}.

(** The initial value of [latestDeviceData]. *)
Definition initial_reading (now : string) : Reading :=
  {| timestamp := now;
     power_state := JS.Bool false;
     current := JS.Num 0%float;
     power := JS.Num 0%float;
     voltage := JS.Num 0%float;
     energy := JS.Num 0%float;
     connected := false |}.

Definition initial_state (now : string) : State :=
  {| latestDeviceData := initial_reading now;
     deviceConnected := false;
     listeners := 0;
     intervals := 0;
     timers := [];
     trace := [] |}.

(** The object literal built by [handleDeviceData], unit conversions
    applied: voltage and power divided by 10, energy by 1000, current
    taken as it is. *)
Definition normalize (now : string) (dps : JS.Object) (prev : Reading) : Reading :=
  {| timestamp := now;
     power_state := JS.pick dps "1" (power_state prev);
     current := JS.pick dps "18" (current prev);
     power := JS.scale 10%float (JS.pick dps "19" (power prev));
     voltage := JS.scale 10%float (JS.pick dps "20" (voltage prev));
     energy := JS.scale 1000%float (JS.pick dps "22" (energy prev));
     connected := true |}.

Definition handleDeviceData (now : string) (data : JS.RawData) (st : State) : State :=
  let st := emit (Console "Processing device data:") st in
  let deviceData := normalize now (JS.dps_of data) (latestDeviceData st) in
  let st := set_latest deviceData st in
  let st := emit (Console "Processed device data:") st in
  let st := emit (Csv deviceData) st in
  emit (Broadcast (MData deviceData)) st.

(** [device.on("error", ...)] *)
Definition on_error (message : string) (st : State) : State :=
  let st := emit (Console "Device error:") st in
  let st := set_deviceConnected false st in
  let st := set_latest (with_connected false (latestDeviceData st)) st in
  emit (Broadcast (MError message)) st.

(** [device.on("disconnect", ...)] *)
Definition on_disconnect (st : State) : State :=
  let st := emit (Console "Device disconnected") st in
  let st := set_deviceConnected false st in
  let st := set_latest (with_connected false (latestDeviceData st)) st in
  let st := emit (Broadcast (MConnection false None)) st in
  setTimeout 5000%N st.

(** [getDeviceStatusSafe], up to its [await]: the [get] is issued and raced
    against a 3000 ms timer. *)
Definition getDeviceStatusSafe_start (st : State) : State :=
  emit (Link LGet) st.

(** What the race settles with: the status the link returned, or an error,
    the timer's being [new Error("Timeout")]. *)
Inductive StatusResult : Type :=
| Status (data : JS.RawData)
| Failed (message : string).

Definition timed_out : StatusResult := Failed "Timeout".

(** [getDeviceStatusSafe], from the settled race onwards. *)
Definition getDeviceStatusSafe_settled (now : string) (r : StatusResult) (st : State) : State :=
  match r with
  | Status data =>
      let st := emit (Console "Raw device status:") st in
      handleDeviceData now data st
  | Failed message =>
      let st := emit (Console "Error getting device status:") st in
      if negb (String.eqb message "Timeout") then
        let st := set_latest (with_connected false (latestDeviceData st)) st in
        emit (Broadcast (MError message)) st
      else st
  end.

(** [connectToDevice] after [find] and [connect] resolved, up to the
    [await getDeviceStatusSafe()]. *)
Definition connectToDevice_connected (st : State) : State :=
  let st := set_deviceConnected true st in
  let st := set_latest (with_connected true (latestDeviceData st)) st in
  let st := emit (Console "Connected to Tuya device successfully") st in
  let st := emit (Broadcast (MConnection true None)) st in
  let st := add_listeners st in
  getDeviceStatusSafe_start st.

(** The [catch] of [connectToDevice]: [find] or [connect] was rejected. *)
Definition connectToDevice_failed (message : string) (st : State) : State :=
  let st := emit (Console "Failed to connect to device:") st in
  let st := set_deviceConnected false st in
  let st := set_latest (with_connected false (latestDeviceData st)) st in
  let st := emit (Broadcast (MConnection false (Some message))) st in
  setTimeout 10000%N st.

(** [connectToDevice] after its first [getDeviceStatusSafe] has settled:
    the 5000 ms poller is started. *)
Definition connectToDevice_status_settled (now : string) (r : StatusResult) (st : State)
    : State :=
  add_interval (getDeviceStatusSafe_settled now r st).

(** The [setInterval] callback: poll only while [deviceConnected]. *)
Definition poll_tick (st : State) : State :=
  if deviceConnected st then getDeviceStatusSafe_start st else st.

End Single.

(** ** The multi-device server: data *)

Module Multi.

(** An entry of [devices.json] (or the one built from the environment). *)
Module Config.
Record t : Type := {
  id : string;
  name : string;
  device_id : string;
  device_key : string;
  device_ip : string;
  version : string;
  type : string;
  room : string;
  enabled : bool
}.
End Config.

(** The body of [POST /api/devices]; a field that is missing is [None]. *)
Module Body.
Record t : Type := {
  id : option string;
  name : option string;
  device_id : option string;
  device_key : option string;
  device_ip : option string;
  version : option string;
  type : option string;
  room : option string
}.
End Body.

(** The objects held by [deviceData]. *)
Record DeviceData : Type := {
  id : string;
  name : string;
  type : string;
  room : string;
  timestamp : string;
  power_state : JS.Value;
  current : JS.Value;
  power : JS.Value;
  voltage : JS.Value;
  energy : JS.Value;
  connected : bool;
  ip : string;
  version : string;
  enabled : bool
}.

(** References to [DeviceData] objects are indices into the object store;
    a [TuyAPI] instance is known by its index in the list of instances
    created so far. *)
Abbreviation ref := nat (only parsing).
Abbreviation handle := nat (only parsing).
Abbreviation client := nat (only parsing).      (* a WebSocket connection *)
Abbreviation request := nat (only parsing).     (* an HTTP request awaiting its reply *)

Inductive LinkCall : Type :=
| LFind (h : handle)
| LConnect (h : handle)
| LGet (h : handle)
| LSet (h : handle) (dps : nat) (value : bool)
| LDisconnect (h : handle).

(** Messages serialised with [JSON.stringify]: an object sent in one is a
    copy of its fields at that moment. *)
Inductive Message : Type :=
| MDeviceData (deviceId : string) (data : DeviceData)
| MDeviceConnect (deviceId : string) (data : option DeviceData)
| MDeviceError (deviceId : string) (error : string)
| MDeviceDisconnect (deviceId : string)
| MDeviceRemoved (deviceId : string)
| MInitialData (data : list DeviceData)
| MError (deviceId : option string) (error : string).

Inductive Reply : Type :=
| RError (status : N) (error : string)
| RToggled (deviceId : string) (new_state : bool)
| RAdded (device : Config.t)
| RRemoved
| RDevices (data : list DeviceData)
| RDevice (data : DeviceData).

Record CsvRow : Type := {
  row_data : DeviceData;
  row_device_id : string;
  row_device_name : string
}.

Inductive Effect : Type :=
| Console (line : string)
| Broadcast (m : Message)
| WsSend (ws : client) (m : Message)
| Http (req : request) (r : Reply)
| CsvWrite (path : string) (rows : list CsvRow)
| Link (c : LinkCall).

(** The listeners registered by one successful [connectToDevice]: they
    close over the configuration and over the [currentData] read right
    after the connection was made. *)
Record Listener : Type := {
  l_handle : handle;
  l_config : Config.t;
  l_currentData : option ref
}.

(** Suspended continuations, one per [await] in the program. *)
Inductive Pending : Type :=
| PFind (deviceConfig : Config.t) (h : handle)
| PConnect (deviceConfig : Config.t) (h : handle)
| PWsSet (ws : client) (deviceId : string) (currentData : ref) (newState : bool)
| PRestSet (req : request) (deviceId : string) (newState : bool)
| PRefreshGet (deviceId : string).

Record State : Type := {
  heap : list DeviceData;                 (* the object store *)
  deviceData : list (string * ref);
  devices : list (string * handle);
  deviceWriters : list (string * string); (* id to the path of its CSV file *)
  config_file : option (list Config.t);   (* devices.json, when it exists *)
  csv_files : list string;                (* the CSV files that exist *)
  links : list Config.t;                  (* the TuyAPI instances created *)
  listeners : list Listener;
  timers : list (N * Config.t);           (* setTimeout(connectToDevice(c), delay) *)
  pending : list Pending;
  refreshing : bool;                      (* the setInterval of startPeriodicRefresh *)
  trace : list Effect
}.

Definition set_heap (v : list DeviceData) (st : State) : State :=
  Build_State v (deviceData st) (devices st) (deviceWriters st) (config_file st)
    (csv_files st) (links st) (listeners st) (timers st) (pending st)
    (refreshing st) (trace st).

Definition set_deviceData (v : list (string * ref)) (st : State) : State :=
  Build_State (heap st) v (devices st) (deviceWriters st) (config_file st)
    (csv_files st) (links st) (listeners st) (timers st) (pending st)
    (refreshing st) (trace st).

Definition set_devices (v : list (string * handle)) (st : State) : State :=
  Build_State (heap st) (deviceData st) v (deviceWriters st) (config_file st)
    (csv_files st) (links st) (listeners st) (timers st) (pending st)
    (refreshing st) (trace st).

Definition set_deviceWriters (v : list (string * string)) (st : State) : State :=
  Build_State (heap st) (deviceData st) (devices st) v (config_file st)
    (csv_files st) (links st) (listeners st) (timers st) (pending st)
    (refreshing st) (trace st).

Definition set_config_file (v : option (list Config.t)) (st : State) : State :=
  Build_State (heap st) (deviceData st) (devices st) (deviceWriters st) v
    (csv_files st) (links st) (listeners st) (timers st) (pending st)
    (refreshing st) (trace st).

Definition set_csv_files (v : list string) (st : State) : State :=
  Build_State (heap st) (deviceData st) (devices st) (deviceWriters st)
    (config_file st) v (links st) (listeners st) (timers st) (pending st)
    (refreshing st) (trace st).

Definition set_links (v : list Config.t) (st : State) : State :=
  Build_State (heap st) (deviceData st) (devices st) (deviceWriters st)
    (config_file st) (csv_files st) v (listeners st) (timers st) (pending st)
    (refreshing st) (trace st).

Definition set_listeners (v : list Listener) (st : State) : State :=
  Build_State (heap st) (deviceData st) (devices st) (deviceWriters st)
    (config_file st) (csv_files st) (links st) v (timers st) (pending st)
    (refreshing st) (trace st).

Definition set_timers (v : list (N * Config.t)) (st : State) : State :=
  Build_State (heap st) (deviceData st) (devices st) (deviceWriters st)
    (config_file st) (csv_files st) (links st) (listeners st) v (pending st)
    (refreshing st) (trace st).

Definition set_pending (v : list Pending) (st : State) : State :=
  Build_State (heap st) (deviceData st) (devices st) (deviceWriters st)
    (config_file st) (csv_files st) (links st) (listeners st) (timers st) v
    (refreshing st) (trace st).

Definition set_refreshing (v : bool) (st : State) : State :=
  Build_State (heap st) (deviceData st) (devices st) (deviceWriters st)
    (config_file st) (csv_files st) (links st) (listeners st) (timers st)
    (pending st) v (trace st).

Definition emit (e : Effect) (st : State) : State :=
  Build_State (heap st) (deviceData st) (devices st) (deviceWriters st)
    (config_file st) (csv_files st) (links st) (listeners st) (timers st)
    (pending st) (refreshing st) (trace st ++ [e]).

(** *** The object store *)

(** [{ ... }]: a new object. *)
Definition alloc (o : DeviceData) (st : State) : ref * State :=
  (length (heap st), set_heap (heap st ++ [o]) st).

Definition deref (st : State) (r : ref) : option DeviceData := heap st !! r.

(** A copy of the fields of an object, as [JSON.stringify] takes it. *)
Definition snapshot (st : State) (o : option ref) : option DeviceData :=
  match o with
  | Some r => deref st r
  | None => None
  end.

Definition with_connected (b : bool) (d : DeviceData) : DeviceData :=
  {| id := id d; name := name d; type := type d; room := room d;
     timestamp := timestamp d;
     power_state := power_state d; current := current d; power := power d;
     voltage := voltage d; energy := energy d;
     connected := b;
     ip := ip d; version := version d; enabled := enabled d |}.

(** [o.power_state = newState; o.timestamp = now] *)
Definition with_power_state (newState : bool) (now : string) (d : DeviceData) : DeviceData :=
  {| id := id d; name := name d; type := type d; room := room d;
     timestamp := now;
     power_state := JS.Bool newState; current := current d; power := power d;
     voltage := voltage d; energy := energy d;
     connected := connected d;
     ip := ip d; version := version d; enabled := enabled d |}.

(** Assignment to fields of the object behind a reference. *)
Definition mutate (r : ref) (f : DeviceData -> DeviceData) (st : State) : State :=
  set_heap (alter f r (heap st)) st.

(** [if (currentData) { currentData.connected = b;
                        deviceData.set(deviceId, currentData); }] *)
Definition mark_connected (b : bool) (deviceId : string) (currentData : option ref)
    (st : State) : State :=
  match currentData with
  | Some r =>
      let st := mutate r (with_connected b) st in
      set_deviceData (JSMap.set deviceId r (deviceData st)) st
  | None => st
  end.

(** *** Configuration and initialisation *)

(** The three variables of the environment the fallback needs; [None]
    when [TUYA_DEVICE_ID] is not set. *)
Record EnvDevice : Type := {
  TUYA_DEVICE_ID : string;
  TUYA_DEVICE_KEY : string;
  TUYA_DEVICE_IP : string
}.

Definition loadDeviceConfig (file : option (list Config.t)) (env : option EnvDevice)
    : list Config.t :=
  match file with
  | Some config => config
  | None =>
      match env with
      | Some e =>
          [ {| Config.id := "device_1";
               Config.name := "Smart Plug";
               Config.device_id := TUYA_DEVICE_ID e;
               Config.device_key := TUYA_DEVICE_KEY e;
               Config.device_ip := TUYA_DEVICE_IP e;
               Config.version := "3.4";
               Config.type := "smart_plug";
               Config.room := "Unknown";
               Config.enabled := true |} ]
      | None => []
      end
  end.

Definition csv_path (deviceId : string) : string := (deviceId ++ "_data.csv")%string.

(** The writer is known by the path it appends to; creating it writes an
    empty record set when the file does not exist yet. *)
Definition initializeCSVWriter (deviceId : string) (st : State) : string * State :=
  let path := csv_path deviceId in
  if existsb (String.eqb path) (csv_files st) then (path, st)
  else (path, emit (CsvWrite path []) (set_csv_files (csv_files st ++ [path]) st)).

Definition writeRecords (path : string) (rows : list CsvRow) (st : State) : State :=
  let st :=
    if existsb (String.eqb path) (csv_files st) then st
    else set_csv_files (csv_files st ++ [path]) st in
  emit (CsvWrite path rows) st.

Definition initializeDeviceData (now : string) (c : Config.t) : DeviceData :=
  {| id := Config.id c;
     name := Config.name c;
     type := Config.type c;
     room := Config.room c;
     timestamp := now;
     power_state := JS.Bool false;
     current := JS.Num 0%float;
     power := JS.Num 0%float;
     voltage := JS.Num 0%float;
     energy := JS.Num 0%float;
     connected := false;
     ip := Config.device_ip c;
     version := Config.version c;
     enabled := Config.enabled c |}.

(** [deviceData.set(c.id, initializeDeviceData(c));
     deviceWriters.set(c.id, initializeCSVWriter(c.id, c.name))] *)
Definition register (now : string) (c : Config.t) (st : State) : State :=
  let '(r, st) := alloc (initializeDeviceData now c) st in
  let st := set_deviceData (JSMap.set (Config.id c) r (deviceData st)) st in
  let '(path, st) := initializeCSVWriter (Config.id c) st in
  set_deviceWriters (JSMap.set (Config.id c) path (deviceWriters st)) st.

(** *** Data from the link *)

(** The object built by [handleDeviceData] from the current reading and
    the data points, unit conversions applied. *)
Definition normalize (now : string) (dps : JS.Object) (currentData : DeviceData) : DeviceData :=
  {| id := id currentData;
     name := name currentData;
     type := type currentData;
     room := room currentData;
     timestamp := now;
     power_state := JS.pick dps "1" (power_state currentData);
     current := JS.scale_above_1000 (JS.pick dps "18" (current currentData));
     power := JS.scale 10%float (JS.pick dps "19" (power currentData));
     voltage := JS.scale 10%float (JS.pick dps "20" (voltage currentData));
     energy := JS.scale 1000%float (JS.pick dps "22" (energy currentData));
     connected := true;
     ip := ip currentData;
     version := version currentData;
     enabled := enabled currentData |}.

Definition handleDeviceData (now : string) (deviceId : string) (data : JS.RawData)
    (st : State) : State :=
  let st := emit (Console ("Processing data for " ++ deviceId ++ ":")%string) st in
  let dps := JS.dps_of data in
  match JSMap.get deviceId (deviceData st) with
  | None => st
  | Some r =>
      match deref st r with
      | None => st
      | Some currentData =>
          let updatedData := normalize now dps currentData in
          let '(r', st) := alloc updatedData st in
          let st := set_deviceData (JSMap.set deviceId r' (deviceData st)) st in
          let st := emit (Console ("Processed data for " ++ deviceId ++ ":")%string) st in
          let st :=
            match JSMap.get deviceId (deviceWriters st) with
            | Some path =>
                writeRecords path
                  [ {| row_data := updatedData;
                       row_device_id := deviceId;
                       row_device_name := name updatedData |} ] st
            | None => st
            end in
          emit (Broadcast (MDeviceData deviceId updatedData)) st
      end
  end.

(** *** Connecting *)

(** [connectToDevice(deviceConfig)] up to [await device.find()]: a new
    [TuyAPI] instance is made and asked to find the device. *)
Definition connectToDevice (c : Config.t) (st : State) : State :=
  let st :=
    emit (Console ("Attempting to connect to " ++ Config.name c ++ " ("
                     ++ Config.id c ++ ")...")%string) st in
  let h := length (links st) in
  let st := set_links (links st ++ [c]) st in
  let st := emit (Link (LFind h)) st in
  set_pending (pending st ++ [PFind c h]) st.

(** [find] resolved: [await device.connect()]. *)
Definition connectToDevice_found (c : Config.t) (h : handle) (st : State) : State :=
  let st := emit (Link (LConnect h)) st in
  set_pending (pending st ++ [PConnect c h]) st.

(** [connect] resolved: the rest of the [try] block. *)
Definition connectToDevice_connected (c : Config.t) (h : handle) (st : State) : State :=
  let deviceId := Config.id c in
  let st := set_devices (JSMap.set deviceId h (devices st)) st in
  let currentData := JSMap.get deviceId (deviceData st) in
  let st := mark_connected true deviceId currentData st in
  let st := emit (Console ("Connected to " ++ Config.name c)%string) st in
  let st :=
    set_listeners
      (listeners st ++
         [ {| l_handle := h; l_config := c; l_currentData := currentData |} ]) st in
  emit (Broadcast (MDeviceConnect deviceId (snapshot st currentData))) st.

(** The [catch] block: [find] or [connect] was rejected. *)
Definition connectToDevice_failed (c : Config.t) (message : string) (st : State) : State :=
  let deviceId := Config.id c in
  let st := emit (Console ("Failed to connect to " ++ Config.name c ++ ":")%string) st in
  let currentData := JSMap.get deviceId (deviceData st) in
  let st := mark_connected false deviceId currentData st in
  let st := emit (Broadcast (MDeviceError deviceId message)) st in
  set_timers (timers st ++ [(15000%N, c)]) st.

(** [device.on("error", ...)], with the [currentData] of the closure. *)
Definition on_error (l : Listener) (message : string) (st : State) : State :=
  let deviceId := Config.id (l_config l) in
  let st := emit (Console ("Error on " ++ Config.name (l_config l) ++ ":")%string) st in
  let st := mark_connected false deviceId (l_currentData l) st in
  emit (Broadcast (MDeviceError deviceId message)) st.

(** [device.on("disconnect", ...)] *)
Definition on_disconnect (l : Listener) (st : State) : State :=
  let deviceId := Config.id (l_config l) in
  let st := emit (Console (Config.name (l_config l) ++ " disconnected")%string) st in
  let st := mark_connected false deviceId (l_currentData l) st in
  let st := emit (Broadcast (MDeviceDisconnect deviceId)) st in
  set_timers (timers st ++ [(10000%N, l_config l)]) st.

(** The listeners registered on an instance.  Every [connectToDevice]
    makes its own instance and registers on it once, so an instance has at
    most one set of listeners. *)
Definition listener_of (h : handle) (st : State) : option Listener :=
  List.find (fun l => Nat.eqb (l_handle l) h) (listeners st).

Definition startPeriodicRefresh (st : State) : State := set_refreshing true st.

Definition connectToAllDevices (now : string) (env : option EnvDevice) (st : State) : State :=
  let deviceConfigs := loadDeviceConfig (config_file st) env in
  if Nat.eqb (length deviceConfigs) 0 then
    emit (Console "No devices configured. Please add devices to devices.json or set environment variables.") st
  else
    let st := emit (Console "Found device(s) total...") st in
    let enabledDevices := List.filter Config.enabled deviceConfigs in
    let st := emit (Console "enabled device(s) to connect...") st in
    let st := emit (Console "disabled device(s) to show...") st in
    let st := fold_left (fun st c => register now c st) deviceConfigs st in
    let st :=
      set_timers
        (timers st ++ imap (fun i c => ((N.of_nat i * 2000)%N, c)) enabledDevices) st in
    startPeriodicRefresh st.

(** One turn of the loop of the refresh interval, for the entry
    [deviceId] of [devices]; [isConnected] is what the instance answers. *)
Definition refresh_visit (deviceId : string) (isConnected : bool) (st : State) : State :=
  if refreshing st then
    match JSMap.get deviceId (devices st) with
    | Some h =>
        if isConnected then
          let st := emit (Link (LGet h)) st in
          set_pending (pending st ++ [PRefreshGet deviceId]) st
        else st
    | None => st
    end
  else st.

Definition refresh_settled (deviceId : string) (o : JS.Outcome) (st : State) : State :=
  match o with
  | JS.Resolved => st
  | JS.Rejected message =>
      emit (Console ("Error refreshing data for " ++ deviceId ++ ": " ++ message)%string) st
  end.

(** *** WebSocket clients *)

Definition allDevicesData (st : State) : list DeviceData :=
  omap (deref st) (JSMap.values (deviceData st)).

Definition ws_connection (ws : client) (st : State) : State :=
  let st := emit (Console "Client connected to WebSocket") st in
  let st := emit (Console "Sending initial data to client") st in
  emit (WsSend ws (MInitialData (allDevicesData st))) st.

Inductive WsMessage : Type :=
| Toggle (deviceId : option string)
| Refresh
| Other
| Malformed (error : string).

Definition nonempty (o : option string) : option string :=
  match o with
  | Some s => if String.eqb s "" then None else Some s
  | None => None
  end.

(** The [toggle] branch of the message handler, up to
    [await device.set(...)]. *)
Definition ws_toggle (ws : client) (deviceId : string) (st : State) : State :=
  let device := JSMap.get deviceId (devices st) in
  let currentData := JSMap.get deviceId (deviceData st) in
  match device, currentData with
  | Some h, Some r =>
      match deref st r with
      | Some o =>
          if connected o then
            let st := emit (Console ("Toggling " ++ deviceId ++ " from:")%string) st in
            let newState := JS.not (power_state o) in
            let st := emit (Link (LSet h 1 newState)) st in
            set_pending (pending st ++ [PWsSet ws deviceId r newState]) st
          else emit (WsSend ws (MError (Some deviceId) "Device not connected")) st
      | None => emit (WsSend ws (MError (Some deviceId) "Device not connected")) st
      end
  | _, _ => emit (WsSend ws (MError (Some deviceId) "Device not connected")) st
  end.

(** [set] settled: the rest of the inner [try], or its [catch]. *)
Definition ws_toggle_settled (now : string) (ws : client) (deviceId : string)
    (currentData : ref) (newState : bool) (o : JS.Outcome) (st : State) : State :=
  match o with
  | JS.Resolved =>
      let st := emit (Console ("Device " ++ deviceId ++ " toggled successfully to:")%string) st in
      let st := mutate currentData (with_power_state newState now) st in
      let st := set_deviceData (JSMap.set deviceId currentData (deviceData st)) st in
      match deref st currentData with
      | Some o => emit (Broadcast (MDeviceData deviceId o)) st
      | None => st
      end
  | JS.Rejected message =>
      let st := emit (Console ("Error toggling " ++ deviceId ++ ":")%string) st in
      emit (WsSend ws (MError (Some deviceId) ("Failed to toggle device: " ++ message)%string)) st
  end.

Definition ws_message (ws : client) (m : WsMessage) (st : State) : State :=
  match m with
  | Malformed error =>
      let st := emit (Console "Error handling WebSocket message:") st in
      emit (WsSend ws (MError None error)) st
  | Toggle deviceId =>
      let st := emit (Console "Received WebSocket message:") st in
      match nonempty deviceId with
      | Some d => ws_toggle ws d st
      | None => st
      end
  | Refresh =>
      let st := emit (Console "Received WebSocket message:") st in
      emit (WsSend ws (MInitialData (allDevicesData st))) st
  | Other => emit (Console "Received WebSocket message:") st
  end.

(** *** REST endpoints *)

(** [GET /api/devices] *)
Definition get_devices (req : request) (st : State) : State :=
  emit (Http req (RDevices (allDevicesData st))) st.

(** [GET /api/devices/:deviceId] *)
Definition get_device (req : request) (deviceId : string) (st : State) : State :=
  match snapshot st (JSMap.get deviceId (deviceData st)) with
  | Some data => emit (Http req (RDevice data)) st
  | None => emit (Http req (RError 404%N "Device not found")) st
  end.

(** [POST /api/devices/:deviceId/toggle], up to [await device.set(...)]. *)
Definition post_toggle (req : request) (deviceId : string) (st : State) : State :=
  let device := JSMap.get deviceId (devices st) in
  let currentData := snapshot st (JSMap.get deviceId (deviceData st)) in
  match device, currentData with
  | Some h, Some o =>
      if connected o then
        let newState := JS.not (power_state o) in
        let st := emit (Link (LSet h 1 newState)) st in
        set_pending (pending st ++ [PRestSet req deviceId newState]) st
      else emit (Http req (RError 400%N "Device not connected")) st
  | _, _ => emit (Http req (RError 400%N "Device not connected")) st
  end.

Definition post_toggle_settled (req : request) (deviceId : string) (newState : bool)
    (o : JS.Outcome) (st : State) : State :=
  match o with
  | JS.Resolved => emit (Http req (RToggled deviceId newState)) st
  | JS.Rejected message => emit (Http req (RError 500%N message)) st
  end.

(** [a || b] on an optional string field. *)
Definition or_else (o : option string) (default : string) : string :=
  match nonempty o with
  | Some s => s
  | None => default
  end.

(** [POST /api/devices] *)
Definition post_devices (now : string) (req : request) (deviceConfig : Body.t)
    (st : State) : State :=
  match nonempty (Body.id deviceConfig), nonempty (Body.device_id deviceConfig),
        nonempty (Body.device_key deviceConfig), nonempty (Body.device_ip deviceConfig) with
  | Some new_id, Some new_device_id, Some new_device_key, Some new_device_ip =>
      let currentConfig :=
        match config_file st with
        | Some config => config
        | None => []
        end in
      match List.find (fun d => String.eqb (Config.id d) new_id) currentConfig with
      | Some _ => emit (Http req (RError 400%N "Device ID already exists")) st
      | None =>
          let newDevice :=
            {| Config.id := new_id;
               Config.name := or_else (Body.name deviceConfig) ("Device " ++ new_id)%string;
               Config.device_id := new_device_id;
               Config.device_key := new_device_key;
               Config.device_ip := new_device_ip;
               Config.version := or_else (Body.version deviceConfig) "3.4";
               Config.type := or_else (Body.type deviceConfig) "smart_plug";
               Config.room := or_else (Body.room deviceConfig) "Unknown";
               Config.enabled := true |} in
          let st := set_config_file (Some (currentConfig ++ [newDevice])) st in
          let st := register now newDevice st in
          let st := connectToDevice newDevice st in
          emit (Http req (RAdded newDevice)) st
      end
  | _, _, _, _ => emit (Http req (RError 400%N "Missing required fields")) st
  end.

(** [DELETE /api/devices/:deviceId] *)
Definition delete_device (req : request) (deviceId : string) (st : State) : State :=
  let st :=
    match JSMap.get deviceId (devices st) with
    | Some h =>
        let st := emit (Link (LDisconnect h)) st in
        set_devices (JSMap.delete deviceId (devices st)) st
    | None => st
    end in
  let st := set_deviceData (JSMap.delete deviceId (deviceData st)) st in
  let st := set_deviceWriters (JSMap.delete deviceId (deviceWriters st)) st in
  let st :=
    match config_file st with
    | Some currentConfig =>
        set_config_file
          (Some (List.filter (fun d => negb (String.eqb (Config.id d) deviceId))
                   currentConfig)) st
    | None => st
    end in
  let st := emit (Broadcast (MDeviceRemoved deviceId)) st in
  emit (Http req RRemoved) st.

(** *** The event loop *)

(** What can happen next: a timer fires, an awaited promise settles, the
    link emits an event on an instance, the refresh interval visits a
    device, a client or a request arrives.  Timers and suspended
    continuations are named by their position in the state. *)
Inductive Event : Type :=
| ETimer (k : nat)
| ESettle (k : nat) (o : JS.Outcome)
| EData (h : handle) (data : JS.RawData)
| EError (h : handle) (message : string)
| EDisconnect (h : handle)
| ERefreshVisit (deviceId : string) (isConnected : bool)
| EWsConnection (ws : client)
| EWsMessage (ws : client) (m : WsMessage)
| EGetDevices (req : request)
| EGetDevice (req : request) (deviceId : string)
| EPostToggle (req : request) (deviceId : string)
| EPostDevices (req : request) (body : Body.t)
| EDeleteDevice (req : request) (deviceId : string).

Definition settle (now : string) (p : Pending) (o : JS.Outcome) (st : State) : State :=
  match p with
  | PFind c h =>
      match o with
      | JS.Resolved => connectToDevice_found c h st
      | JS.Rejected message => connectToDevice_failed c message st
      end
  | PConnect c h =>
      match o with
      | JS.Resolved => connectToDevice_connected c h st
      | JS.Rejected message => connectToDevice_failed c message st
      end
  | PWsSet ws deviceId currentData newState =>
      ws_toggle_settled now ws deviceId currentData newState o st
  | PRestSet req deviceId newState => post_toggle_settled req deviceId newState o st
  | PRefreshGet deviceId => refresh_settled deviceId o st
  end.

(** One callback, run to completion at clock value [now]. *)
Definition step (now : string) (e : Event) (st : State) : State :=
  match e with
  | ETimer k =>
      match timers st !! k with
      | Some (_, c) => connectToDevice c (set_timers (delete k (timers st)) st)
      | None => st
      end
  | ESettle k o =>
      match pending st !! k with
      | Some p => settle now p o (set_pending (delete k (pending st)) st)
      | None => st
      end
  | EData h data =>
      match listener_of h st with
      | Some l => handleDeviceData now (Config.id (l_config l)) data st
      | None => st
      end
  | EError h message =>
      match listener_of h st with
      | Some l => on_error l message st
      | None => st
      end
  | EDisconnect h =>
      match listener_of h st with
      | Some l => on_disconnect l st
      | None => st
      end
  | ERefreshVisit deviceId isConnected => refresh_visit deviceId isConnected st
  | EWsConnection ws => ws_connection ws st
  | EWsMessage ws m => ws_message ws m st
  | EGetDevices req => get_devices req st
  | EGetDevice req deviceId => get_device req deviceId st
  | EPostToggle req deviceId => post_toggle req deviceId st
  | EPostDevices req body => post_devices now req body st
  | EDeleteDevice req deviceId => delete_device req deviceId st
  end.

(** A run: the events in order, each with the clock value its handler
    reads. *)
Fixpoint run (es : list (string * Event)) (st : State) : State :=
  match es with
  | [] => st
  | (now, e) :: es' => run es' (step now e st)
  end.

(** The server as started: nothing in memory, the given [devices.json]
    and CSV files on disk. *)
Definition initial_state (file : option (list Config.t)) (csv : list string) : State :=
  {| heap := []; deviceData := []; devices := []; deviceWriters := [];
     config_file := file; csv_files := csv; links := []; listeners := [];
     timers := []; pending := []; refreshing := false; trace := [] |}.

(** The callback of [server.listen]. *)
Definition boot (now : string) (file : option (list Config.t)) (env : option EnvDevice)
    (csv : list string) : State :=
  let st := initial_state file csv in
  let st := emit (Console "Server running") st in
  connectToAllDevices now env st.

(** *** Observations on states and traces *)

(** The reading the server holds for a device. *)
Definition reading (deviceId : string) (st : State) : option DeviceData :=
  snapshot st (JSMap.get deviceId (deviceData st)).

(** Whether [devices.json] exists and lists the id: the test
    [currentConfig.find((d) => d.id === id)] of [POST /api/devices]. *)
Definition listed (deviceId : string) (st : State) : bool :=
  match config_file st with
  | Some config => existsb (fun d => String.eqb (Config.id d) deviceId) config
  | None => false
  end.

(** The four required fields of a [POST /api/devices] body are there. *)
Definition complete (b : Body.t) : bool :=
  match nonempty (Body.id b), nonempty (Body.device_id b),
        nonempty (Body.device_key b), nonempty (Body.device_ip b) with
  | Some _, Some _, Some _, Some _ => true
  | _, _, _, _ => false
  end.

(** No instance, no reading, no writer and no configuration entry. *)
Definition unknown (deviceId : string) (st : State) : Prop :=
  JSMap.get deviceId (devices st) = None /\
  JSMap.get deviceId (deviceData st) = None /\
  JSMap.get deviceId (deviceWriters st) = None /\
  listed deviceId st = false.

(** The replies sent back to the one who asked: [ws.send] and [res.json]. *)
Definition answers (t : list Effect) : list Effect :=
  List.filter (fun e =>
                 match e with
                 | WsSend _ _ | Http _ _ => true
                 | _ => false
                 end) t.

(** The events that ask for a toggle of [deviceId]. *)
Inductive toggles (deviceId : string) : Event -> Prop :=
| toggles_rest (req : request) : toggles deviceId (EPostToggle req deviceId)
| toggles_ws (ws : client) : toggles deviceId (EWsMessage ws (Toggle (Some deviceId))).

(** The [set] calls made on the instance [h], oldest first. *)
Definition set_calls (h : handle) (t : list Effect) : list bool :=
  omap (fun e =>
          match e with
          | Link (LSet h' _ v) => if Nat.eqb h' h then Some v else None
          | _ => None
          end) t.

End Multi.

(** ** Concrete configurations, updates and runs used below *)

Module Examples.

Import Multi.

Definition plug : Config.t :=
  {| Config.id := "device_1"; Config.name := "Smart Plug";
     Config.device_id := "bf0123456789"; Config.device_key := "0123456789abcdef";
     Config.device_ip := "192.168.1.20"; Config.version := "3.4";
     Config.type := "smart_plug"; Config.room := "Kitchen";
     Config.enabled := true |}.

Definition lamp : Config.t :=
  {| Config.id := "device_2"; Config.name := "Lamp";
     Config.device_id := "bf9876543210"; Config.device_key := "fedcba9876543210";
     Config.device_ip := "192.168.1.21"; Config.version := "3.3";
     Config.type := "smart_plug"; Config.room := "Hall";
     Config.enabled := false |}.

(** A report of every data point: on, 500 mA, 35.0 W, 220.0 V, 1500 Wh. *)
Definition full_update : JS.Object :=
  [ ("1", JS.Bool true); ("18", JS.Num 500%float); ("19", JS.Num 350%float);
    ("20", JS.Num 2200%float); ("22", JS.Num 1500%float) ].

(** A report of the switch alone. *)
Definition switch_off_update : JS.Object := [ ("1", JS.Bool false) ].

(** The server started on a [devices.json] listing both devices. *)
Definition booted : State := boot "t0" (Some [plug; lamp]) None [].

(** The timer of the plug fired, and [find] and [connect] resolved. *)
Definition connected_run : list (string * Event) :=
  [ ("t1", ETimer 0); ("t2", ESettle 0 JS.Resolved); ("t3", ESettle 0 JS.Resolved) ].

Definition plug_connected : State := run connected_run booted.

(** The link then reported a full set of data points. *)
Definition plug_measured : State :=
  run [ ("t4", EData 0 (JS.Wrapped full_update)) ] plug_connected.

(** The plug was then removed by a [DELETE] request. *)
Definition plug_removed : State :=
  run [ ("t4", EDeleteDevice 1 "device_1") ] plug_connected.

(** The server started without [devices.json], on the environment. *)
Definition env : EnvDevice :=
  {| TUYA_DEVICE_ID := "bf0123456789"; TUYA_DEVICE_KEY := "0123456789abcdef";
     TUYA_DEVICE_IP := "192.168.1.20" |}.

Definition env_booted : State := boot "t0" None (Some env) [].

(** Bodies of [POST /api/devices] that name the plug's id: one complete,
    one without a key. *)
Definition duplicate_body : Body.t :=
  {| Body.id := Some "device_1"; Body.name := Some "Copy";
     Body.device_id := Some "bf5555555555"; Body.device_key := Some "5555555555555555";
     Body.device_ip := Some "192.168.1.55"; Body.version := None;
     Body.type := None; Body.room := None |}.

Definition keyless_body : Body.t :=
  {| Body.id := Some "device_1"; Body.name := Some "Copy";
     Body.device_id := Some "bf5555555555"; Body.device_key := None;
     Body.device_ip := Some "192.168.1.55"; Body.version := None;
     Body.type := None; Body.room := None |}.

End Examples.

(** ** What it means for a device never to have been connected *)

Module Disabled.

Import Multi.

(** The event is a request to remove the device [d]. *)
Definition removes (d : string) (e : Event) : bool :=
  match e with
  | EDeleteDevice _ deviceId => String.eqb deviceId d
  | _ => false
  end.

Section Invariant.

Variable d : string.

(** The reference points to an object whose [id] field is [i]. *)
Definition has_id (hp : list DeviceData) (r : ref) (i : string) : Prop :=
  exists o, hp !! r = Some o /\ id o = i.

Definition pending_ok (hp : list DeviceData) (p : Pending) : Prop :=
  match p with
  | PFind c _ | PConnect c _ => Config.id c <> d
  | PWsSet _ deviceId r _ => has_id hp r deviceId
  | PRestSet _ _ _ | PRefreshGet _ => True
  end.

Definition listener_ok (hp : list DeviceData) (l : Listener) : Prop :=
  Config.id (l_config l) <> d /\
  forall r, l_currentData l = Some r -> has_id hp r (Config.id (l_config l)).

(** No connection to [d] was made, is being made or is scheduled, and no
    object that carries the id [d] is marked connected.  The clauses on
    references say that an object reached under an id carries that id;
    they are what keeps handlers that run for other devices away from the
    objects of [d]. *)
Record never_connected (st : State) : Prop := {
  nc_listed : listed d st = true;
  nc_timers : Forall (fun t => Config.id (snd t) <> d) (timers st);
  nc_pending : Forall (pending_ok (heap st)) (pending st);
  nc_links : Forall (fun c => Config.id c <> d) (links st);
  nc_listeners : Forall (listener_ok (heap st)) (listeners st);
  nc_devices : JSMap.get d (devices st) = None;
  nc_deviceData :
    forall i r, JSMap.get i (deviceData st) = Some r -> has_id (heap st) r i;
  nc_flag : forall r o, heap st !! r = Some o -> id o = d -> connected o = false
}.

(** [deviceData] has an entry for [d]. *)
Definition registered (st : State) : Prop := is_Some (JSMap.get d (deviceData st)).

End Invariant.

End Disabled.

(** ** The canonical fields and their unit conversions *)

Module Fields.

Inductive Field : Type := PowerState | Current | Power | Voltage | Energy.

(** The data point each field is read from. *)
Definition point_id (f : Field) : string :=
  match f with
  | PowerState => "1"
  | Current => "18"
  | Power => "19"
  | Voltage => "20"
  | Energy => "22"
  end.

Definition multi (f : Field) (d : Multi.DeviceData) : JS.Value :=
  match f with
  | PowerState => Multi.power_state d
  | Current => Multi.current d
  | Power => Multi.power d
  | Voltage => Multi.voltage d
  | Energy => Multi.energy d
  end.

Definition single (f : Field) (r : Single.Reading) : JS.Value :=
  match f with
  | PowerState => Single.power_state r
  | Current => Single.current r
  | Power => Single.power r
  | Voltage => Single.voltage r
  | Energy => Single.energy r
  end.

(** The table of conversions, as a statement of what a number reported
    for a field is stored as. *)
Definition multi_conversion (f : Field) (x : float) : JS.Value :=
  match f with
  | PowerState => JS.Num x
  | Current =>
      if PrimFloat.ltb 1000%float x then JS.Num (PrimFloat.div x 10%float) else JS.Num x
  | Power | Voltage => JS.Num (PrimFloat.div x 10%float)
  | Energy => JS.Num (PrimFloat.div x 1000%float)
  end.

Definition single_conversion (f : Field) (x : float) : JS.Value :=
  match f with
  | PowerState | Current => JS.Num x
  | Power | Voltage => JS.Num (PrimFloat.div x 10%float)
  | Energy => JS.Num (PrimFloat.div x 1000%float)
  end.

End Fields.

(** ** Observations on traces and runs of the multi-device server *)

Module Observe.

Import Multi.

(** The [get] calls made by the refresh interval, by instance. *)
Definition polls (t : list Effect) : list handle :=
  omap (fun e =>
          match e with
          | Link (LGet h) => Some h
          | _ => None
          end) t.

(** The calls made on the link, oldest first. *)
Definition link_calls (t : list Effect) : list LinkCall :=
  omap (fun e =>
          match e with
          | Link c => Some c
          | _ => None
          end) t.

(** The messages sent with [broadcastToClients]. *)
Definition broadcasts (t : list Effect) : list Message :=
  omap (fun e =>
          match e with
          | Broadcast m => Some m
          | _ => None
          end) t.

(** The rows appended to CSV files. *)
Definition csv_rows (t : list Effect) : list (string * list CsvRow) :=
  omap (fun e =>
          match e with
          | CsvWrite path rows => Some (path, rows)
          | _ => None
          end) t.

(** Two states that differ in their traces at most. *)
Definition same_store (st st' : State) : Prop :=
  heap st' = heap st /\ deviceData st' = deviceData st /\
  devices st' = devices st /\ deviceWriters st' = deviceWriters st /\
  config_file st' = config_file st /\ csv_files st' = csv_files st /\
  links st' = links st /\ listeners st' = listeners st /\
  timers st' = timers st /\ pending st' = pending st /\
  refreshing st' = refreshing st.

(** Every reference held by [deviceData] points into the store. *)
Definition refs_valid (st : State) : Prop :=
  Forall (fun e => snd e < length (heap st)) (deviceData st).

(** Every reference the server holds, in [deviceData], in the closures
    of listeners and in suspended toggle handlers, points to an object of
    the store, and that object carries the id the reference is held
    under. *)
Definition pending_valid (hp : list DeviceData) (p : Pending) : Prop :=
  match p with
  | PWsSet _ deviceId r _ => Disabled.has_id hp r deviceId
  | _ => True
  end.

Definition listener_valid (hp : list DeviceData) (l : Listener) : Prop :=
  forall r, l_currentData l = Some r -> Disabled.has_id hp r (Config.id (l_config l)).

Record store_valid (st : State) : Prop := {
  sv_deviceData :
    Forall (fun e => Disabled.has_id (heap st) (snd e) (fst e)) (deviceData st);
  sv_listeners : Forall (listener_valid (heap st)) (listeners st);
  sv_pending : Forall (pending_valid (heap st)) (pending st)
}.

(** The requests that only ask for data: a new WebSocket client, a
    message that is not a toggle naming a device, and the two [GET]
    endpoints. *)
Definition asks_only (e : Event) : bool :=
  match e with
  | EWsConnection _ | EGetDevices _ | EGetDevice _ _ => true
  | EWsMessage _ m =>
      match m with
      | Toggle deviceId =>
          match nonempty deviceId with
          | Some _ => false
          | None => true
          end
      | _ => true
      end
  | _ => false
  end.




(** The configuration entry [POST /api/devices] builds from a body whose
    id is [new_id]. *)
Definition new_device (b : Body.t) (new_id : string) : Config.t :=
  {| Config.id := new_id;
     Config.name := or_else (Body.name b) ("Device " ++ new_id)%string;
     Config.device_id := or_else (Body.device_id b) "";
     Config.device_key := or_else (Body.device_key b) "";
     Config.device_ip := or_else (Body.device_ip b) "";
     Config.version := or_else (Body.version b) "3.4";
     Config.type := or_else (Body.type b) "smart_plug";
     Config.room := or_else (Body.room b) "Unknown";
     Config.enabled := true |}.

End Observe.

(** ** More concrete requests and runs *)

Module Samples.

Import Multi.

(** A body for a device the configuration does not know, name and room
    left out. *)
Definition heater_body : Body.t :=
  {| Body.id := Some "device_3"; Body.name := None;
     Body.device_id := Some "bf7777777777"; Body.device_key := Some "7777777777777777";
     Body.device_ip := Some "192.168.1.77"; Body.version := Some "3.3";
     Body.type := None; Body.room := None |}.

(** The plug is connected and has reported, and the heater has just been
    added: its [find] is under way. *)
Definition heater_added : State :=
  step "t6" (EPostDevices 6 heater_body) Examples.plug_measured.

(** The heater's [find] has resolved; its [connect] is under way. *)
Definition heater_connecting : State :=
  step "t7" (ESettle 0 JS.Resolved) heater_added.

End Samples.

(** ** The single-device server: its event loop

    The handlers of [Single] put together: [connectToDevice] with its three
    [await]s, the timers that call it again, the poller, the listeners
    registered on the one [TuyAPI] instance, the WebSocket clients and the
    REST endpoints.  What is sent to one WebSocket client or in answer to
    one HTTP request is collected in [sent]. *)

Module SingleServer.

Import Single.

Abbreviation client := nat (only parsing).
Abbreviation request := nat (only parsing).

Inductive Reply : Type :=
| RStatus (data : Reading)
| RToggled (new_state : bool)
| RError (status : N) (error : string).

Inductive Sent : Type :=
| WsSend (ws : client) (m : Message)
| Http (req : request) (r : Reply).

(** A suspended [async] function, named by the promise it awaits. *)
Inductive Pending : Type :=
| PFind                                  (* connectToDevice at [await device.find()] *)
| PConnect                               (* connectToDevice at [await device.connect()] *)
| PFirstStatus                           (* connectToDevice at [await getDeviceStatusSafe()] *)
| PStatus                                (* a poll or a refresh inside getDeviceStatusSafe *)
| PWsSet (ws : client) (newState : bool) (* the WebSocket toggle at [await device.set] *)
| PRestSet (req : request).              (* POST /api/toggle at [await device.set] *)

Record State : Type := {
  server : Single.State;
  pending : list Pending;
  sent : list Sent
}.

Definition lift (f : Single.State -> Single.State) (st : State) : State :=
  {| server := f (server st); pending := pending st; sent := sent st |}.

Definition await (p : Pending) (st : State) : State :=
  {| server := server st; pending := pending st ++ [p]; sent := sent st |}.

Definition resume (k : nat) (st : State) : State :=
  {| server := server st; pending := delete k (pending st); sent := sent st |}.

Definition send (s : Sent) (st : State) : State :=
  {| server := server st; pending := pending st; sent := sent st ++ [s] |}.

(** A [setTimeout(connectToDevice, _)] has fired. *)
Definition clear_timer (k : nat) (s : Single.State) : Single.State :=
  {| latestDeviceData := latestDeviceData s;
     deviceConnected := deviceConnected s;
     listeners := listeners s;
     intervals := intervals s;
     timers := delete k (timers s);
     trace := trace s |}.

(** [latestDeviceData.power_state = newState;
     latestDeviceData.timestamp = new Date().toISOString()] *)
Definition with_power_state (newState : bool) (now : string) (r : Reading) : Reading :=
  {| timestamp := now;
     power_state := JS.Bool newState;
     current := current r;
     power := power r;
     voltage := voltage r;
     energy := energy r;
     connected := connected r |}.

(** [connectToDevice], up to [await device.find()]. *)
Definition connectToDevice (st : State) : State :=
  let st := lift (emit (Console "Attempting to connect to device...")) st in
  let st := lift (emit (Link LFind)) st in
  await PFind st.

(** [getDeviceStatusSafe] called by the poller or for a refresh. *)
Definition getDeviceStatusSafe (st : State) : State :=
  await PStatus (lift getDeviceStatusSafe_start st).

(** The ["data"] listener. *)
Definition on_data (now : string) (data : JS.RawData) (s : Single.State) : Single.State :=
  handleDeviceData now data (emit (Console "Received device data:") s).

(** An event of the link: every registration of the listener runs, one
    after the other.  [connectToDevice] registers the three listeners on
    the same instance each time it succeeds, and nothing removes them. *)
Definition dispatch (f : Single.State -> Single.State) (st : State) : State :=
  lift (Nat.iter (listeners (server st)) f) st.

(** [wss.on("connection", ...)] *)
Definition ws_connection (ws : client) (st : State) : State :=
  let st := lift (emit (Console "Client connected to WebSocket")) st in
  send (WsSend ws (MData (latestDeviceData (server st)))) st.

(** A message of a client: its [type] after [JSON.parse], or the error
    thrown by the parse, or by reading [type] off a parsed [null]. *)
Inductive WsMessage : Type :=
| WToggle
| WRefresh
| WOther
| WNull (error : string)
| WUnparsable (error : string).

Definition ws_failed (ws : client) (error : string) (st : State) : State :=
  let st := lift (emit (Console "Error handling WebSocket message:")) st in
  send (WsSend ws (MError error)) st.

(** [ws.on("message", ...)], up to its first [await]. *)
Definition ws_message (ws : client) (m : WsMessage) (st : State) : State :=
  match m with
  | WUnparsable error => ws_failed ws error st
  | WNull error =>
      ws_failed ws error (lift (emit (Console "Received WebSocket message:")) st)
  | WToggle =>
      let st := lift (emit (Console "Received WebSocket message:")) st in
      if deviceConnected (server st) then
        let st := lift (emit (Console "Toggling device power state from:")) st in
        let newState := JS.not (power_state (latestDeviceData (server st))) in
        let st := lift (emit (Link (LSet 1 newState))) st in
        await (PWsSet ws newState) st
      else st
  | WRefresh =>
      getDeviceStatusSafe (lift (emit (Console "Received WebSocket message:")) st)
  | WOther => lift (emit (Console "Received WebSocket message:")) st
  end.

(** The WebSocket toggle after [device.set] has settled. *)
Definition ws_toggle_settled (now : string) (ws : client) (newState : bool)
    (o : JS.Outcome) (st : State) : State :=
  match o with
  | JS.Resolved =>
      let st := lift (emit (Console "Device toggled successfully to:")) st in
      let st :=
        lift (fun s => set_latest (with_power_state newState now (latestDeviceData s)) s) st in
      lift (fun s => emit (Broadcast (MData (latestDeviceData s))) s) st
  | JS.Rejected message =>
      let st := lift (emit (Console "Error toggling device:")) st in
      send (WsSend ws (MError ("Failed to toggle device: " ++ message))) st
  end.

(** [GET /api/status] *)
Definition get_status (req : request) (st : State) : State :=
  send (Http req (RStatus (latestDeviceData (server st)))) st.

(** [POST /api/toggle], up to [await device.set]. *)
Definition post_toggle (req : request) (st : State) : State :=
  if negb (deviceConnected (server st)) then
    send (Http req (RError 400 "Device not connected")) st
  else
    let st :=
      lift (fun s => emit (Link (LSet 1 (JS.not (power_state (latestDeviceData s))))) s) st in
    await (PRestSet req) st.

(** [POST /api/toggle] after [device.set] has settled: [new_state] is
    computed from [latestDeviceData] once more. *)
Definition post_toggle_settled (req : request) (o : JS.Outcome) (st : State) : State :=
  match o with
  | JS.Resolved =>
      send (Http req (RToggled (JS.not (power_state (latestDeviceData (server st)))))) st
  | JS.Rejected message => send (Http req (RError 500 message)) st
  end.

(** What an awaited promise settles with: [find], [connect] and [set]
    resolve or are rejected, the race of [getDeviceStatusSafe] gives a
    status or an error. *)
Inductive Settlement : Type :=
| Promise (o : JS.Outcome)
| Race (r : StatusResult).

(** The continuation of [p] run on the settlement; [None] if that is not a
    settlement of the promise awaited. *)
Definition settle (now : string) (p : Pending) (s : Settlement) (st : State)
    : option State :=
  match p, s with
  | PFind, Promise JS.Resolved =>
      let st := lift (emit (Console "Device found, connecting...")) st in
      let st := lift (emit (Link LConnect)) st in
      Some (await PConnect st)
  | PFind, Promise (JS.Rejected message) => Some (lift (connectToDevice_failed message) st)
  | PConnect, Promise JS.Resolved =>
      Some (await PFirstStatus (lift connectToDevice_connected st))
  | PConnect, Promise (JS.Rejected message) =>
      Some (lift (connectToDevice_failed message) st)
  | PFirstStatus, Race r => Some (lift (connectToDevice_status_settled now r) st)
  | PStatus, Race r => Some (lift (getDeviceStatusSafe_settled now r) st)
  | PWsSet ws newState, Promise o => Some (ws_toggle_settled now ws newState o st)
  | PRestSet req, Promise o => Some (post_toggle_settled req o st)
  | _, _ => None
  end.

Inductive Event : Type :=
| ETimer (k : nat)
| ESettle (k : nat) (s : Settlement)
| ETick
| EData (data : JS.RawData)
| EError (message : string)
| EDisconnect
| EWsConnection (ws : client)
| EWsMessage (ws : client) (m : WsMessage)
| EWsClose (ws : client)
| EGetStatus (req : request)
| EPostToggle (req : request).

(** One callback, run to completion at clock value [now]. *)
Definition step (now : string) (e : Event) (st : State) : State :=
  match e with
  | ETimer k =>
      match timers (server st) !! k with
      | Some _ => connectToDevice (lift (clear_timer k) st)
      | None => st
      end
  | ESettle k s =>
      match pending st !! k with
      | Some p =>
          match settle now p s (resume k st) with
          | Some st' => st'
          | None => st
          end
      | None => st
      end
  | ETick =>
      if Nat.eqb (intervals (server st)) 0 then st
      else if deviceConnected (server st) then getDeviceStatusSafe st
      else st
  | EData data => dispatch (on_data now data) st
  | EError message => dispatch (on_error message) st
  | EDisconnect => dispatch on_disconnect st
  | EWsConnection ws => ws_connection ws st
  | EWsMessage ws m => ws_message ws m st
  | EWsClose ws => lift (emit (Console "Client disconnected from WebSocket")) st
  | EGetStatus req => get_status req st
  | EPostToggle req => post_toggle req st
  end.

Fixpoint run (es : list (string * Event)) (st : State) : State :=
  match es with
  | [] => st
  | (now, e) :: es' => run es' (step now e st)
  end.

(** The callback of [app.listen]. *)
Definition boot (now : string) : State :=
  let st := {| server := initial_state now; pending := []; sent := [] |} in
  let st := lift (emit (Console "Server running on port")) st in
  let st := lift (emit (Console "WebSocket server running on port 8080")) st in
  connectToDevice st.

(** The rows written to the CSV file, the messages sent to all clients and
    the calls made on the link, in order. *)
Definition csv_rows (tr : list Effect) : list Reading :=
  omap (fun e => match e with Csv row => Some row | _ => None end) tr.

Definition broadcasts (tr : list Effect) : list Message :=
  omap (fun e => match e with Broadcast m => Some m | _ => None end) tr.

Definition link_calls (tr : list Effect) : list LinkCall :=
  omap (fun e => match e with Link c => Some c | _ => None end) tr.

(** The server after the first connection has gone through, the first
    status included, on a reading of a switched-on device. *)
Definition connected_once : State :=
  run [("t1", ESettle 0 (Promise JS.Resolved));
       ("t2", ESettle 0 (Promise JS.Resolved));
       ("t3", ESettle 0 (Race (Status (JS.Wrapped [("1", JS.Bool true);
                                                   ("20", JS.Num 2301%float)]))))]
      (boot "t0").

(** The link was lost and found again. *)
Definition connected_twice : State :=
  run [("t4", EDisconnect);
       ("t5", ETimer 0);
       ("t6", ESettle 0 (Promise JS.Resolved));
       ("t7", ESettle 0 (Promise JS.Resolved));
       ("t8", ESettle 0 (Race timed_out))]
      connected_once.

End SingleServer.

(** ** The history endpoint of the multi-device server

    Times are milliseconds since the epoch, as [getTime] gives them.  The
    code computes on them in doubles; for the times a valid [Date] can hold
    (at most 8.64e15 in size, below 2^53) the sums [start + i * 3600000] of
    the loop are exact, and so is the quotient whenever it is below the
    bound of 168 that the loop takes the minimum with, so integers compute
    the same points.  The values of a point other than its time depend on
    [Math.random]; they are left to a function of the device, the index and
    the time. *)

Module History.

Local Open Scope Z_scope.

Definition hour : Z := 1 * 60 * 60 * 1000.

(** [new Date(s)]: a time, or Invalid Date. *)
Inductive Date : Type :=
| Invalid
| At (t : Z).

Section Generate.

Variable Values : Type.
Variable values : string -> Z -> Z -> Values.

Record Point : Type := {
  timestamp : Z;
  measured : Values
}.

(** [generateSampleHistoricalData]: the loop runs for
    [i = 0, ..., Math.min(intervals, 168)]. *)
Definition generateSampleHistoricalData (deviceId : string) (startDate endDate : Z)
    : list Point :=
  let duration := endDate - startDate in
  let intervals := duration / hour in
  List.map
    (fun i =>
       let timestamp := startDate + i * hour in
       {| timestamp := timestamp; measured := values deviceId i timestamp |})
    (seqZ 0 (Z.min intervals 168 + 1)).

Inductive Reply : Type :=
| ROk (deviceId : string) (startDate endDate : Z) (data : list Point)
| RError (status : N) (error : string).

(** [GET /api/devices/:deviceId/history]: [now] is read for a missing
    [startDate], [now'] for a missing [endDate].  With an invalid date the
    loop does not run and [toISOString] throws. *)
Definition get_history (now now' : Z) (deviceId : string) (startDate endDate : option Date)
    : Reply :=
  let start := match startDate with Some d => d | None => At (now - 24 * 60 * 60 * 1000) end in
  let end_ := match endDate with Some d => d | None => At now' end in
  match start, end_ with
  | At s, At e => ROk deviceId s e (generateSampleHistoricalData deviceId s e)
  | _, _ => RError 500 "Failed to fetch historical data"
  end.

End Generate.

Arguments timestamp {Values} _.
Arguments measured {Values} _.
Arguments generateSampleHistoricalData {Values} _ _ _ _.
Arguments ROk {Values} _ _ _ _.
Arguments RError {Values} _ _.
Arguments get_history {Values} _ _ _ _ _ _.

End History.

(** ** The dashboard: what the client keeps of the server's messages

    The state updates of [websocket.onmessage] in the multi-device
    dashboard.  A device is the object that came off the wire; its [id] is
    compared with [===] against the [deviceId] of the message.  The point
    added to the history is computed from the reading by [newPoint], which
    for the time stamps the server writes does not throw. *)

Module Client.

Section Reducer.

Variable Point : Type.
Variable newPoint : JS.Object -> Point.

Inductive Message : Type :=
| InitialData (data : list JS.Object)
| DeviceData (deviceId : string) (data : JS.Object)
| DeviceConnect (deviceId : string)
| DeviceDisconnect (deviceId : string)
| DeviceRemoved (deviceId : string)
| Other.

Record State : Type := {
  devices : list JS.Object;
  historicalData : list (string * list Point)
}.

(** [device.id === deviceId] *)
Definition has_id (deviceId : string) (device : JS.Object) : bool :=
  match JS.prop device "id" with
  | JS.Str s => String.eqb s deviceId
  | _ => false
  end.

(** [{ ...device, connected: b }] *)
Definition with_connected (b : bool) (device : JS.Object) : JS.Object :=
  JSMap.set "connected" (JS.Bool b) device.

(** [l.slice(-n)] *)
Definition slice_last {A : Type} (n : nat) (l : list A) : list A :=
  drop (length l - n) l.

Definition set_connected (deviceId : string) (b : bool) (st : State) : State :=
  {| devices :=
       List.map (fun device => if has_id deviceId device then with_connected b device
                               else device) (devices st);
     historicalData := historicalData st |}.

Definition onmessage (m : Message) (st : State) : State :=
  match m with
  | InitialData data => {| devices := data; historicalData := historicalData st |}
  | DeviceData deviceId data =>
      let prev := devices st in
      let updated :=
        List.map (fun device => if has_id deviceId device then data else device) prev in
      let updated :=
        match List.find (has_id deviceId) prev with
        | Some _ => updated
        | None => updated ++ [data]
        end in
      let deviceHistory :=
        match JSMap.get deviceId (historicalData st) with
        | Some h => h
        | None => []
        end in
      let updatedHistory := slice_last 200 (deviceHistory ++ [newPoint data]) in
      {| devices := updated;
         historicalData := JSMap.set deviceId updatedHistory (historicalData st) |}
  | DeviceConnect deviceId => set_connected deviceId true st
  | DeviceDisconnect deviceId => set_connected deviceId false st
  | DeviceRemoved deviceId =>
      {| devices := List.filter (fun device => negb (has_id deviceId device)) (devices st);
         historicalData := JSMap.delete deviceId (historicalData st) |}
  | Other => st
  end.

Definition receive (ms : list Message) (st : State) : State :=
  fold_left (fun st m => onmessage m st) ms st.

Definition initial : State := {| devices := []; historicalData := [] |}.

(** The history kept for a device. *)
Definition history (deviceId : string) (st : State) : list Point :=
  match JSMap.get deviceId (historicalData st) with
  | Some h => h
  | None => []
  end.

End Reducer.

Arguments devices {Point} _.
Arguments historicalData {Point} _.
Arguments set_connected {Point} _ _ _.
Arguments onmessage {Point} _ _ _.
Arguments receive {Point} _ _ _.
Arguments history {Point} _ _.

End Client.

(** * Properties *)

(** Console lines are built with string concatenation; proofs never need
    to look inside them. *)
#[local] Arguments String.append _ _ : simpl never.

(** ** Maps *)

Section JSMapFacts.
Context {V : Type}.
Implicit Types (m : list (string * V)) (k : string) (v : V).

Lemma get_set_eq m k v : JSMap.get k (JSMap.set k v m) = Some v.
Proof.
  induction m as [|[k' v'] m IH]; simpl.
  - now rewrite String.eqb_refl.
  - destruct (String.eqb k' k) eqn:E; simpl; rewrite E; auto.
Qed.

Lemma get_set_ne m k k' v : k <> k' -> JSMap.get k' (JSMap.set k v m) = JSMap.get k' m.
Proof.
  intros Hne. induction m as [|[k0 v0] m IH]; simpl.
  - destruct (String.eqb k k') eqn:E; auto.
    apply String.eqb_eq in E. contradiction.
  - destruct (String.eqb k0 k) eqn:E; simpl.
    + apply String.eqb_eq in E. subst k0.
      destruct (String.eqb k k') eqn:E'; auto.
      apply String.eqb_eq in E'. contradiction.
    + now rewrite IH.
Qed.

Lemma get_delete_eq m k : JSMap.get k (JSMap.delete k m) = None.
Proof.
  induction m as [|[k' v'] m IH]; simpl; auto.
  destruct (String.eqb k' k) eqn:E; simpl; auto.
  now rewrite E.
Qed.

Lemma get_delete_ne m k k' : k <> k' -> JSMap.get k' (JSMap.delete k m) = JSMap.get k' m.
Proof.
  intros Hne. induction m as [|[k0 v0] m IH]; simpl; auto.
  destruct (String.eqb k0 k) eqn:E; simpl.
  - apply String.eqb_eq in E. subst k0.
    destruct (String.eqb k k') eqn:E'; auto.
    apply String.eqb_eq in E'. contradiction.
  - now rewrite IH.
Qed.

(** Deleting a key that is not there leaves the map as it is. *)
Lemma delete_absent m k : JSMap.get k m = None -> JSMap.delete k m = m.
Proof.
  induction m as [|[k' v'] m IH]; simpl; auto.
  destruct (String.eqb k' k) eqn:E; simpl; [discriminate|].
  intros H. now rewrite IH.
Qed.

Lemma get_Some_In m k v : JSMap.get k m = Some v -> In v (JSMap.values m).
Proof.
  induction m as [|[k' v'] m IH]; simpl; [discriminate|].
  destruct (String.eqb k' k); [intros [= ->]; now left | auto].
Qed.

End JSMapFacts.

(** ** Normalisation of data points *)

Lemma pick_absent dps k prev : JS.prop dps k = JS.Undefined -> JS.pick dps k prev = prev.
Proof. unfold JS.pick. now intros ->. Qed.

Lemma pick_number dps k prev x : JS.prop dps k = JS.Num x -> JS.pick dps k prev = JS.Num x.
Proof. unfold JS.pick. now intros ->. Qed.

(** Two numbers told apart by a comparison are different values. *)
Lemma Num_neq_by_ltb (x y bound : float) :
  PrimFloat.ltb x bound <> PrimFloat.ltb y bound -> JS.Num x <> JS.Num y.
Proof. intros H [= E]. apply H. now rewrite E. Qed.

(** What [handleDeviceData] does with a field whose data point is absent:
    the previous value is taken and then put through the field's
    conversion once more.  Only the switch state, and values that are not
    numbers, come out as they went in. *)
Lemma normalize_absent_field (f : Fields.Field) now dps cur :
  JS.prop dps (Fields.point_id f) = JS.Undefined ->
  Fields.multi f (Multi.normalize now dps cur)
  = match Fields.multi f cur with
    | JS.Num x => Fields.multi_conversion f x
    | v => v
    end.
Proof.
  intros H. destruct f; simpl in H |- *; rewrite (pick_absent _ _ _ H);
    match goal with |- context [?g cur] => destruct (g cur) end; reflexivity.
Qed.

(** C2 (the code departs from the claim). A report of every data point is
    followed by a report of the switch alone.  The second report mentions
    neither voltage nor energy, and yet the reading's voltage goes from 220
    to 22 and its energy from 1.5 to 1.5/1000: the carried values are
    divided again.  The single-device server does the same. *)
Theorem partial_update_rescales_carried_fields :
  let before := Examples.plug_measured in
  let after := Multi.step "t5" (Multi.EData 0 (JS.Wrapped Examples.switch_off_update)) before in
  (Multi.voltage <$> Multi.reading "device_1" before) = Some (JS.Num 220%float) /\
  (Multi.energy <$> Multi.reading "device_1" before) = Some (JS.Num 1.5%float) /\
  (Multi.voltage <$> Multi.reading "device_1" after) = Some (JS.Num 22%float) /\
  (Multi.energy <$> Multi.reading "device_1" after)
    = Some (JS.Num (PrimFloat.div 1.5%float 1000%float)) /\
  (Multi.voltage <$> Multi.reading "device_1" after)
    <> (Multi.voltage <$> Multi.reading "device_1" before) /\
  let R := Single.normalize "t4" Examples.full_update (Single.initial_reading "t0") in
  let R' := Single.normalize "t5" Examples.switch_off_update R in
  Single.voltage R = JS.Num 220%float /\
  Single.voltage R' = JS.Num 22%float /\
  Single.voltage R' <> Single.voltage R.
Proof.
  cbv zeta.
  assert (Hneq : JS.Num 22%float <> JS.Num 220%float).
  { apply (Num_neq_by_ltb _ _ 100%float). vm_compute. discriminate. }
  repeat split; try (vm_compute; reflexivity).
  - vm_compute. intros E. apply Hneq. congruence.
  - vm_compute. exact Hneq.
Qed.

(** C8 (the claim as stated fails). A raw current of 500 is stored as 500,
    not as 500/10: the multi-device server divides the current only when it
    exceeds 1000, and the single-device server never divides it (2000 stays
    2000). *)
Lemma current_is_not_always_divided :
  Multi.current
    (Multi.normalize "t4" [("18", JS.Num 500%float)]
       (Multi.initializeDeviceData "t0" Examples.plug))
    <> JS.Num (PrimFloat.div 500%float 10%float) /\
  Single.current
    (Single.normalize "t4" [("18", JS.Num 2000%float)] (Single.initial_reading "t0"))
    <> JS.Num (PrimFloat.div 2000%float 10%float).
Proof.
  split; vm_compute.
  - apply (Num_neq_by_ltb _ _ 100%float). vm_compute. discriminate.
  - apply (Num_neq_by_ltb _ _ 1000%float). vm_compute. discriminate.
Qed.

(** C8 (amended). A numeric voltage or power present in an update is
    stored divided by 10 and a numeric energy divided by 1000, whatever the
    number; a numeric current is stored divided by 10 when it is greater
    than 1000 and as reported otherwise in the multi-device server, and
    always as reported in the single-device server. *)
Theorem unit_conversions
    (f : Fields.Field) (now : string) (dps : JS.Object) (x : float)
    (cur : Multi.DeviceData) (prev : Single.Reading) :
  JS.prop dps (Fields.point_id f) = JS.Num x ->
  Fields.multi f (Multi.normalize now dps cur) = Fields.multi_conversion f x /\
  Fields.single f (Single.normalize now dps prev) = Fields.single_conversion f x.
Proof.
  intros H. destruct f; simpl in H |- *; split; rewrite (pick_number _ _ _ _ H); reflexivity.
Qed.

(** The conversions at work on a raw current of 1500. *)
Lemma unit_conversions_witness :
  Multi.current
    (Multi.normalize "t4" [("18", JS.Num 1500%float)]
       (Multi.initializeDeviceData "t0" Examples.plug))
  = JS.Num (PrimFloat.div 1500%float 10%float) /\
  Single.current
    (Single.normalize "t4" [("18", JS.Num 1500%float)] (Single.initial_reading "t0"))
  = JS.Num 1500%float.
Proof.
  apply (unit_conversions Fields.Current "t4" [("18", JS.Num 1500%float)] 1500%float
           (Multi.initializeDeviceData "t0" Examples.plug) (Single.initial_reading "t0")).
  reflexivity.
Defined.

(** ** Data for a device without a reading *)

(** C10. When [deviceData] has no entry for the device, [handleDeviceData]
    prints its first console line and returns: the object store, the three
    maps, the files, the listeners, timers and suspended continuations are
    as before, and the trace gains no broadcast and no CSV row. *)
Theorem handleDeviceData_without_reading
    (now deviceId : string) (data : JS.RawData) (st : Multi.State) :
  JSMap.get deviceId (Multi.deviceData st) = None ->
  Multi.handleDeviceData now deviceId data st
  = Multi.emit (Multi.Console ("Processing data for " ++ deviceId ++ ":")%string) st /\
  Multi.reading deviceId (Multi.handleDeviceData now deviceId data st) = None.
Proof.
  intros H. unfold Multi.handleDeviceData. simpl. rewrite H. split; [reflexivity|].
  unfold Multi.reading. simpl. now rewrite H.
Qed.

(** The plug was removed while connected, and its instance reports once
    more. *)
Lemma handleDeviceData_without_reading_witness :
  Multi.handleDeviceData "t5" "device_1" (JS.Wrapped Examples.full_update)
    Examples.plug_removed
  = Multi.emit (Multi.Console "Processing data for device_1:") Examples.plug_removed /\
  Multi.reading "device_1"
    (Multi.handleDeviceData "t5" "device_1" (JS.Wrapped Examples.full_update)
       Examples.plug_removed) = None.
Proof.
  apply (handleDeviceData_without_reading "t5" "device_1"
           (JS.Wrapped Examples.full_update) Examples.plug_removed).
  reflexivity.
Defined.

(** ** Polling *)

(** C7. A poll that times out is logged and nothing else: in the
    single-device server the settled race leaves [latestDeviceData] (its
    [connected] flag included), [deviceConnected] and the timers as they
    were and adds one console line; in the multi-device server a rejected
    refresh [get], whatever its message, does the same.  An error of the
    poll other than the timeout clears the [connected] flag of the
    single-device reading, and a failed connection attempt, a timeout
    included, clears the flags and schedules a retry in either server. *)
Theorem poll_timeout_is_ignored (now : string) :
  (forall st,
      Single.getDeviceStatusSafe_settled now Single.timed_out st
      = Single.emit (Single.Console "Error getting device status:") st) /\
  (forall deviceId message st,
      Multi.settle now (Multi.PRefreshGet deviceId) (JS.Rejected message) st
      = Multi.emit
          (Multi.Console
             ("Error refreshing data for " ++ deviceId ++ ": " ++ message)%string) st) /\
  (forall message st,
      Single.connected
        (Single.latestDeviceData
           (Single.getDeviceStatusSafe_settled now (Single.Failed message) st))
      = if String.eqb message "Timeout"
        then Single.connected (Single.latestDeviceData st)
        else false) /\
  (forall message st,
      let st' := Single.connectToDevice_failed message st in
      Single.connected (Single.latestDeviceData st') = false /\
      Single.deviceConnected st' = false /\
      Single.timers st' = Single.timers st ++ [10000%N]) /\
  (forall c h message st,
      let st' := Multi.settle now (Multi.PConnect c h) (JS.Rejected message) st in
      Multi.timers st' = Multi.timers st ++ [(15000%N, c)] /\
      Multi.reading (Multi.Config.id c) st'
      = Multi.with_connected false <$> Multi.reading (Multi.Config.id c) st).
Proof.
  repeat split.
  - intros message st. simpl. destruct (String.eqb message "Timeout"); reflexivity.
  - simpl. unfold Multi.connectToDevice_failed, Multi.mark_connected. simpl.
    destruct (JSMap.get (Multi.Config.id c) (Multi.deviceData st)); reflexivity.
  - simpl.
    unfold Multi.connectToDevice_failed, Multi.mark_connected, Multi.reading. simpl.
    destruct (JSMap.get (Multi.Config.id c) (Multi.deviceData st)) as [r|] eqn:Hr; simpl.
    + rewrite get_set_eq. simpl. unfold Multi.deref. simpl.
      apply list_lookup_alter_eq.
    + now rewrite Hr.
Qed.

(** ** Requests that name no device *)

Lemma filter_not_listed (deviceId : string) (config : list Multi.Config.t) :
  existsb (fun d => String.eqb (Multi.Config.id d) deviceId) config = false ->
  List.filter (fun d => negb (String.eqb (Multi.Config.id d) deviceId)) config = config.
Proof.
  induction config as [|c config IH]; simpl; auto.
  destruct (String.eqb (Multi.Config.id c) deviceId); simpl; [discriminate|].
  intros H. now rewrite IH.
Qed.

(** C9 (the claim as stated fails). A [DELETE] for an id the server has
    never heard of is answered with success, and a removal is broadcast. *)
Lemma remove_unknown_reports_success :
  Multi.unknown "ghost" Examples.plug_connected /\
  Multi.trace (Multi.step "t5" (Multi.EDeleteDevice 7 "ghost") Examples.plug_connected)
  = Multi.trace Examples.plug_connected
      ++ [ Multi.Broadcast (Multi.MDeviceRemoved "ghost"); Multi.Http 7 Multi.RRemoved ].
Proof. split; [|vm_compute; reflexivity]. repeat split; vm_compute; reflexivity. Qed.

(** C9 (amended). For an id with no instance, no reading, no writer and no
    entry in [devices.json]: a toggle is refused with the error
    "Device not connected" (status 400 over REST), and a removal is
    answered with success after a [device_removed] broadcast; in all three
    cases nothing but the trace changes. *)
Theorem requests_for_unknown_device
    (req : Multi.request) (ws : Multi.client) (deviceId : string) (st : Multi.State) :
  Multi.unknown deviceId st ->
  Multi.post_toggle req deviceId st
  = Multi.emit (Multi.Http req (Multi.RError 400%N "Device not connected")) st /\
  Multi.ws_toggle ws deviceId st
  = Multi.emit (Multi.WsSend ws (Multi.MError (Some deviceId) "Device not connected")) st /\
  Multi.delete_device req deviceId st
  = Multi.emit (Multi.Http req Multi.RRemoved)
      (Multi.emit (Multi.Broadcast (Multi.MDeviceRemoved deviceId)) st).
Proof.
  intros (Hdev & Hdata & Hwr & Hcfg).
  unfold Multi.post_toggle, Multi.ws_toggle, Multi.delete_device.
  rewrite Hdev. repeat split.
  destruct st as [hp dd dv dw cf csv lk ls tm pd rf tr].
  unfold Multi.listed in Hcfg. simpl in *.
  rewrite (delete_absent _ _ Hdata), (delete_absent _ _ Hwr).
  destruct cf as [config|]; simpl; [|reflexivity].
  now rewrite (filter_not_listed _ _ Hcfg).
Qed.

Lemma requests_for_unknown_device_witness :
  Multi.post_toggle 7 "ghost" Examples.plug_connected
  = Multi.emit (Multi.Http 7 (Multi.RError 400%N "Device not connected"))
      Examples.plug_connected /\
  Multi.ws_toggle 3 "ghost" Examples.plug_connected
  = Multi.emit (Multi.WsSend 3 (Multi.MError (Some "ghost") "Device not connected"))
      Examples.plug_connected /\
  Multi.delete_device 7 "ghost" Examples.plug_connected
  = Multi.emit (Multi.Http 7 Multi.RRemoved)
      (Multi.emit (Multi.Broadcast (Multi.MDeviceRemoved "ghost")) Examples.plug_connected).
Proof.
  apply (requests_for_unknown_device 7 3 "ghost" Examples.plug_connected).
  repeat split; vm_compute; reflexivity.
Defined.

(** ** Adding a device *)

Lemma existsb_find {A : Type} (f : A -> bool) (l : list A) :
  existsb f l = true -> exists x, List.find f l = Some x.
Proof.
  induction l as [|a l IH]; simpl; [discriminate|].
  destruct (f a); eauto.
Qed.

(** C6 (the claim as stated fails). The plug is registered and listed in
    [devices.json]; a body that names its id but lacks the key is refused
    with "Missing required fields", not with the duplicate-id error: the
    required fields are checked before the id is looked up. *)
Lemma duplicate_id_without_key_is_missing_fields :
  Multi.listed "device_1" Examples.plug_connected = true /\
  is_Some (Multi.reading "device_1" Examples.plug_connected) /\
  Multi.trace
    (Multi.step "t9" (Multi.EPostDevices 9 Examples.keyless_body) Examples.plug_connected)
  = Multi.trace Examples.plug_connected
      ++ [ Multi.Http 9 (Multi.RError 400%N "Missing required fields") ].
Proof.
  split; [vm_compute; reflexivity|]. split; [|vm_compute; reflexivity].
  vm_compute. eauto.
Qed.

(** C6 (amended). A [POST /api/devices] whose id is listed in
    [devices.json] is refused with status 400 and changes nothing but the
    trace: with the error "Device ID already exists" when the four required
    fields are there, and with "Missing required fields" otherwise. *)
Theorem add_with_listed_id_is_rejected
    (now : string) (req : Multi.request) (body : Multi.Body.t) (st : Multi.State)
    (deviceId : string) :
  Multi.nonempty (Multi.Body.id body) = Some deviceId ->
  Multi.listed deviceId st = true ->
  Multi.post_devices now req body st
  = Multi.emit
      (Multi.Http req
         (Multi.RError 400%N
            (if Multi.complete body then "Device ID already exists"
             else "Missing required fields"))) st.
Proof.
  intros Hid Hlisted. unfold Multi.post_devices, Multi.complete. rewrite Hid.
  destruct (Multi.nonempty (Multi.Body.device_id body)); [|reflexivity].
  destruct (Multi.nonempty (Multi.Body.device_key body)); [|reflexivity].
  destruct (Multi.nonempty (Multi.Body.device_ip body)); [|reflexivity].
  unfold Multi.listed in Hlisted.
  destruct (Multi.config_file st) as [config|]; [|discriminate].
  destruct (existsb_find _ _ Hlisted) as [x ->]. reflexivity.
Qed.

Lemma add_with_listed_id_is_rejected_witness :
  Multi.post_devices "t9" 9 Examples.duplicate_body Examples.plug_connected
  = Multi.emit (Multi.Http 9 (Multi.RError 400%N "Device ID already exists"))
      Examples.plug_connected.
Proof.
  apply (add_with_listed_id_is_rejected "t9" 9 Examples.duplicate_body
           Examples.plug_connected "device_1"); vm_compute; reflexivity.
Defined.

(** The lookup is made in [devices.json] and not in [deviceData].  When the
    server was started from the environment there is no such file: the
    device ["device_1"] has a reading, and a request to add ["device_1"] is
    accepted all the same, replaces that reading by a fresh one and starts a
    connection for the id next to the one already scheduled. *)
Lemma add_of_environment_device_is_accepted :
  let st := Examples.env_booted in
  let st' := Multi.step "t9" (Multi.EPostDevices 9 Examples.duplicate_body) st in
  (Multi.name <$> Multi.reading "device_1" st) = Some "Smart Plug" /\
  Multi.listed "device_1" st = false /\
  (Multi.name <$> Multi.reading "device_1" st') = Some "Copy" /\
  List.map Multi.Config.id (List.map snd (Multi.timers st') ++ Multi.links st')
  = ["device_1"; "device_1"] /\
  exists device, Multi.answers (Multi.trace st') = [Multi.Http 9 (Multi.RAdded device)].
Proof.
  cbv zeta. repeat split; try (vm_compute; reflexivity).
  eexists. vm_compute. reflexivity.
Qed.

(** ** Toggling *)

Section Toggle.

Variables (st : Multi.State) (deviceId : string) (h : Multi.handle) (r : Multi.ref)
          (o : Multi.DeviceData).
Hypothesis Hdevice : JSMap.get deviceId (Multi.devices st) = Some h.
Hypothesis Hdata : JSMap.get deviceId (Multi.deviceData st) = Some r.
Hypothesis Hobject : Multi.heap st !! r = Some o.
Hypothesis Hconnected : Multi.connected o = true.

(** The REST handler, for a device that is connected: the [set] goes to
    the link and the handler waits. *)
Lemma post_toggle_connected (req : Multi.request) :
  Multi.post_toggle req deviceId st
  = Multi.set_pending
      (Multi.pending st ++ [Multi.PRestSet req deviceId (JS.not (Multi.power_state o))])
      (Multi.emit (Multi.Link (Multi.LSet h 1 (JS.not (Multi.power_state o)))) st).
Proof.
  unfold Multi.post_toggle, Multi.snapshot, Multi.deref.
  now rewrite Hdevice, Hdata, Hobject, Hconnected.
Qed.

(** The WebSocket handler, likewise. *)
Lemma ws_toggle_connected (ws : Multi.client) :
  Multi.ws_toggle ws deviceId st
  = Multi.set_pending
      (Multi.pending st ++ [Multi.PWsSet ws deviceId r (JS.not (Multi.power_state o))])
      (Multi.emit (Multi.Link (Multi.LSet h 1 (JS.not (Multi.power_state o))))
         (Multi.emit (Multi.Console ("Toggling " ++ deviceId ++ " from:")%string) st)).
Proof.
  unfold Multi.ws_toggle, Multi.deref.
  now rewrite Hdevice, Hdata, Hobject, Hconnected.
Qed.

End Toggle.

Lemma nonempty_Some (s : string) : s <> "" -> Multi.nonempty (Some s) = Some s.
Proof.
  intros H. simpl. destruct (String.eqb s "") eqn:E; auto.
  apply String.eqb_eq in E. contradiction.
Qed.

Lemma set_calls_app h t1 t2 :
  Multi.set_calls h (t1 ++ t2) = Multi.set_calls h t1 ++ Multi.set_calls h t2.
Proof. apply omap_app. Qed.

Lemma answers_app t1 t2 :
  Multi.answers (t1 ++ t2) = Multi.answers t1 ++ Multi.answers t2.
Proof. apply List.filter_app. Qed.

(** One toggle request for a connected device: whatever is already in
    flight, the inverse of the stored switch state is sent to the link, the
    handler is suspended, nobody is answered yet, and the store and the
    maps are as before. *)
Lemma toggle_request_is_forwarded now e st deviceId h r o :
  deviceId <> "" ->
  JSMap.get deviceId (Multi.devices st) = Some h ->
  JSMap.get deviceId (Multi.deviceData st) = Some r ->
  Multi.heap st !! r = Some o ->
  Multi.connected o = true ->
  Multi.toggles deviceId e ->
  let st' := Multi.step now e st in
  Multi.heap st' = Multi.heap st /\
  Multi.deviceData st' = Multi.deviceData st /\
  Multi.devices st' = Multi.devices st /\
  Multi.set_calls h (Multi.trace st')
  = Multi.set_calls h (Multi.trace st) ++ [JS.not (Multi.power_state o)] /\
  Multi.answers (Multi.trace st') = Multi.answers (Multi.trace st) /\
  length (Multi.pending st') = S (length (Multi.pending st)).
Proof.
  intros Hne Hdev Hdata Hobj Hconn [req|ws]; cbv zeta; unfold Multi.step.
  - rewrite (post_toggle_connected st deviceId h r o) by assumption. simpl.
    rewrite set_calls_app, answers_app, length_app. simpl.
    rewrite Nat.eqb_refl, app_nil_r. repeat split; auto. lia.
  - unfold Multi.ws_message. rewrite (nonempty_Some _ Hne).
    rewrite (ws_toggle_connected _ deviceId h r o) by assumption. simpl.

    rewrite !set_calls_app, !answers_app, length_app. simpl.
    rewrite Nat.eqb_refl, !app_nil_r. repeat split; auto. lia.
Qed.

(** C1 (the claim as stated fails). With the plug connected, a REST toggle
    is followed by a WebSocket toggle before the first [set] has settled.
    Both [set] calls reach the link, both handlers are suspended, and
    nobody has been sent a reply, a busy one or any other. *)
Lemma second_toggle_is_forwarded_too :
  let st := Examples.plug_connected in
  let st' :=
    Multi.run [ ("t5", Multi.EPostToggle 1 "device_1");
                ("t6", Multi.EWsMessage 4 (Multi.Toggle (Some "device_1"))) ] st in
  Multi.set_calls 0 (Multi.trace st) = [] /\
  Multi.set_calls 0 (Multi.trace st') = [true; true] /\
  Multi.pending st'
  = [ Multi.PRestSet 1 "device_1" true; Multi.PWsSet 4 "device_1" 0 true ] /\
  Multi.answers (Multi.trace st') = Multi.answers (Multi.trace st).
Proof. cbv zeta. repeat split; vm_compute; reflexivity. Qed.

(** C1 (amended). For a device that has an instance and a reading marked
    connected, every toggle request is forwarded to the link, also while an
    earlier [set] for the same device is in flight: of two toggles issued
    back to back both are sent, each carrying the inverse of the stored
    switch state, both handlers wait for their [set], and neither request
    is answered at that point; there is no busy reply. *)
Theorem toggles_are_not_serialized now1 now2 e1 e2 st deviceId h r o :
  deviceId <> "" ->
  JSMap.get deviceId (Multi.devices st) = Some h ->
  JSMap.get deviceId (Multi.deviceData st) = Some r ->
  Multi.heap st !! r = Some o ->
  Multi.connected o = true ->
  Multi.toggles deviceId e1 ->
  Multi.toggles deviceId e2 ->
  let st2 := Multi.step now2 e2 (Multi.step now1 e1 st) in
  Multi.set_calls h (Multi.trace st2)
  = Multi.set_calls h (Multi.trace st)
      ++ [JS.not (Multi.power_state o); JS.not (Multi.power_state o)] /\
  Multi.answers (Multi.trace st2) = Multi.answers (Multi.trace st) /\
  length (Multi.pending st2) = length (Multi.pending st) + 2.
Proof.
  intros Hne Hdev Hdata Hobj Hconn H1 H2. cbv zeta.
  destruct (toggle_request_is_forwarded now1 e1 st deviceId h r o)
    as (Hh & Hdd & Hdv & Hset & Hans & Hlen); auto.
  destruct (toggle_request_is_forwarded now2 e2 (Multi.step now1 e1 st) deviceId h r o)
    as (_ & _ & _ & Hset' & Hans' & Hlen'); auto; try congruence.
  rewrite Hset', Hset, Hans', Hans, Hlen', Hlen, <- app_assoc. simpl.
  repeat split; auto. lia.
Qed.

Lemma toggles_are_not_serialized_witness :
  let st2 :=
    Multi.step "t6" (Multi.EWsMessage 4 (Multi.Toggle (Some "device_1")))
      (Multi.step "t5" (Multi.EPostToggle 1 "device_1") Examples.plug_connected) in
  Multi.set_calls 0 (Multi.trace st2)
  = Multi.set_calls 0 (Multi.trace Examples.plug_connected) ++ [true; true] /\
  Multi.answers (Multi.trace st2) = Multi.answers (Multi.trace Examples.plug_connected) /\
  length (Multi.pending st2) = length (Multi.pending Examples.plug_connected) + 2.
Proof.
  apply (toggles_are_not_serialized "t5" "t6" (Multi.EPostToggle 1 "device_1")
           (Multi.EWsMessage 4 (Multi.Toggle (Some "device_1")))
           Examples.plug_connected "device_1" 0 0
           (Multi.with_connected true (Multi.initializeDeviceData "t0" Examples.plug)));
    try (vm_compute; reflexivity); try constructor.
  discriminate.
Defined.

(** The suspended handler added last is the one found at the old length of
    the list, and taking it out gives the old list back. *)
Lemma pending_last (l : list Multi.Pending) (p : Multi.Pending) :
  (l ++ [p]) !! length l = Some p /\ delete (length l) (l ++ [p]) = l.
Proof.
  split.
  - now apply list_lookup_middle.
  - rewrite delete_middle. apply app_nil_r.
Qed.

(** C3 (the claim as stated fails). The plug is connected and switched
    off.  After a WebSocket toggle has sent its [set], and before the link
    has confirmed it, the reading still says off.  After a REST toggle and
    the link's confirmation the request is answered with the new state
    [true], and the reading still says off. *)
Lemma reading_is_not_updated_before_confirmation :
  let st := Examples.plug_connected in
  let ws1 := Multi.step "t5" (Multi.EWsMessage 4 (Multi.Toggle (Some "device_1"))) st in
  let rest2 :=
    Multi.run [ ("t5", Multi.EPostToggle 1 "device_1");
                ("t6", Multi.ESettle 0 JS.Resolved) ] st in
  (Multi.power_state <$> Multi.reading "device_1" st) = Some (JS.Bool false) /\
  (Multi.connected <$> Multi.reading "device_1" st) = Some true /\
  Multi.set_calls 0 (Multi.trace ws1) = [true] /\
  Multi.pending ws1 = [Multi.PWsSet 4 "device_1" 0 true] /\
  (Multi.power_state <$> Multi.reading "device_1" ws1) = Some (JS.Bool false) /\
  Multi.answers (Multi.trace rest2) = [Multi.Http 1 (Multi.RToggled "device_1" true)] /\
  (Multi.power_state <$> Multi.reading "device_1" rest2) = Some (JS.Bool false).
Proof. cbv zeta. repeat split; vm_compute; reflexivity. Qed.

(** C3 (amended). For a connected device whose reading says off, a toggle
    sends exactly one [set] carrying [true] to the link and leaves the
    reading as it is while the [set] is in flight.  When the link confirms,
    the WebSocket handler sets the reading's switch state to [true] and its
    timestamp to the time of the confirmation and broadcasts the reading;
    the REST handler answers with the new state [true]. *)
Theorem toggle_of_switched_off_device now now' ws req st deviceId h r o :
  deviceId <> "" ->
  JSMap.get deviceId (Multi.devices st) = Some h ->
  JSMap.get deviceId (Multi.deviceData st) = Some r ->
  Multi.heap st !! r = Some o ->
  Multi.connected o = true ->
  JS.truthy (Multi.power_state o) = false ->
  let k := length (Multi.pending st) in
  let ws1 := Multi.step now (Multi.EWsMessage ws (Multi.Toggle (Some deviceId))) st in
  let ws2 := Multi.step now' (Multi.ESettle k JS.Resolved) ws1 in
  let rest1 := Multi.step now (Multi.EPostToggle req deviceId) st in
  let rest2 := Multi.step now' (Multi.ESettle k JS.Resolved) rest1 in
  let o' := Multi.with_power_state true now' o in
  (Multi.set_calls h (Multi.trace ws1) = Multi.set_calls h (Multi.trace st) ++ [true] /\
   Multi.reading deviceId ws1 = Some o /\
   Multi.reading deviceId ws2 = Some o' /\
   Multi.trace ws2
   = Multi.trace ws1
       ++ [ Multi.Console ("Device " ++ deviceId ++ " toggled successfully to:")%string;
            Multi.Broadcast (Multi.MDeviceData deviceId o') ]) /\
  (Multi.set_calls h (Multi.trace rest1) = Multi.set_calls h (Multi.trace st) ++ [true] /\
   Multi.reading deviceId rest1 = Some o /\
   Multi.set_calls h (Multi.trace rest2) = Multi.set_calls h (Multi.trace st) ++ [true] /\
   In (Multi.Http req (Multi.RToggled deviceId true)) (Multi.trace rest2)).
Proof.
  intros Hne Hdev Hdata Hobj Hconn Hoff. cbv zeta.
  assert (Hnot : JS.not (Multi.power_state o) = true) by (unfold JS.not; now rewrite Hoff).
  destruct (pending_last (Multi.pending st) (Multi.PWsSet ws deviceId r true)) as [Hw1 Hw2].
  destruct (pending_last (Multi.pending st) (Multi.PRestSet req deviceId true)) as [Hr1 Hr2].
  assert (Ews : Multi.step now (Multi.EWsMessage ws (Multi.Toggle (Some deviceId))) st
                = Multi.set_pending
                    (Multi.pending st ++ [Multi.PWsSet ws deviceId r true])
                    (Multi.emit (Multi.Link (Multi.LSet h 1 true))
                       (Multi.emit (Multi.Console ("Toggling " ++ deviceId ++ " from:")%string)
                          (Multi.emit (Multi.Console "Received WebSocket message:") st)))).
  { unfold Multi.step, Multi.ws_message. rewrite (nonempty_Some _ Hne).
    rewrite (ws_toggle_connected _ deviceId h r o) by assumption. now rewrite Hnot. }
  assert (Erest : Multi.step now (Multi.EPostToggle req deviceId) st
                  = Multi.set_pending
                      (Multi.pending st ++ [Multi.PRestSet req deviceId true])
                      (Multi.emit (Multi.Link (Multi.LSet h 1 true)) st)).
  { unfold Multi.step.
    rewrite (post_toggle_connected st deviceId h r o) by assumption. now rewrite Hnot. }
  rewrite Ews, Erest. clear Ews Erest.
  unfold Multi.step. cbn [Multi.pending Multi.set_pending Multi.emit].
  rewrite Hw1, Hw2, Hr1, Hr2.
  unfold Multi.reading, Multi.snapshot, Multi.deref. simpl.
  rewrite !set_calls_app. simpl. rewrite Nat.eqb_refl, app_nil_r.
  rewrite Hdata, Hobj. unfold Multi.deref. simpl.
  rewrite !list_lookup_alter_eq, !Hobj. simpl.
  rewrite !get_set_eq. simpl.
  rewrite !list_lookup_alter_eq, !Hobj. simpl.
  rewrite !app_nil_r, <- !app_assoc. repeat split.
  apply in_or_app. right. simpl. auto.
Qed.

Lemma toggle_of_switched_off_device_witness :
  let st := Examples.plug_connected in
  let ws1 := Multi.step "t5" (Multi.EWsMessage 4 (Multi.Toggle (Some "device_1"))) st in
  let ws2 := Multi.step "t6" (Multi.ESettle 0 JS.Resolved) ws1 in
  let rest1 := Multi.step "t5" (Multi.EPostToggle 1 "device_1") st in
  let rest2 := Multi.step "t6" (Multi.ESettle 0 JS.Resolved) rest1 in
  let o := Multi.with_connected true (Multi.initializeDeviceData "t0" Examples.plug) in
  let o' := Multi.with_power_state true "t6" o in
  (Multi.set_calls 0 (Multi.trace ws1) = Multi.set_calls 0 (Multi.trace st) ++ [true] /\
   Multi.reading "device_1" ws1 = Some o /\
   Multi.reading "device_1" ws2 = Some o' /\
   Multi.trace ws2
   = Multi.trace ws1
       ++ [ Multi.Console "Device device_1 toggled successfully to:";
            Multi.Broadcast (Multi.MDeviceData "device_1" o') ]) /\
  (Multi.set_calls 0 (Multi.trace rest1) = Multi.set_calls 0 (Multi.trace st) ++ [true] /\
   Multi.reading "device_1" rest1 = Some o /\
   Multi.set_calls 0 (Multi.trace rest2) = Multi.set_calls 0 (Multi.trace st) ++ [true] /\
   In (Multi.Http 1 (Multi.RToggled "device_1" true)) (Multi.trace rest2)).
Proof.
  apply (toggle_of_switched_off_device "t5" "t6" 4 1 Examples.plug_connected
           "device_1" 0 0
           (Multi.with_connected true (Multi.initializeDeviceData "t0" Examples.plug)));
    try (vm_compute; reflexivity).
  discriminate.
Defined.

(** ** Losing the connection *)

(** In the single-device server the handlers assign to the [connected]
    field of the object [latestDeviceData] names at that moment: the
    metrics of the reading are those it had. *)
Lemma single_disconnect_keeps_metrics (message : string) (st : Single.State) :
  Single.latestDeviceData (Single.on_disconnect st)
  = Single.with_connected false (Single.latestDeviceData st) /\
  Single.latestDeviceData (Single.on_error message st)
  = Single.with_connected false (Single.latestDeviceData st).
Proof. split; reflexivity. Qed.

(** C4 (the code departs from the claim). The plug connects, reports
    500 mA, 220 V and 1.5 kWh, and then the link drops.  The [disconnect]
    listener of the multi-device server does not clear the flag of the
    reading in the map: it clears the flag of the object it captured when
    the connection was made and puts that object back into the map.  The
    reading after the disconnect is the one of connection time, with
    current, voltage and energy 0; the same happens on an [error] event. *)
Theorem disconnect_restores_reading_of_connection_time :
  let before := Examples.plug_measured in
  let after := Multi.step "t5" (Multi.EDisconnect 0) before in
  let after_error := Multi.step "t5" (Multi.EError 0 "ECONNRESET") before in
  (Multi.current <$> Multi.reading "device_1" before) = Some (JS.Num 500%float) /\
  (Multi.voltage <$> Multi.reading "device_1" before) = Some (JS.Num 220%float) /\
  (Multi.energy <$> Multi.reading "device_1" before) = Some (JS.Num 1.5%float) /\
  Multi.reading "device_1" after
  = Some (Multi.with_connected false (Multi.initializeDeviceData "t0" Examples.plug)) /\
  (Multi.current <$> Multi.reading "device_1" after) = Some (JS.Num 0%float) /\
  (Multi.voltage <$> Multi.reading "device_1" after) = Some (JS.Num 0%float) /\
  (Multi.energy <$> Multi.reading "device_1" after) = Some (JS.Num 0%float) /\
  Multi.reading "device_1" after_error = Multi.reading "device_1" after.
Proof. cbv zeta. repeat split; vm_compute; reflexivity. Qed.

(** What the [disconnect] and [error] listeners leave in the map is the
    object they captured, whatever the map held before. *)
Lemma disconnect_puts_captured_object_back (l : Multi.Listener) (st : Multi.State) r o :
  Multi.l_currentData l = Some r ->
  Multi.heap st !! r = Some o ->
  Multi.reading (Multi.Config.id (Multi.l_config l)) (Multi.on_disconnect l st)
  = Some (Multi.with_connected false o).
Proof.
  intros Hl Ho. unfold Multi.on_disconnect, Multi.mark_connected, Multi.reading.
  rewrite Hl. simpl. rewrite get_set_eq. simpl. unfold Multi.deref. simpl.
  now rewrite list_lookup_alter_eq, Ho.
Qed.

(** ** A disabled device *)

Section DisabledDevice.

Import Multi Disabled.

Variable d : string.

Implicit Types (st : State) (hp : list DeviceData) (c : Config.t).

(** *** References keep their ids *)

Lemma has_id_alloc hp o r i : has_id hp r i -> has_id (hp ++ [o]) r i.
Proof. intros (x & Hx & Hid). exists x. split; auto. now apply lookup_app_l_Some. Qed.

Lemma has_id_new hp o : has_id (hp ++ [o]) (length hp) (id o).
Proof. exists o. split; auto. now apply list_lookup_middle. Qed.

Lemma has_id_alter hp (f : DeviceData -> DeviceData) r' r i :
  (forall o, id (f o) = id o) -> has_id hp r i -> has_id (alter f r' hp) r i.
Proof.
  intros Hf (x & Hx & Hid). destruct (decide (r' = r)) as [->|Hne].
  - exists (f x). rewrite list_lookup_alter_eq, Hx. split; auto. now rewrite Hf.
  - exists x. rewrite list_lookup_alter_ne by assumption. auto.
Qed.

Lemma pending_ok_mono hp hp' p :
  (forall r i, has_id hp r i -> has_id hp' r i) ->
  pending_ok d hp p -> pending_ok d hp' p.
Proof. intros H. destruct p; simpl; auto. Qed.

Lemma listener_ok_mono hp hp' l :
  (forall r i, has_id hp r i -> has_id hp' r i) ->
  listener_ok d hp l -> listener_ok d hp' l.
Proof. intros H [H1 H2]. split; auto. Qed.

(** *** The elementary updates of the state *)

Lemma nc_emit e st : never_connected d st -> never_connected d (emit e st).
Proof. intros []. constructor; auto. Qed.

Lemma nc_set_heap hp' st :
  (forall r i, has_id (heap st) r i -> has_id hp' r i) ->
  (forall r o, hp' !! r = Some o -> id o = d -> connected o = false) ->
  never_connected d st -> never_connected d (set_heap hp' st).
Proof.
  intros Hmono Hflag []. constructor; simpl; auto.
  - eapply Forall_impl; [eassumption|]. intros p. now apply pending_ok_mono.
  - eapply Forall_impl; [eassumption|]. intros l. now apply listener_ok_mono.
Qed.

Lemma nc_alloc o st :
  (id o = d -> connected o = false) ->
  never_connected d st -> never_connected d (snd (alloc o st)).
Proof.
  intros Ho H. apply nc_set_heap; auto.
  - intros r i. apply has_id_alloc.
  - intros r x Hx Hid. apply lookup_app_Some in Hx as [Hx|[_ Hx]].
    + eapply nc_flag; eauto.
    + apply list_lookup_singleton_Some in Hx as [_ <-]. auto.
Qed.

Lemma nc_mutate (f : DeviceData -> DeviceData) r st :
  (forall o, id (f o) = id o) ->
  (forall o, heap st !! r = Some o -> id o = d -> connected (f o) = false) ->
  never_connected d st -> never_connected d (mutate r f st).
Proof.
  intros Hid Hflag H. apply nc_set_heap; auto.
  - intros r' i. now apply has_id_alter.
  - intros r' x Hx Hd. destruct (decide (r = r')) as [->|Hne].
    + rewrite list_lookup_alter_eq in Hx.
      destruct (heap st !! r') as [y|] eqn:Hy; [|discriminate].
      injection Hx as <-. apply Hflag; auto. now rewrite <- Hid.
    + rewrite list_lookup_alter_ne in Hx by assumption. eapply nc_flag; eauto.
Qed.

Lemma nc_set_deviceData i r st :
  has_id (heap st) r i ->
  never_connected d st ->
  never_connected d (set_deviceData (JSMap.set i r (deviceData st)) st).
Proof.
  intros Hr []. constructor; simpl; auto.
  intros j r'. destruct (String.eqb_spec i j) as [->|Hne].
  - rewrite get_set_eq. now intros [= <-].
  - rewrite get_set_ne by assumption. auto.
Qed.

Lemma get_delete_Some {V : Type} (m : list (string * V)) k k' v :
  JSMap.get k' (JSMap.delete k m) = Some v -> JSMap.get k' m = Some v.
Proof.
  destruct (String.eqb_spec k k') as [->|Hne].
  - now rewrite get_delete_eq.
  - now rewrite get_delete_ne.
Qed.

Lemma nc_delete_deviceData i st :
  never_connected d st ->
  never_connected d (set_deviceData (JSMap.delete i (deviceData st)) st).
Proof.
  intros []. constructor; simpl; auto.
  intros j r Hj. apply get_delete_Some in Hj. auto.
Qed.

Lemma nc_set_devices i h st :
  i <> d ->
  never_connected d st ->
  never_connected d (set_devices (JSMap.set i h (devices st)) st).
Proof. intros Hne []. constructor; simpl; auto. now rewrite get_set_ne. Qed.

Lemma nc_delete_devices i st :
  never_connected d st ->
  never_connected d (set_devices (JSMap.delete i (devices st)) st).
Proof.
  intros []. constructor; simpl; auto.
  destruct (JSMap.get d (JSMap.delete i (devices st))) eqn:E; auto.
  apply get_delete_Some in E. congruence.
Qed.

Lemma nc_set_deviceWriters v st :
  never_connected d st -> never_connected d (set_deviceWriters v st).
Proof. intros []. constructor; auto. Qed.

Lemma nc_set_csv_files v st :
  never_connected d st -> never_connected d (set_csv_files v st).
Proof. intros []. constructor; auto. Qed.

Lemma nc_set_refreshing v st :
  never_connected d st -> never_connected d (set_refreshing v st).
Proof. intros []. constructor; auto. Qed.

Lemma nc_set_config_file v st :
  listed d (set_config_file v st) = true ->
  never_connected d st -> never_connected d (set_config_file v st).
Proof. intros Hv []. constructor; auto. Qed.

Lemma nc_add_timer n c st :
  Config.id c <> d ->
  never_connected d st -> never_connected d (set_timers (timers st ++ [(n, c)]) st).
Proof.
  intros Hc []. constructor; simpl; auto.
  apply Forall_app. split; auto.
Qed.

Lemma nc_delete_timer k st :
  never_connected d st -> never_connected d (set_timers (delete k (timers st)) st).
Proof. intros []. constructor; simpl; auto. now apply Forall_delete. Qed.

Lemma nc_add_pending p st :
  pending_ok d (heap st) p ->
  never_connected d st -> never_connected d (set_pending (pending st ++ [p]) st).
Proof.
  intros Hp []. constructor; simpl; auto.
  apply Forall_app. split; auto.
Qed.

Lemma nc_delete_pending k st :
  never_connected d st -> never_connected d (set_pending (delete k (pending st)) st).
Proof. intros []. constructor; simpl; auto. now apply Forall_delete. Qed.

Lemma nc_add_link c st :
  Config.id c <> d ->
  never_connected d st -> never_connected d (set_links (links st ++ [c]) st).
Proof.
  intros Hc []. constructor; simpl; auto.
  apply Forall_app. split; auto.
Qed.

Lemma nc_add_listener l st :
  listener_ok d (heap st) l ->
  never_connected d st -> never_connected d (set_listeners (listeners st ++ [l]) st).
Proof.
  intros Hl []. constructor; simpl; auto.
  apply Forall_app. split; auto.
Qed.

(** *** The handlers *)

Lemma has_id_mark_connected b i cur st r j :
  has_id (heap st) r j -> has_id (heap (mark_connected b i cur st)) r j.
Proof.
  unfold mark_connected. destruct cur as [r'|]; auto.
  simpl. now apply has_id_alter.
Qed.

Lemma nc_mark_connected b i cur st :
  (forall r, cur = Some r -> has_id (heap st) r i) ->
  (b = true -> i <> d) ->
  never_connected d st -> never_connected d (mark_connected b i cur st).
Proof.
  intros Hcur Hb H. unfold mark_connected. destruct cur as [r|]; auto.
  apply nc_set_deviceData.
  - simpl. apply has_id_alter; auto.
  - apply nc_mutate; auto. intros o Ho Hd. simpl.
    destruct b; auto. exfalso.
    destruct (Hcur r eq_refl) as (x & Hx & Hxi).
    rewrite Ho in Hx. injection Hx as <-. apply Hb; auto. congruence.
Qed.

Lemma nc_connectToDevice c st :
  Config.id c <> d ->
  never_connected d st -> never_connected d (connectToDevice c st).
Proof.
  intros Hc H. unfold connectToDevice.
  apply nc_add_pending; [exact Hc|]. apply nc_emit. apply nc_add_link; auto.
  now apply nc_emit.
Qed.

Lemma nc_connectToDevice_found c h st :
  Config.id c <> d ->
  never_connected d st -> never_connected d (connectToDevice_found c h st).
Proof.
  intros Hc H. unfold connectToDevice_found.
  apply nc_add_pending; [exact Hc|]. now apply nc_emit.
Qed.

Lemma nc_connectToDevice_connected c h st :
  Config.id c <> d ->
  never_connected d st -> never_connected d (connectToDevice_connected c h st).
Proof.
  intros Hc H. unfold connectToDevice_connected.
  apply nc_emit. apply nc_add_listener.
  - split; [exact Hc|]. simpl. intros r Hr.
    apply has_id_mark_connected. simpl. eapply nc_deviceData; eauto.
  - apply nc_emit. apply nc_mark_connected.
    + simpl. intros r Hr. eapply nc_deviceData; eauto.
    + auto.
    + now apply nc_set_devices.
Qed.

Lemma nc_connectToDevice_failed c message st :
  Config.id c <> d ->
  never_connected d st -> never_connected d (connectToDevice_failed c message st).
Proof.
  intros Hc H. unfold connectToDevice_failed.
  apply nc_add_timer; [exact Hc|]. apply nc_emit. apply nc_mark_connected.
  - simpl. intros r Hr. eapply nc_deviceData; eauto.
  - discriminate.
  - now apply nc_emit.
Qed.

Lemma nc_on_error l message st :
  listener_ok d (heap st) l ->
  never_connected d st -> never_connected d (on_error l message st).
Proof.
  intros [Hl1 Hl2] H. unfold on_error.
  apply nc_emit. apply nc_mark_connected; [exact Hl2 | discriminate | now apply nc_emit].
Qed.

Lemma nc_on_disconnect l st :
  listener_ok d (heap st) l ->
  never_connected d st -> never_connected d (on_disconnect l st).
Proof.
  intros [Hl1 Hl2] H. unfold on_disconnect.
  apply nc_add_timer; [exact Hl1|]. apply nc_emit.
  apply nc_mark_connected; [exact Hl2 | discriminate | now apply nc_emit].
Qed.

Lemma nc_writeRecords path rows st :
  never_connected d st -> never_connected d (writeRecords path rows st).
Proof.
  intros H. unfold writeRecords. apply nc_emit.
  destruct (existsb _ _); auto. now apply nc_set_csv_files.
Qed.

Lemma nc_handleDeviceData now i data st :
  i <> d ->
  never_connected d st -> never_connected d (handleDeviceData now i data st).
Proof.
  intros Hi H. unfold handleDeviceData.
  set (st0 := emit (Console _) st).
  assert (H0 : never_connected d st0) by now apply nc_emit.
  clearbody st0. clear H st.
  destruct (JSMap.get i (deviceData st0)) as [r|] eqn:Hr; auto.
  destruct (deref st0 r) as [cur|] eqn:Hcur; auto.
  assert (Hid : id cur = i).
  { destruct (nc_deviceData _ _ H0 _ _ Hr) as (x & Hx & Hxi).
    unfold deref in Hcur. congruence. }
  set (updatedData := normalize now (JS.dps_of data) cur).
  assert (Hstored :
            never_connected d
              (set_deviceData (JSMap.set i (length (heap st0)) (deviceData st0))
                 (snd (alloc updatedData st0)))).
  { apply (nc_set_deviceData i (length (heap st0)) (snd (alloc updatedData st0))).
    - simpl. rewrite <- Hid. apply (has_id_new (heap st0) updatedData).
    - apply nc_alloc; auto. simpl. congruence. }
  simpl. apply nc_emit.
  destruct (JSMap.get i (deviceWriters st0)).
  - apply nc_writeRecords. now apply nc_emit.
  - now apply nc_emit.
Qed.

Lemma nc_refresh_visit i isConnected st :
  never_connected d st -> never_connected d (refresh_visit i isConnected st).
Proof.
  intros H. unfold refresh_visit.
  destruct (refreshing st); auto.
  destruct (JSMap.get i (devices st)); auto.
  destruct isConnected; auto.
  apply nc_add_pending; [exact I|]. now apply nc_emit.
Qed.

Lemma nc_refresh_settled i o st :
  never_connected d st -> never_connected d (refresh_settled i o st).
Proof. intros H. destruct o; simpl; auto using nc_emit. Qed.

Lemma nc_ws_toggle ws i st :
  never_connected d st -> never_connected d (ws_toggle ws i st).
Proof.
  intros H. unfold ws_toggle.
  destruct (JSMap.get i (devices st)); auto using nc_emit.
  destruct (JSMap.get i (deviceData st)) as [r|] eqn:Hr; auto using nc_emit.
  destruct (deref st r); auto using nc_emit.
  destruct (connected d0); auto using nc_emit.
  apply nc_add_pending.
  - simpl. eapply nc_deviceData; eauto.
  - auto using nc_emit.
Qed.

Lemma nc_ws_toggle_settled now ws i r newState o st :
  has_id (heap st) r i ->
  never_connected d st ->
  never_connected d (ws_toggle_settled now ws i r newState o st).
Proof.
  intros Hr H. unfold ws_toggle_settled. destruct o; [|auto using nc_emit].
  assert (Hset :
            never_connected d
              (set_deviceData
                 (JSMap.set i r
                    (deviceData
                       (mutate r (with_power_state newState now)
                          (emit (Console ("Device " ++ i ++ " toggled successfully to:")%string)
                             st))))
                 (mutate r (with_power_state newState now)
                    (emit (Console ("Device " ++ i ++ " toggled successfully to:")%string)
                       st)))).
  { apply nc_set_deviceData.
    - simpl. now apply has_id_alter.
    - apply nc_mutate; auto using nc_emit.
      simpl. intros x Hx Hd. eapply nc_flag; eauto. }
  destruct (deref _ r); auto using nc_emit.
Qed.

Lemma nc_ws_message ws m st :
  never_connected d st -> never_connected d (ws_message ws m st).
Proof.
  intros H. destruct m as [deviceId| | |error]; simpl; auto using nc_emit.
  destruct (nonempty deviceId); auto using nc_emit, nc_ws_toggle.
Qed.

Lemma nc_get_device req i st :
  never_connected d st -> never_connected d (get_device req i st).
Proof. intros H. unfold get_device. destruct (snapshot _ _); auto using nc_emit. Qed.

Lemma nc_post_toggle req i st :
  never_connected d st -> never_connected d (post_toggle req i st).
Proof.
  intros H. unfold post_toggle.
  destruct (JSMap.get i (devices st)); auto using nc_emit.
  destruct (snapshot _ _) as [o|]; auto using nc_emit.
  destruct (connected o); auto using nc_emit.
  apply nc_add_pending; [exact I|]. now apply nc_emit.
Qed.

Lemma nc_post_toggle_settled req i newState o st :
  never_connected d st -> never_connected d (post_toggle_settled req i newState o st).
Proof. intros H. destruct o; simpl; auto using nc_emit. Qed.

(** Registering a configuration makes an object that is not connected. *)
Lemma nc_register now c st :
  never_connected d st -> never_connected d (register now c st).
Proof.
  intros H. unfold register, initializeCSVWriter.
  assert (Hstored :
            never_connected d
              (set_deviceData (JSMap.set (Config.id c) (length (heap st)) (deviceData st))
                 (snd (alloc (initializeDeviceData now c) st)))).
  { apply (nc_set_deviceData (Config.id c) (length (heap st))
             (snd (alloc (initializeDeviceData now c) st))).
    - apply (has_id_new (heap st) (initializeDeviceData now c)).
    - apply nc_alloc; auto. }
  simpl. destruct (existsb _ _).
  - now apply nc_set_deviceWriters.
  - apply nc_set_deviceWriters, nc_emit. now apply nc_set_csv_files.
Qed.

Lemma listed_app i config c (st : State) :
  existsb (fun x => String.eqb (Config.id x) i) config = true ->
  existsb (fun x => String.eqb (Config.id x) i) (config ++ [c]) = true.
Proof. intros H. rewrite existsb_app, H. reflexivity. Qed.

Lemma find_None_existsb {A : Type} (f : A -> bool) (l : list A) :
  List.find f l = None -> existsb f l = false.
Proof.
  induction l as [|a l IH]; simpl; auto.
  destruct (f a); [discriminate|auto].
Qed.

Lemma nc_post_devices now req body st :
  never_connected d st -> never_connected d (post_devices now req body st).
Proof.
  intros H. unfold post_devices.
  destruct (nonempty (Body.id body)) as [new_id|]; auto using nc_emit.
  destruct (nonempty (Body.device_id body)); auto using nc_emit.
  destruct (nonempty (Body.device_key body)); auto using nc_emit.
  destruct (nonempty (Body.device_ip body)); auto using nc_emit.
  pose proof (nc_listed _ _ H) as Hlisted. unfold listed in Hlisted.
  destruct (config_file st) as [config|] eqn:Hcfg; [|discriminate].
  destruct (List.find _ config) eqn:Hfind; auto using nc_emit.
  apply find_None_existsb in Hfind.
  assert (Hnew : new_id <> d).
  { intros ->. congruence. }
  apply nc_emit. apply nc_connectToDevice; [exact Hnew|].
  apply nc_register. apply nc_set_config_file; auto.
  unfold listed. simpl. now apply listed_app.
Qed.

Lemma listed_filter i config :
  i <> d ->
  existsb (fun x => String.eqb (Config.id x) d) config = true ->
  existsb (fun x => String.eqb (Config.id x) d)
    (List.filter (fun x => negb (String.eqb (Config.id x) i)) config) = true.
Proof.
  intros Hne. induction config as [|c config IH]; simpl; auto.
  destruct (String.eqb_spec (Config.id c) d) as [Hd|Hd]; simpl.
  - intros _. destruct (String.eqb_spec (Config.id c) i) as [Hi|Hi]; simpl.
    + congruence.
    + destruct (String.eqb_spec (Config.id c) d); [reflexivity|contradiction].
  - intros H. destruct (String.eqb (Config.id c) i); simpl; auto.
    destruct (String.eqb_spec (Config.id c) d); [contradiction|auto].
Qed.

Lemma nc_delete_device req i st :
  i <> d ->
  never_connected d st -> never_connected d (delete_device req i st).
Proof.
  intros Hi H. unfold delete_device.
  assert (H1 : never_connected d
                 match JSMap.get i (devices st) with
                 | Some h =>
                     set_devices
                       (JSMap.delete i (devices (emit (Link (LDisconnect h)) st)))
                       (emit (Link (LDisconnect h)) st)
                 | None => st
                 end).
  { destruct (JSMap.get i (devices st)); auto.
    apply nc_delete_devices. now apply nc_emit. }
  revert H1. generalize (match JSMap.get i (devices st) with
                         | Some h =>
                             set_devices
                               (JSMap.delete i (devices (emit (Link (LDisconnect h)) st)))
                               (emit (Link (LDisconnect h)) st)
                         | None => st
                         end).
  clear H st. intros st H.
  apply nc_emit, nc_emit.
  pose proof (nc_listed _ _ H) as Hlisted. unfold listed in Hlisted.
  simpl. destruct (config_file st) as [config|] eqn:Hcfg; [|discriminate].
  apply nc_set_config_file.
  - unfold listed. simpl. now apply listed_filter.
  - apply nc_set_deviceWriters. now apply nc_delete_deviceData.
Qed.

(** *** The event loop *)

Lemma nc_settle now p o st :
  pending_ok d (heap st) p ->
  never_connected d st -> never_connected d (settle now p o st).
Proof.
  intros Hp H. destruct p as [c h|c h|ws i r newState|req i newState|i]; simpl in *.
  - destruct o; auto using nc_connectToDevice_found, nc_connectToDevice_failed.
  - destruct o; auto using nc_connectToDevice_connected, nc_connectToDevice_failed.
  - now apply nc_ws_toggle_settled.
  - now apply nc_post_toggle_settled.
  - now apply nc_refresh_settled.
Qed.

Lemma listener_of_ok h st l :
  never_connected d st -> listener_of h st = Some l -> listener_ok d (heap st) l.
Proof.
  intros H Hl. apply List.find_some in Hl as [Hin _].
  pose proof (nc_listeners _ _ H) as Hall.
  rewrite List.Forall_forall in Hall. auto.
Qed.

(** Every callback other than the removal of [d] keeps the invariant. *)
Lemma nc_step now e st :
  removes d e = false ->
  never_connected d st -> never_connected d (step now e st).
Proof.
  intros He H.
  destruct e as [k|k o|h data|h message|h|i isConnected|ws|ws m|req|req i|req i|req body|req i];
    simpl.
  - destruct (timers st !! k) as [[n c]|] eqn:E; auto.
    apply nc_connectToDevice; [|now apply nc_delete_timer].
    exact (Forall_lookup_1 _ _ _ _ (nc_timers _ _ H) E).
  - destruct (pending st !! k) as [p|] eqn:E; auto.
    apply nc_settle; [|now apply nc_delete_pending].
    exact (Forall_lookup_1 _ _ _ _ (nc_pending _ _ H) E).
  - destruct (listener_of h st) as [l|] eqn:E; auto.
    apply nc_handleDeviceData; auto. now destruct (listener_of_ok _ _ _ H E).
  - destruct (listener_of h st) as [l|] eqn:E; auto.
    apply nc_on_error; auto. eapply listener_of_ok; eauto.
  - destruct (listener_of h st) as [l|] eqn:E; auto.
    apply nc_on_disconnect; auto. eapply listener_of_ok; eauto.
  - now apply nc_refresh_visit.
  - unfold ws_connection. auto using nc_emit.
  - now apply nc_ws_message.
  - unfold get_devices. auto using nc_emit.
  - now apply nc_get_device.
  - now apply nc_post_toggle.
  - now apply nc_post_devices.
  - apply nc_delete_device; auto. simpl in He.
    intros ->. now rewrite String.eqb_refl in He.
Qed.

(** *** Readings are discarded by a removal only *)

Lemma is_Some_get_set {V : Type} (m : list (string * V)) k k' v :
  is_Some (JSMap.get k m) -> is_Some (JSMap.get k (JSMap.set k' v m)).
Proof.
  intros H. destruct (String.eqb_spec k' k) as [->|Hne].
  - rewrite get_set_eq. eauto.
  - now rewrite get_set_ne.
Qed.

Ltac split_cases :=
  repeat (simpl;
          match goal with
          | |- context [if ?b then _ else _] => destruct b
          | |- context [match ?x with _ => _ end] => destruct x
          end).

Lemma registered_step now e st :
  removes d e = false ->
  registered d st -> registered d (step now e st).
Proof.
  unfold registered. intros He H.
  destruct e as [k|k o|h data|h message|h|i isConnected|ws|ws m|req|req i|req i|req body|req i];
    simpl.
  - destruct (timers st !! k) as [[n c]|]; auto.
  - destruct (pending st !! k) as [p|]; auto.
    destruct p, o; simpl; auto;
      unfold connectToDevice_connected, connectToDevice_failed, mark_connected;
      simpl; split_cases; simpl; auto using is_Some_get_set.
  - unfold handleDeviceData, alloc, writeRecords.
    split_cases; simpl; auto using is_Some_get_set.
  - unfold on_error, mark_connected. split_cases; simpl; auto using is_Some_get_set.
  - unfold on_disconnect, mark_connected. split_cases; simpl; auto using is_Some_get_set.
  - unfold refresh_visit. split_cases; simpl; auto.
  - auto.
  - unfold ws_message, ws_toggle. split_cases; simpl; auto.
  - auto.
  - unfold get_device. split_cases; simpl; auto.
  - unfold post_toggle. split_cases; simpl; auto.
  - unfold post_devices, register, initializeCSVWriter, alloc.
    split_cases; simpl; auto using is_Some_get_set.
  - simpl in He. unfold delete_device. simpl.
    assert (Hne : i <> d) by (intros ->; now rewrite String.eqb_refl in He).
    split_cases; simpl; now rewrite get_delete_ne.
Qed.

Lemma nc_run es st :
  Forall (fun e => removes d (snd e) = false) es ->
  never_connected d st -> registered d st ->
  never_connected d (run es st) /\ registered d (run es st).
Proof.
  intros Hes. revert st. induction Hes as [|[now e] es He Hes IH]; intros st H Hr.
  - auto.
  - simpl. apply IH; [now apply nc_step | now apply registered_step].
Qed.

(** *** Start-up *)

Lemma nc_initial_state file csv :
  existsb (fun c => String.eqb (Config.id c) d) file = true ->
  never_connected d (initial_state (Some file) csv).
Proof.
  intros H. constructor; simpl; auto; try constructor; try discriminate.
Qed.

Lemma nc_register_all now cs st :
  never_connected d st -> never_connected d (fold_left (fun st c => register now c st) cs st).
Proof.
  revert st. induction cs as [|c cs IH]; intros st H; simpl; auto using nc_register.
Qed.

Lemma register_deviceData now c st :
  deviceData (register now c st)
  = JSMap.set (Config.id c) (length (heap st)) (deviceData st).
Proof.
  unfold register, initializeCSVWriter, alloc. simpl.
  destruct (existsb _ _); reflexivity.
Qed.

Lemma registered_register_all now cs st i :
  is_Some (JSMap.get i (deviceData st)) \/ In i (List.map Config.id cs) ->
  is_Some (JSMap.get i (deviceData (fold_left (fun st c => register now c st) cs st))).
Proof.
  revert st. induction cs as [|c cs IH]; intros st; simpl.
  - intros [H|[]]; auto.
  - intros H. apply IH. rewrite register_deviceData.
    destruct H as [H|[H|H]]; auto.
    + left. now apply is_Some_get_set.
    + left. rewrite H, get_set_eq. eauto.
Qed.

Lemma nc_add_timers new st :
  Forall (fun t => Config.id (snd t) <> d) new ->
  never_connected d st -> never_connected d (set_timers (timers st ++ new) st).
Proof.
  intros Hnew []. constructor; simpl; auto.
  apply Forall_app. split; auto.
Qed.

Lemma listed_iff file :
  (exists c, In c file /\ Config.id c = d) ->
  existsb (fun c => String.eqb (Config.id c) d) file = true.
Proof.
  intros (c & Hin & Hid). apply existsb_exists. exists c. split; auto.
  now apply String.eqb_eq.
Qed.

(** After start-up on a [devices.json] in which every entry with the id
    [d] is disabled, the device has a reading and no connection to it is
    scheduled. *)
Lemma nc_boot now file env csv :
  (exists c, In c file /\ Config.id c = d) ->
  (forall c, In c file -> Config.id c = d -> Config.enabled c = false) ->
  never_connected d (boot now (Some file) env csv) /\
  registered d (boot now (Some file) env csv).
Proof.
  intros Hin Hoff. pose proof (listed_iff _ Hin) as Hlisted.
  assert (Hlen : Nat.eqb (length file) 0 = false).
  { destruct file; [destruct Hin as (c & [] & _)|reflexivity]. }
  unfold boot, connectToAllDevices. simpl. rewrite Hlen.
  unfold startPeriodicRefresh. split.
  - apply nc_set_refreshing. apply nc_add_timers.
    + apply Forall_forall. intros [n c] Hc.
      apply elem_of_lookup_imap in Hc as (k & c' & [= -> ->] & Hk).
      apply list_elem_of_lookup_2, list_elem_of_In, List.filter_In in Hk as [Hc Hen].
      simpl. intros Hd. rewrite (Hoff _ Hc Hd) in Hen. discriminate.
    + apply nc_register_all. repeat apply nc_emit. now apply nc_initial_state.
  - unfold registered. simpl. apply registered_register_all. right.
    destruct Hin as (c & Hc & <-). now apply List.in_map.
Qed.

End DisabledDevice.

(** C5. The server is started on a [devices.json] that lists the id [d],
    every entry with that id being disabled.  Whatever happens afterwards,
    short of a request to remove [d]: no [TuyAPI] instance is ever made for
    [d] (so no [find] and no [connect] is ever issued for it), no
    connection to [d] is scheduled or under way, [devices] has no entry for
    [d], and [deviceData] has a reading for [d] whose [connected] flag is
    [false] and which is part of the list of readings sent to clients. *)
Theorem disabled_device_never_connects
    (now : string) (file : list Multi.Config.t) (env : option Multi.EnvDevice)
    (csv : list string) (d : string) (es : list (string * Multi.Event)) :
  (exists c, In c file /\ Multi.Config.id c = d) ->
  (forall c, In c file -> Multi.Config.id c = d -> Multi.Config.enabled c = false) ->
  Forall (fun e => Disabled.removes d (snd e) = false) es ->
  let st := Multi.run es (Multi.boot now (Some file) env csv) in
  Forall (fun c => Multi.Config.id c <> d) (Multi.links st) /\
  Forall (fun t => Multi.Config.id (snd t) <> d) (Multi.timers st) /\
  Forall (Disabled.pending_ok d (Multi.heap st)) (Multi.pending st) /\
  JSMap.get d (Multi.devices st) = None /\
  exists o,
    Multi.reading d st = Some o /\
    Multi.connected o = false /\
    In o (Multi.allDevicesData st).
Proof.
  intros Hin Hoff Hes. cbv zeta.
  destruct (nc_boot d now file env csv Hin Hoff) as [Hnc Hreg].
  destruct (nc_run d es _ Hes Hnc Hreg) as [H [r Hr]].
  repeat split; try apply H.
  destruct (Disabled.nc_deviceData _ _ H _ _ Hr) as (o & Ho & Hid).
  exists o. unfold Multi.reading. rewrite Hr. simpl. repeat split; auto.
  - eapply Disabled.nc_flag; eauto.
  - apply list_elem_of_In, list_elem_of_omap. exists r. split; auto.
    apply list_elem_of_In. eapply get_Some_In; eauto.
Qed.

Lemma disabled_device_never_connects_witness :
  let es :=
    Examples.connected_run
      ++ [ ("t4", Multi.EData 0 (JS.Wrapped Examples.full_update));
           ("t5", Multi.EPostToggle 1 "device_2");
           ("t6", Multi.EWsMessage 4 (Multi.Toggle (Some "device_2")));
           ("t7", Multi.EPostDevices 2 Examples.duplicate_body) ] in
  let st := Multi.run es (Multi.boot "t0" (Some [Examples.plug; Examples.lamp]) None []) in
  Forall (fun c => Multi.Config.id c <> "device_2") (Multi.links st) /\
  Forall (fun t => Multi.Config.id (snd t) <> "device_2") (Multi.timers st) /\
  Forall (Disabled.pending_ok "device_2" (Multi.heap st)) (Multi.pending st) /\
  JSMap.get "device_2" (Multi.devices st) = None /\
  exists o,
    Multi.reading "device_2" st = Some o /\
    Multi.connected o = false /\
    In o (Multi.allDevicesData st).
Proof.
  apply (disabled_device_never_connects "t0" [Examples.plug; Examples.lamp] None []
           "device_2").
  - exists Examples.lamp. split; [right; left|]; reflexivity.
  - intros c [<-|[<-|[]]]; [discriminate|reflexivity].
  - repeat constructor.
Defined.

(** * Further properties of the multi-device server *)

Section Traces.

Import Multi Observe.

Lemma polls_app t1 t2 : polls (t1 ++ t2) = polls t1 ++ polls t2.
Proof. apply omap_app. Qed.

Lemma link_calls_app t1 t2 : link_calls (t1 ++ t2) = link_calls t1 ++ link_calls t2.
Proof. apply omap_app. Qed.

Lemma broadcasts_app t1 t2 : broadcasts (t1 ++ t2) = broadcasts t1 ++ broadcasts t2.
Proof. apply omap_app. Qed.

Lemma csv_rows_app t1 t2 : csv_rows (t1 ++ t2) = csv_rows t1 ++ csv_rows t2.
Proof. apply omap_app. Qed.

End Traces.

Ltac trace_cases :=
  repeat (simpl;
          match goal with
          | |- context [if ?b then _ else _] => destruct b
          | |- context [match ?x with _ => _ end] => destruct x
          end);
  simpl.

(** ** Requests that only ask *)

(** X1. A new WebSocket client, a message that is not a toggle naming a
    device (a refresh, anything else, or text that does not parse) and the
    two [GET] endpoints change nothing in the server: store, maps, files,
    listeners, timers and suspended handlers are as before, and the trace
    gains no broadcast, no call on a link and no CSV row. *)
Theorem asking_changes_nothing (now : string) (e : Multi.Event) (st : Multi.State) :
  Observe.asks_only e = true ->
  Observe.same_store st (Multi.step now e st) /\
  Observe.broadcasts (Multi.trace (Multi.step now e st)) = Observe.broadcasts (Multi.trace st) /\
  Observe.link_calls (Multi.trace (Multi.step now e st)) = Observe.link_calls (Multi.trace st) /\
  Observe.csv_rows (Multi.trace (Multi.step now e st)) = Observe.csv_rows (Multi.trace st).
Proof.
  unfold Observe.same_store.
  destruct e as [| | | | | |ws|ws m|req|req i| | |]; try discriminate; simpl.
  - intros _. rewrite !broadcasts_app, !link_calls_app, !csv_rows_app. simpl.
    rewrite !app_nil_r. repeat split.
  - destruct m as [deviceId| | |error]; simpl.
    + destruct (Multi.nonempty deviceId); [discriminate|]. intros _. simpl.
      rewrite !broadcasts_app, !link_calls_app, !csv_rows_app. simpl.
      rewrite !app_nil_r. repeat split.
    + intros _. rewrite !broadcasts_app, !link_calls_app, !csv_rows_app. simpl.
      rewrite !app_nil_r. repeat split.
    + intros _. rewrite !broadcasts_app, !link_calls_app, !csv_rows_app. simpl.
      rewrite !app_nil_r. repeat split.
    + intros _. rewrite !broadcasts_app, !link_calls_app, !csv_rows_app. simpl.
      rewrite !app_nil_r. repeat split.
  - intros _. rewrite !broadcasts_app, !link_calls_app, !csv_rows_app. simpl.
    rewrite !app_nil_r. repeat split.
  - intros _. unfold Multi.get_device. destruct (Multi.snapshot _ _); simpl;
      rewrite !broadcasts_app, !link_calls_app, !csv_rows_app; simpl;
      rewrite !app_nil_r; repeat split.
Qed.

Lemma asking_changes_nothing_witness :
  let st := Examples.plug_measured in
  let st' := Multi.step "t5" (Multi.EWsMessage 4 Multi.Refresh) st in
  Observe.same_store st st' /\
  Observe.broadcasts (Multi.trace st') = Observe.broadcasts (Multi.trace st) /\
  Observe.link_calls (Multi.trace st') = Observe.link_calls (Multi.trace st) /\
  Observe.csv_rows (Multi.trace st') = Observe.csv_rows (Multi.trace st).
Proof.
  apply (asking_changes_nothing "t5" (Multi.EWsMessage 4 Multi.Refresh)
           Examples.plug_measured).
  reflexivity.
Defined.

(** ** A server started without devices *)

(** Nothing but [connectToAllDevices] starts the refresh interval: a
    callback of the event loop leaves the interval as it found it, and
    while the interval is off no [get] is issued. *)
Lemma step_without_refresh (now : string) (e : Multi.Event) (st : Multi.State) :
  Multi.refreshing st = false ->
  Multi.refreshing (Multi.step now e st) = false /\
  Observe.polls (Multi.trace (Multi.step now e st)) = Observe.polls (Multi.trace st).
Proof.
  intros Hoff.
  destruct e as [k|k o|h data|h message|h|i isConnected|ws|ws m|req|req i|req i|req body|req i];
    simpl.
  - destruct (Multi.timers st !! k) as [[n c]|]; auto. simpl.
    rewrite !polls_app. simpl. rewrite !app_nil_r. auto.
  - destruct (Multi.pending st !! k) as [p|]; auto.
    destruct p, o; simpl;
      unfold Multi.connectToDevice_found, Multi.connectToDevice_connected,
        Multi.connectToDevice_failed, Multi.mark_connected, Multi.ws_toggle_settled,
        Multi.mutate;
      trace_cases; rewrite ?polls_app; simpl; rewrite ?app_nil_r; auto.
  - unfold Multi.handleDeviceData, Multi.alloc, Multi.writeRecords.
    trace_cases; rewrite ?polls_app; simpl; rewrite ?app_nil_r; auto.
  - unfold Multi.on_error, Multi.mark_connected, Multi.mutate.
    trace_cases; rewrite ?polls_app; simpl; rewrite ?app_nil_r; auto.
  - unfold Multi.on_disconnect, Multi.mark_connected, Multi.mutate.
    trace_cases; rewrite ?polls_app; simpl; rewrite ?app_nil_r; auto.
  - unfold Multi.refresh_visit. rewrite Hoff. auto.
  - rewrite !polls_app. simpl. rewrite !app_nil_r. auto.
  - unfold Multi.ws_message, Multi.ws_toggle.
    trace_cases; rewrite ?polls_app; simpl; rewrite ?app_nil_r; auto.
  - rewrite !polls_app. simpl. rewrite !app_nil_r. auto.
  - unfold Multi.get_device.
    trace_cases; rewrite ?polls_app; simpl; rewrite ?app_nil_r; auto.
  - unfold Multi.post_toggle.
    trace_cases; rewrite ?polls_app; simpl; rewrite ?app_nil_r; auto.
  - unfold Multi.post_devices, Multi.register, Multi.initializeCSVWriter, Multi.alloc,
      Multi.connectToDevice.
    trace_cases; rewrite ?polls_app; simpl; rewrite ?app_nil_r; auto.
  - unfold Multi.delete_device.
    trace_cases; rewrite ?polls_app; simpl; rewrite ?app_nil_r; auto.
Qed.

(** X2. When start-up finds no configuration (no entry in [devices.json], or
    no file and no device in the environment), [connectToAllDevices]
    returns before [startPeriodicRefresh].  Whatever happens afterwards,
    devices added over REST and connected included, the refresh interval
    is never started and no refresh [get] is ever issued. *)
Theorem server_started_empty_never_polls
    (now : string) (file : option (list Multi.Config.t)) (env : option Multi.EnvDevice)
    (csv : list string) (es : list (string * Multi.Event)) :
  Multi.loadDeviceConfig file env = [] ->
  let st := Multi.run es (Multi.boot now file env csv) in
  Multi.refreshing st = false /\ Observe.polls (Multi.trace st) = [].
Proof.
  intros Hempty. cbv zeta.
  assert (Hboot : Multi.refreshing (Multi.boot now file env csv) = false /\
                  Observe.polls (Multi.trace (Multi.boot now file env csv)) = []).
  { unfold Multi.boot, Multi.connectToAllDevices. simpl. rewrite Hempty. simpl. auto. }
  revert Hboot. generalize (Multi.boot now file env csv). intros st.
  revert st. induction es as [|[now' e] es IH]; intros st [Hoff Hpolls]; simpl; auto.
  apply IH. destruct (step_without_refresh now' e st Hoff) as [H1 H2].
  split; congruence.
Qed.

(** No file, no environment; a device is added and connects, and the
    interval comes round. *)
Lemma server_started_empty_never_polls_witness :
  let st :=
    Multi.run
      [ ("t1", Multi.EPostDevices 1 Examples.duplicate_body);
        ("t2", Multi.ESettle 0 JS.Resolved);
        ("t3", Multi.ESettle 0 JS.Resolved);
        ("t4", Multi.ERefreshVisit "device_1" true) ]
      (Multi.boot "t0" None None []) in
  Multi.refreshing st = false /\ Observe.polls (Multi.trace st) = [].
Proof.
  apply (server_started_empty_never_polls "t0" None None []). reflexivity.
Defined.

(** ** Start-up *)

Section StartUp.

Import Multi Observe.

Lemma set_absent {V : Type} (m : list (string * V)) k v :
  JSMap.get k m = None -> JSMap.set k v m = m ++ [(k, v)].
Proof.
  induction m as [|[k' v'] m IH]; simpl; auto.
  destruct (String.eqb k' k); [discriminate|]. intros H. now rewrite IH.
Qed.

Lemma get_absent {V : Type} (m : list (string * V)) k :
  ~ In k (List.map fst m) -> JSMap.get k m = None.
Proof.
  induction m as [|[k' v'] m IH]; simpl; auto.
  intros H. destruct (String.eqb_spec k' k) as [->|Hne].
  - exfalso. auto.
  - apply IH. auto.
Qed.

Lemma omap_cons_eq {A B : Type} (f : A -> option B) (x : A) (l : list A) :
  omap f (x :: l) = match f x with Some y => y :: omap f l | None => omap f l end.
Proof. reflexivity. Qed.

Lemma allDevicesData_grow (hp : list DeviceData) (o : DeviceData) (m : list (string * nat)) :
  Forall (fun e => snd e < length hp) m ->
  omap (fun r => (hp ++ [o]) !! r) (List.map snd m) = omap (fun r => hp !! r) (List.map snd m).
Proof.
  induction 1 as [|[k r] m Hr Hm IH]; auto.
  simpl in Hr. cbn [List.map snd]. rewrite !omap_cons_eq.
  rewrite (lookup_app_l hp [o] r Hr), IH. reflexivity.
Qed.

(** Registering a configuration under an id that is not in use appends
    its reading to the list of readings and touches nothing else in
    memory. *)
Lemma register_fresh now c st :
  JSMap.get (Config.id c) (deviceData st) = None ->
  refs_valid st ->
  let st' := register now c st in
  refs_valid st' /\
  allDevicesData st' = allDevicesData st ++ [initializeDeviceData now c] /\
  List.map fst (deviceData st') = List.map fst (deviceData st) ++ [Config.id c] /\
  devices st' = devices st /\ links st' = links st /\ listeners st' = listeners st /\
  timers st' = timers st /\ pending st' = pending st /\
  refreshing st' = refreshing st /\ config_file st' = config_file st /\
  link_calls (trace st') = link_calls (trace st).
Proof.
  intros Hfresh Hvalid. cbv zeta.
  assert (Hdata : deviceData (register now c st)
                  = deviceData st ++ [(Config.id c, length (heap st))]).
  { rewrite register_deviceData. now apply set_absent. }
  assert (Hheap : heap (register now c st) = heap st ++ [initializeDeviceData now c]).
  { unfold register, initializeCSVWriter, alloc. simpl. destruct (existsb _ _); reflexivity. }
  unfold refs_valid, allDevicesData, deref. rewrite Hdata, Hheap.
  split; [|split; [|split]].
  - apply Forall_app. split.
    + eapply Forall_impl; [exact Hvalid|]. intros [k r]. simpl. rewrite length_app. simpl. lia.
    + constructor; [|constructor]. simpl. rewrite length_app. simpl. lia.
  - unfold JSMap.values. rewrite List.map_app, omap_app. simpl.
    rewrite list_lookup_middle by reflexivity.
    f_equal. now apply allDevicesData_grow.
  - now rewrite List.map_app.
  - unfold register, initializeCSVWriter, alloc. simpl.
    destruct (existsb _ _); simpl; rewrite ?link_calls_app; simpl; rewrite ?app_nil_r;
      repeat split.
Qed.

Lemma register_all_fresh now cs st :
  NoDup (List.map fst (deviceData st) ++ List.map Config.id cs) ->
  refs_valid st ->
  let st' := fold_left (fun st c => register now c st) cs st in
  refs_valid st' /\
  allDevicesData st' = allDevicesData st ++ List.map (initializeDeviceData now) cs /\
  List.map fst (deviceData st') = List.map fst (deviceData st) ++ List.map Config.id cs /\
  devices st' = devices st /\ links st' = links st /\ listeners st' = listeners st /\
  timers st' = timers st /\ pending st' = pending st /\
  refreshing st' = refreshing st /\ config_file st' = config_file st /\
  link_calls (trace st') = link_calls (trace st).
Proof.
  revert st. induction cs as [|c cs IH]; intros st Hnodup Hvalid; cbv zeta; simpl.
  - rewrite !app_nil_r. repeat split; auto.
  - simpl in Hnodup.
    assert (Hfresh : JSMap.get (Config.id c) (deviceData st) = None).
    { apply get_absent. apply NoDup_app in Hnodup as (_ & Hdisj & _).
      intros Hin. apply (Hdisj (Config.id c)).
      - now apply list_elem_of_In.
      - left. }
    destruct (register_fresh now c st Hfresh Hvalid)
      as (Hv & Hall & Hkeys & Hdev & Hlk & Hls & Htm & Hpd & Hrf & Hcf & Hcalls).
    destruct (IH (register now c st)) as (Hv' & Hall' & Hkeys' & Hrest); auto.
    { rewrite Hkeys, <- app_assoc. exact Hnodup. }
    split; [exact Hv'|]. split; [|split].
    + rewrite Hall', Hall, <- app_assoc. reflexivity.
    + rewrite Hkeys', Hkeys, <- app_assoc. reflexivity.
    + destruct Hrest as (H1 & H2 & H3 & H4 & H5 & H6 & H7 & H8).
      repeat split; congruence.
Qed.

End StartUp.

(** X3. Start-up on a [devices.json] whose ids are distinct: the readings
    listed to clients are the initial readings of the entries, disabled
    ones included, in the order of the file; one connection timer is
    pending per enabled entry, the i-th due after i times 2000 ms; nothing
    has been asked of any link yet; and the refresh interval runs when the
    file has an entry. *)
Theorem start_up_registers_every_device
    (now : string) (file : list Multi.Config.t) (env : option Multi.EnvDevice)
    (csv : list string) :
  NoDup (List.map Multi.Config.id file) ->
  let st := Multi.boot now (Some file) env csv in
  Multi.allDevicesData st = List.map (Multi.initializeDeviceData now) file /\
  List.map fst (Multi.deviceData st) = List.map Multi.Config.id file /\
  Multi.timers st
  = imap (fun i c => ((N.of_nat i * 2000)%N, c)) (List.filter Multi.Config.enabled file) /\
  Multi.devices st = [] /\
  Multi.links st = [] /\
  Observe.link_calls (Multi.trace st) = [] /\
  Multi.refreshing st = negb (Nat.eqb (length file) 0).
Proof.
  intros Hnodup. cbv zeta. unfold Multi.boot, Multi.connectToAllDevices.
  cbn [Multi.loadDeviceConfig Multi.config_file Multi.emit Multi.initial_state].
  destruct file as [|c0 file]; [simpl; repeat split|].
  change (Nat.eqb (length (c0 :: file)) 0) with false. cbv iota.
  unfold Multi.startPeriodicRefresh.
  match goal with
  | |- context [fold_left _ _ ?s] =>
      destruct (register_all_fresh now (c0 :: file) s)
        as (_ & Hall & Hkeys & Hdev & Hlk & _ & Htm & _ & _ & _ & Hcalls);
        [exact Hnodup | constructor |];
        set (registered := fold_left (fun st c => Multi.register now c st) (c0 :: file) s) in *
  end.
  unfold Multi.allDevicesData, Multi.deref in *.
  cbn [Multi.heap Multi.deviceData Multi.timers Multi.devices Multi.links Multi.trace
       Multi.refreshing Multi.set_timers Multi.set_refreshing].
  rewrite Hall, Hkeys, Hdev, Hlk, Htm, Hcalls. repeat split.
Qed.

Lemma start_up_registers_every_device_witness :
  let st := Multi.boot "t0" (Some [Examples.plug; Examples.lamp]) None [] in
  Multi.allDevicesData st
  = List.map (Multi.initializeDeviceData "t0") [Examples.plug; Examples.lamp] /\
  List.map fst (Multi.deviceData st)
  = List.map Multi.Config.id [Examples.plug; Examples.lamp] /\
  Multi.timers st
  = imap (fun i c => ((N.of_nat i * 2000)%N, c))
      (List.filter Multi.Config.enabled [Examples.plug; Examples.lamp]) /\
  Multi.devices st = [] /\
  Multi.links st = [] /\
  Observe.link_calls (Multi.trace st) = [] /\
  Multi.refreshing st = negb (Nat.eqb (length [Examples.plug; Examples.lamp]) 0).
Proof.
  apply (start_up_registers_every_device "t0" [Examples.plug; Examples.lamp] None []).
  constructor; [|constructor; [|constructor]].
  - intros H. apply list_elem_of_In in H. simpl in H. destruct H as [H|[]]. discriminate.
  - intros H. apply list_elem_of_In in H. destruct H.
Defined.

(** ** Adding and removing devices *)

Section AddRemove.

Import Multi Observe.






End AddRemove.




Section Removal.

Import Multi Observe.

Lemma existsb_filter_self i (config : list Config.t) :
  existsb (fun d => String.eqb (Config.id d) i)
    (List.filter (fun d => negb (String.eqb (Config.id d) i)) config) = false.
Proof.
  induction config as [|c config IH]; simpl; auto.
  destruct (String.eqb (Config.id c) i) eqn:E; simpl; auto. now rewrite E.
Qed.

Lemma existsb_filter_other i j (config : list Config.t) :
  i <> j ->
  existsb (fun d => String.eqb (Config.id d) j)
    (List.filter (fun d => negb (String.eqb (Config.id d) i)) config)
  = existsb (fun d => String.eqb (Config.id d) j) config.
Proof.
  intros Hne. induction config as [|c config IH]; simpl; auto.
  destruct (String.eqb_spec (Config.id c) i) as [Hi|Hi]; simpl.
  - destruct (String.eqb_spec (Config.id c) j) as [Hj|Hj]; [congruence|auto].
  - now rewrite IH.
Qed.

(** [DELETE] as a function of the state: the instance, if any, is told to
    disconnect; the three maps lose the id; the file, if any, loses the
    entries with the id. *)
Lemma delete_device_fields req i st :
  let st' := delete_device req i st in
  heap st' = heap st /\
  deviceData st' = JSMap.delete i (deviceData st) /\
  devices st' = JSMap.delete i (devices st) /\
  deviceWriters st' = JSMap.delete i (deviceWriters st) /\
  config_file st'
  = option_map (List.filter (fun d => negb (String.eqb (Config.id d) i))) (config_file st) /\
  links st' = links st /\ listeners st' = listeners st /\
  timers st' = timers st /\ pending st' = pending st /\
  refreshing st' = refreshing st /\
  trace st'
  = trace st
      ++ match JSMap.get i (devices st) with
         | Some h => [Link (LDisconnect h)]
         | None => []
         end
      ++ [Broadcast (MDeviceRemoved i); Http req RRemoved].
Proof.
  cbv zeta. unfold delete_device.
  destruct (JSMap.get i (devices st)) as [h|] eqn:Hdev; simpl;
    destruct (config_file st) as [config|] eqn:Hcfg; simpl;
    rewrite ?Hcfg; simpl; rewrite <- ?app_assoc; simpl; repeat split; auto;
    symmetry; now apply delete_absent.
Qed.

End Removal.

(** X5. A [DELETE] takes the device out of the three maps and out of
    [devices.json], tells its instance, if it has one, to disconnect, and
    broadcasts the removal.  Every other device keeps its reading,
    instance, writer and file entry.  Nothing is cancelled: the pending
    timers, the suspended handlers and the registered listeners, those of
    the removed device included, are all still there. *)
Theorem removal_discards_one_device
    (now : string) (req : nat) (i j : string) (st : Multi.State) :
  i <> j ->
  let st' := Multi.step now (Multi.EDeleteDevice req i) st in
  (Multi.reading i st' = None /\
   JSMap.get i (Multi.devices st') = None /\
   JSMap.get i (Multi.deviceWriters st') = None /\
   Multi.listed i st' = false) /\
  (Multi.reading j st' = Multi.reading j st /\
   JSMap.get j (Multi.devices st') = JSMap.get j (Multi.devices st) /\
   JSMap.get j (Multi.deviceWriters st') = JSMap.get j (Multi.deviceWriters st) /\
   Multi.listed j st' = Multi.listed j st) /\
  (Multi.timers st' = Multi.timers st /\
   Multi.pending st' = Multi.pending st /\
   Multi.listeners st' = Multi.listeners st) /\
  Observe.link_calls (Multi.trace st')
  = Observe.link_calls (Multi.trace st)
      ++ match JSMap.get i (Multi.devices st) with
         | Some h => [Multi.LDisconnect h]
         | None => []
         end /\
  Observe.broadcasts (Multi.trace st')
  = Observe.broadcasts (Multi.trace st) ++ [Multi.MDeviceRemoved i].
Proof.
  intros Hne. cbv zeta. unfold Multi.step.
  destruct (delete_device_fields req i st)
    as (Hheap & Hdata & Hdev & Hwr & Hcfg & _ & Hls & Htm & Hpd & _ & Htrace).
  unfold Multi.reading, Multi.snapshot, Multi.deref, Multi.listed.
  rewrite Hheap, Hdata, Hdev, Hwr, Hcfg, Hls, Htm, Hpd, Htrace.
  rewrite !get_delete_eq, !(get_delete_ne _ _ _ Hne).
  rewrite !link_calls_app, !broadcasts_app.
  repeat split.
  - destruct (Multi.config_file st); simpl; auto using existsb_filter_self.
  - destruct (Multi.config_file st); simpl; auto using existsb_filter_other.
  - destruct (JSMap.get i (Multi.devices st)); simpl; now rewrite ?app_nil_r.
  - destruct (JSMap.get i (Multi.devices st)); reflexivity.
Qed.

Lemma removal_discards_one_device_witness :
  let st := Examples.plug_measured in
  let st' := Multi.step "t5" (Multi.EDeleteDevice 5 "device_1") st in
  (Multi.reading "device_1" st' = None /\
   JSMap.get "device_1" (Multi.devices st') = None /\
   JSMap.get "device_1" (Multi.deviceWriters st') = None /\
   Multi.listed "device_1" st' = false) /\
  (Multi.reading "device_2" st' = Multi.reading "device_2" st /\
   JSMap.get "device_2" (Multi.devices st') = JSMap.get "device_2" (Multi.devices st) /\
   JSMap.get "device_2" (Multi.deviceWriters st')
   = JSMap.get "device_2" (Multi.deviceWriters st) /\
   Multi.listed "device_2" st' = Multi.listed "device_2" st) /\
  (Multi.timers st' = Multi.timers st /\
   Multi.pending st' = Multi.pending st /\
   Multi.listeners st' = Multi.listeners st) /\
  Observe.link_calls (Multi.trace st')
  = Observe.link_calls (Multi.trace st)
      ++ match JSMap.get "device_1" (Multi.devices st) with
         | Some h => [Multi.LDisconnect h]
         | None => []
         end /\
  Observe.broadcasts (Multi.trace st')
  = Observe.broadcasts (Multi.trace st) ++ [Multi.MDeviceRemoved "device_1"].
Proof.
  apply (removal_discards_one_device "t5" 5 "device_1" "device_2" Examples.plug_measured).
  discriminate.
Defined.



Section AfterRemoval.

Import Multi Observe.

(** A connection that completes for a device without a reading: the
    instance is entered in [devices], the listeners capture no object, and
    the broadcast carries no data. *)
Lemma connected_without_reading c h st :
  JSMap.get (Config.id c) (deviceData st) = None ->
  connectToDevice_connected c h st
  = emit (Broadcast (MDeviceConnect (Config.id c) None))
      (set_listeners
         (listeners st ++ [ {| l_handle := h; l_config := c; l_currentData := None |} ])
         (emit (Console ("Connected to " ++ Config.name c)%string)
            (set_devices (JSMap.set (Config.id c) h (devices st)) st))).
Proof.
  intros Hnone. unfold connectToDevice_connected. simpl. rewrite Hnone. reflexivity.
Qed.

Lemma on_disconnect_fields l st :
  timers (on_disconnect l st) = timers st ++ [(10000%N, l_config l)] /\
  broadcasts (trace (on_disconnect l st))
  = broadcasts (trace st) ++ [MDeviceDisconnect (Config.id (l_config l))].
Proof.
  unfold on_disconnect, mark_connected.
  destruct (l_currentData l); simpl; rewrite !broadcasts_app; simpl;
    rewrite ?app_nil_r; auto.
Qed.

Lemma reading_listed i st o :
  reading i st = Some o -> In o (allDevicesData st).
Proof.
  unfold reading, snapshot, allDevicesData.
  destruct (JSMap.get i (deviceData st)) as [r|] eqn:Hr; [|discriminate].
  intros Ho. apply list_elem_of_In, list_elem_of_omap. exists r. split; auto.
  apply list_elem_of_In. eapply get_Some_In; eauto.
Qed.

End AfterRemoval.

(** X7. A removal does not stop a connection that is being made.  When the
    [connect] of a removed device resolves, its instance is entered in
    [devices] and listeners are registered for it, although the device has
    no reading any more; clients are told that it connected, without
    data. *)
Theorem connection_outlives_removal
    (now now' : string) (req k : nat) (c : Multi.Config.t) (h : nat) (st : Multi.State) :
  Multi.pending st !! k = Some (Multi.PConnect c h) ->
  let i := Multi.Config.id c in
  let st' :=
    Multi.step now' (Multi.ESettle k JS.Resolved)
      (Multi.step now (Multi.EDeleteDevice req i) st) in
  JSMap.get i (Multi.devices st') = Some h /\
  Multi.reading i st' = None /\
  Multi.listeners st'
  = Multi.listeners st
      ++ [ {| Multi.l_handle := h; Multi.l_config := c; Multi.l_currentData := None |} ] /\
  Observe.broadcasts (Multi.trace st')
  = Observe.broadcasts (Multi.trace st)
      ++ [ Multi.MDeviceRemoved i; Multi.MDeviceConnect i None ].
Proof.
  intros Hk. cbv zeta.
  unfold Multi.step at 2. unfold Multi.step.
  destruct (delete_device_fields req (Multi.Config.id c) st)
    as (Hheap & Hdata & Hdev & _ & _ & _ & Hls & _ & Hpd & _ & Htrace).
  set (st1 := Multi.delete_device req (Multi.Config.id c) st) in *.
  rewrite Hpd, Hk. cbn [Multi.settle].
  rewrite connected_without_reading
    by (cbn [Multi.deviceData Multi.set_pending]; rewrite Hdata; apply get_delete_eq).
  unfold Multi.reading.
  cbn [Multi.heap Multi.deviceData Multi.devices Multi.listeners Multi.trace
       Multi.set_pending Multi.set_devices Multi.set_listeners Multi.emit].
  rewrite get_set_eq, Hdata, get_delete_eq, Hls, Htrace, !broadcasts_app.
  repeat split. simpl.
  destruct (JSMap.get (Multi.Config.id c) (Multi.devices st)); simpl;
    now rewrite ?app_nil_r, <- ?app_assoc.
Qed.

Lemma connection_outlives_removal_witness :
  let c := Observe.new_device Samples.heater_body "device_3" in
  let st := Samples.heater_connecting in
  let st' :=
    Multi.step "t9" (Multi.ESettle 0 JS.Resolved)
      (Multi.step "t8" (Multi.EDeleteDevice 8 "device_3") st) in
  JSMap.get "device_3" (Multi.devices st') = Some 1 /\
  Multi.reading "device_3" st' = None /\
  Multi.listeners st'
  = Multi.listeners st
      ++ [ {| Multi.l_handle := 1; Multi.l_config := c; Multi.l_currentData := None |} ] /\
  Observe.broadcasts (Multi.trace st')
  = Observe.broadcasts (Multi.trace st)
      ++ [ Multi.MDeviceRemoved "device_3"; Multi.MDeviceConnect "device_3" None ].
Proof.
  apply (connection_outlives_removal "t8" "t9" 8 0
           (Observe.new_device Samples.heater_body "device_3") 1 Samples.heater_connecting).
  vm_compute. reflexivity.
Defined.

(** X8. A removal does not unregister the listeners of the device's instance.
    When that instance later emits [disconnect], the listener puts the
    object it captured back into [deviceData]: the removed device is listed
    to clients again, marked disconnected, and a reconnection is scheduled
    after 10000 ms.  An [error] event brings the reading back likewise. *)
Theorem removed_device_comes_back_on_disconnect
    (now now' : string) (req h : nat) (l : Multi.Listener) (r : nat)
    (o : Multi.DeviceData) (message : string) (st : Multi.State) :
  Multi.listener_of h st = Some l ->
  Multi.l_currentData l = Some r ->
  Multi.heap st !! r = Some o ->
  let i := Multi.Config.id (Multi.l_config l) in
  let removed := Multi.step now (Multi.EDeleteDevice req i) st in
  let st' := Multi.step now' (Multi.EDisconnect h) removed in
  let st'' := Multi.step now' (Multi.EError h message) removed in
  Multi.reading i removed = None /\
  Multi.reading i st' = Some (Multi.with_connected false o) /\
  In (Multi.with_connected false o) (Multi.allDevicesData st') /\
  Multi.timers st' = Multi.timers st ++ [(10000%N, Multi.l_config l)] /\
  Multi.reading i st'' = Some (Multi.with_connected false o).
Proof.
  intros Hl Hr Ho. cbv zeta.
  unfold Multi.step at 2 4 6 8 9. unfold Multi.step.
  destruct (delete_device_fields req (Multi.Config.id (Multi.l_config l)) st)
    as (Hheap & Hdata & _ & _ & _ & _ & Hls & Htm & _).
  set (st1 := Multi.delete_device req (Multi.Config.id (Multi.l_config l)) st) in *.
  clearbody st1.
  assert (Hl1 : Multi.listener_of h st1 = Some l).
  { unfold Multi.listener_of. now rewrite Hls. }
  rewrite Hl1.
  assert (Hback : Multi.reading (Multi.Config.id (Multi.l_config l))
                    (Multi.on_disconnect l st1) = Some (Multi.with_connected false o)).
  { apply (disconnect_puts_captured_object_back l st1 r o Hr). now rewrite Hheap. }
  repeat split.
  - unfold Multi.reading. now rewrite Hdata, get_delete_eq.
  - exact Hback.
  - eapply reading_listed. exact Hback.
  - rewrite (proj1 (on_disconnect_fields l st1)). now rewrite Htm.
  - unfold Multi.on_error, Multi.mark_connected, Multi.reading. rewrite Hr. simpl.
    rewrite get_set_eq. simpl. unfold Multi.deref. simpl.
    now rewrite list_lookup_alter_eq, Hheap, Ho.
Qed.

Lemma removed_device_comes_back_on_disconnect_witness :
  let st := Examples.plug_measured in
  let o := Multi.with_connected true (Multi.initializeDeviceData "t0" Examples.plug) in
  let removed := Multi.step "t5" (Multi.EDeleteDevice 5 "device_1") st in
  let st' := Multi.step "t6" (Multi.EDisconnect 0) removed in
  let st'' := Multi.step "t6" (Multi.EError 0 "ECONNRESET") removed in
  Multi.reading "device_1" removed = None /\
  Multi.reading "device_1" st' = Some (Multi.with_connected false o) /\
  In (Multi.with_connected false o) (Multi.allDevicesData st') /\
  Multi.timers st' = Multi.timers st ++ [(10000%N, Examples.plug)] /\
  Multi.reading "device_1" st'' = Some (Multi.with_connected false o).
Proof.
  apply (removed_device_comes_back_on_disconnect "t5" "t6" 5 0
           {| Multi.l_handle := 0; Multi.l_config := Examples.plug;
              Multi.l_currentData := Some 0 |}
           0 (Multi.with_connected true (Multi.initializeDeviceData "t0" Examples.plug))
           "ECONNRESET" Examples.plug_measured); vm_compute; reflexivity.
Defined.

(** ** Toggling a device that is not connected *)

(** X9. A toggle goes to the link only when the device has an instance and a
    reading marked connected.  Without an instance, without a reading, or
    with a reading that is not connected, both handlers answer
    "Device not connected" and do nothing else. *)
Theorem toggle_needs_connected_reading
    (req ws : nat) (i : string) (st : Multi.State) :
  JSMap.get i (Multi.devices st) = None \/
  (forall o, Multi.reading i st = Some o -> Multi.connected o = false) ->
  Multi.post_toggle req i st
  = Multi.emit (Multi.Http req (Multi.RError 400%N "Device not connected")) st /\
  Multi.ws_toggle ws i st
  = Multi.emit (Multi.WsSend ws (Multi.MError (Some i) "Device not connected")) st.
Proof.
  unfold Multi.post_toggle, Multi.ws_toggle, Multi.reading, Multi.snapshot.
  intros [Hdev|Hoff].
  - rewrite Hdev. split; reflexivity.
  - destruct (JSMap.get i (Multi.devices st)) as [h|]; [|split; reflexivity].
    destruct (JSMap.get i (Multi.deviceData st)) as [r|]; [|split; reflexivity].
    destruct (Multi.deref st r) as [o|]; [|split; reflexivity].
    rewrite (Hoff o eq_refl). split; reflexivity.
Qed.

(** The lamp is disabled: it has a reading, which is not connected. *)
Lemma toggle_needs_connected_reading_witness :
  Multi.post_toggle 5 "device_2" Examples.plug_measured
  = Multi.emit (Multi.Http 5 (Multi.RError 400%N "Device not connected"))
      Examples.plug_measured /\
  Multi.ws_toggle 4 "device_2" Examples.plug_measured
  = Multi.emit (Multi.WsSend 4 (Multi.MError (Some "device_2") "Device not connected"))
      Examples.plug_measured.
Proof.
  apply (toggle_needs_connected_reading 5 4 "device_2" Examples.plug_measured).
  right. vm_compute. intros o [= <-]. reflexivity.
Defined.

(** ** A report from the link *)

(** X10. A [data] event on an instance whose device has a reading replaces
    that reading by the normalised report: it is marked connected, it keeps
    the fields that identify the device, it is broadcast, and it is written
    to the device's CSV file when the device has a writer.  The reading of
    every other device is left as it is, and so are the instances, timers,
    listeners and suspended handlers. *)
Theorem report_updates_one_reading
    (now : string) (h : nat) (data : JS.RawData) (l : Multi.Listener)
    (cur o : Multi.DeviceData) (j : string) (st : Multi.State) :
  Multi.listener_of h st = Some l ->
  Multi.reading (Multi.Config.id (Multi.l_config l)) st = Some cur ->
  Multi.reading j st = Some o ->
  Multi.Config.id (Multi.l_config l) <> j ->
  let i := Multi.Config.id (Multi.l_config l) in
  let updated := Multi.normalize now (JS.dps_of data) cur in
  let st' := Multi.step now (Multi.EData h data) st in
  Multi.reading i st' = Some updated /\
  Multi.connected updated = true /\
  (Multi.id updated, Multi.name updated, Multi.type updated, Multi.room updated,
   Multi.ip updated, Multi.version updated, Multi.enabled updated)
  = (Multi.id cur, Multi.name cur, Multi.type cur, Multi.room cur,
     Multi.ip cur, Multi.version cur, Multi.enabled cur) /\
  Multi.reading j st' = Some o /\
  Observe.broadcasts (Multi.trace st')
  = Observe.broadcasts (Multi.trace st) ++ [Multi.MDeviceData i updated] /\
  Observe.csv_rows (Multi.trace st')
  = Observe.csv_rows (Multi.trace st)
      ++ match JSMap.get i (Multi.deviceWriters st) with
         | Some path =>
             [ (path, [ {| Multi.row_data := updated; Multi.row_device_id := i;
                           Multi.row_device_name := Multi.name updated |} ]) ]
         | None => []
         end /\
  Multi.devices st' = Multi.devices st /\
  Multi.timers st' = Multi.timers st /\
  Multi.listeners st' = Multi.listeners st /\
  Multi.pending st' = Multi.pending st.
Proof.
  intros Hl Hi Hj Hne. cbv zeta. unfold Multi.step. rewrite Hl.
  unfold Multi.reading, Multi.snapshot in Hi, Hj.
  destruct (JSMap.get (Multi.Config.id (Multi.l_config l)) (Multi.deviceData st))
    as [r|] eqn:Hr; [|discriminate].
  destruct (JSMap.get j (Multi.deviceData st)) as [r'|] eqn:Hr'; [|discriminate].
  unfold Multi.handleDeviceData, Multi.alloc, Multi.writeRecords, Multi.reading,
    Multi.snapshot, Multi.deref in *.
  cbn [Multi.deviceData Multi.heap Multi.emit]. rewrite Hr, Hi.
  destruct (JSMap.get (Multi.Config.id (Multi.l_config l)) (Multi.deviceWriters st))
    as [path|] eqn:Hw;
    cbn [Multi.deviceData Multi.heap Multi.deviceWriters Multi.emit Multi.set_deviceData
         Multi.set_heap Multi.csv_files]; rewrite ?Hw;
    [destruct (existsb (String.eqb path) (Multi.csv_files st))|];
    cbn [Multi.deviceData Multi.heap Multi.devices Multi.timers Multi.listeners
         Multi.pending Multi.trace Multi.emit Multi.set_deviceData Multi.set_heap
         Multi.set_csv_files];
    rewrite get_set_eq, (get_set_ne _ _ _ _ Hne), Hr';
    rewrite (list_lookup_middle (Multi.heap st) [] _ _ eq_refl);
    rewrite (lookup_app_l_Some _ _ _ _ Hj);
    rewrite !broadcasts_app, !csv_rows_app; simpl; rewrite ?app_nil_r;
    repeat split.
Qed.

Lemma report_updates_one_reading_witness :
  let st := Examples.plug_measured in
  let cur := Multi.normalize "t4" Examples.full_update
               (Multi.with_connected true (Multi.initializeDeviceData "t0" Examples.plug)) in
  let o := Multi.initializeDeviceData "t0" Examples.lamp in
  let updated := Multi.normalize "t5" Examples.switch_off_update cur in
  let st' := Multi.step "t5" (Multi.EData 0 (JS.Wrapped Examples.switch_off_update)) st in
  Multi.reading "device_1" st' = Some updated /\
  Multi.connected updated = true /\
  (Multi.id updated, Multi.name updated, Multi.type updated, Multi.room updated,
   Multi.ip updated, Multi.version updated, Multi.enabled updated)
  = (Multi.id cur, Multi.name cur, Multi.type cur, Multi.room cur,
     Multi.ip cur, Multi.version cur, Multi.enabled cur) /\
  Multi.reading "device_2" st' = Some o /\
  Observe.broadcasts (Multi.trace st')
  = Observe.broadcasts (Multi.trace st) ++ [Multi.MDeviceData "device_1" updated] /\
  Observe.csv_rows (Multi.trace st')
  = Observe.csv_rows (Multi.trace st)
      ++ match JSMap.get "device_1" (Multi.deviceWriters st) with
         | Some path =>
             [ (path, [ {| Multi.row_data := updated; Multi.row_device_id := "device_1";
                           Multi.row_device_name := Multi.name updated |} ]) ]
         | None => []
         end /\
  Multi.devices st' = Multi.devices st /\
  Multi.timers st' = Multi.timers st /\
  Multi.listeners st' = Multi.listeners st /\
  Multi.pending st' = Multi.pending st.
Proof.
  apply (report_updates_one_reading "t5" 0 (JS.Wrapped Examples.switch_off_update)
           {| Multi.l_handle := 0; Multi.l_config := Examples.plug;
              Multi.l_currentData := Some 0 |}
           (Multi.normalize "t4" Examples.full_update
              (Multi.with_connected true (Multi.initializeDeviceData "t0" Examples.plug)))
           (Multi.initializeDeviceData "t0" Examples.lamp) "device_2"
           Examples.plug_measured); try (vm_compute; reflexivity).
  discriminate.
Defined.

(** ** Connecting and retrying *)

Section Connecting.

Import Multi Observe.

Lemma last_index {A : Type} (l : list A) (x : A) :
  (l ++ [x]) !! pred (length (l ++ [x])) = Some x /\
  delete (pred (length (l ++ [x]))) (l ++ [x]) = l.
Proof.
  rewrite length_app. simpl. replace (pred (length l + 1)) with (length l) by lia.
  split.
  - now apply list_lookup_middle.
  - rewrite delete_middle. apply app_nil_r.
Qed.



Lemma settle_last now ps p o st :
  pending st = ps ++ [p] ->
  step now (ESettle (pred (length (pending st))) o) st = settle now p o (set_pending ps st).
Proof.
  intros H. unfold step. rewrite H.
  destruct (last_index ps p) as [-> ->]. reflexivity.
Qed.


End Connecting.



(** X12. A connection attempt that goes through: the timer makes a new instance
    and asks it to [find]; when that resolves, and not before, [connect] is
    called; when that resolves the instance is entered in [devices], the
    device's reading is marked connected with its other fields untouched,
    listeners are registered that capture that very object, and the reading
    is broadcast.  The timer is used up and nothing stays suspended. *)
Theorem connection_attempt_succeeds
    (now1 now2 now3 : string) (k : nat) (n : N) (c : Multi.Config.t) (r : nat)
    (o : Multi.DeviceData) (st : Multi.State) :
  Multi.timers st !! k = Some (n, c) ->
  JSMap.get (Multi.Config.id c) (Multi.deviceData st) = Some r ->
  Multi.heap st !! r = Some o ->
  let i := Multi.Config.id c in
  let h := length (Multi.links st) in
  let st1 := Multi.step now1 (Multi.ETimer k) st in
  let st2 := Multi.step now2 (Multi.ESettle (pred (length (Multi.pending st1))) JS.Resolved) st1 in
  let st3 := Multi.step now3 (Multi.ESettle (pred (length (Multi.pending st2))) JS.Resolved) st2 in
  Observe.link_calls (Multi.trace st1)
  = Observe.link_calls (Multi.trace st) ++ [Multi.LFind h] /\
  Observe.link_calls (Multi.trace st3)
  = Observe.link_calls (Multi.trace st) ++ [Multi.LFind h; Multi.LConnect h] /\
  JSMap.get i (Multi.devices st3) = Some h /\
  Multi.reading i st3 = Some (Multi.with_connected true o) /\
  Multi.listeners st3
  = Multi.listeners st
      ++ [ {| Multi.l_handle := h; Multi.l_config := c; Multi.l_currentData := Some r |} ] /\
  Observe.broadcasts (Multi.trace st3)
  = Observe.broadcasts (Multi.trace st)
      ++ [Multi.MDeviceConnect i (Some (Multi.with_connected true o))] /\
  Multi.timers st3 = delete k (Multi.timers st) /\
  Multi.pending st3 = Multi.pending st.
Proof.
  intros Hk Hr Ho. cbv zeta.
  assert (E1 : Multi.step now1 (Multi.ETimer k) st
               = Multi.connectToDevice c (Multi.set_timers (delete k (Multi.timers st)) st)).
  { unfold Multi.step. now rewrite Hk. }
  rewrite E1.
  set (st1 := Multi.connectToDevice c _).
  assert (Hp1 : Multi.pending st1
                = Multi.pending st ++ [Multi.PFind c (length (Multi.links st))])
    by reflexivity.
  rewrite (settle_last now2 _ _ _ st1 Hp1). cbn [Multi.settle].
  set (st2 := Multi.connectToDevice_found c _ _).
  assert (Hp2 : Multi.pending st2
                = Multi.pending st ++ [Multi.PConnect c (length (Multi.links st))])
    by reflexivity.
  rewrite (settle_last now3 _ _ _ st2 Hp2). cbn [Multi.settle].
  unfold Multi.connectToDevice_connected, Multi.mark_connected, Multi.reading,
    Multi.snapshot, Multi.deref.
  change (Multi.deviceData
            (Multi.set_devices
               (JSMap.set (Multi.Config.id c) (length (Multi.links st))
                  (Multi.devices (Multi.set_pending (Multi.pending st) st2)))
               (Multi.set_pending (Multi.pending st) st2)))
    with (Multi.deviceData st).
  rewrite Hr.
  unfold st2, Multi.connectToDevice_found, st1, Multi.connectToDevice. simpl.
  rewrite !get_set_eq, !list_lookup_alter_eq, Ho. simpl.
  rewrite !link_calls_app, !broadcasts_app. simpl.
  rewrite !app_nil_r, <- !app_assoc. repeat split.
Qed.

Lemma connection_attempt_succeeds_witness :
  let st := Examples.booted in
  let o := Multi.initializeDeviceData "t0" Examples.plug in
  let st1 := Multi.step "t1" (Multi.ETimer 0) st in
  let st2 := Multi.step "t2" (Multi.ESettle (pred (length (Multi.pending st1))) JS.Resolved) st1 in
  let st3 := Multi.step "t3" (Multi.ESettle (pred (length (Multi.pending st2))) JS.Resolved) st2 in
  Observe.link_calls (Multi.trace st1)
  = Observe.link_calls (Multi.trace st) ++ [Multi.LFind 0] /\
  Observe.link_calls (Multi.trace st3)
  = Observe.link_calls (Multi.trace st) ++ [Multi.LFind 0; Multi.LConnect 0] /\
  JSMap.get "device_1" (Multi.devices st3) = Some 0 /\
  Multi.reading "device_1" st3 = Some (Multi.with_connected true o) /\
  Multi.listeners st3
  = Multi.listeners st
      ++ [ {| Multi.l_handle := 0; Multi.l_config := Examples.plug;
              Multi.l_currentData := Some 0 |} ] /\
  Observe.broadcasts (Multi.trace st3)
  = Observe.broadcasts (Multi.trace st)
      ++ [Multi.MDeviceConnect "device_1" (Some (Multi.with_connected true o))] /\
  Multi.timers st3 = delete 0 (Multi.timers st) /\
  Multi.pending st3 = Multi.pending st.
Proof.
  apply (connection_attempt_succeeds "t1" "t2" "t3" 0 0%N Examples.plug 0
           (Multi.initializeDeviceData "t0" Examples.plug) Examples.booted);
    vm_compute; reflexivity.
Defined.

(** ** A report that arrives while a toggle is in flight *)

Section ReportDuringToggle.

Import Multi Observe.

(** [handleDeviceData] for a device that has a reading, field by field. *)
Lemma handleDeviceData_fields now i data r cur st :
  JSMap.get i (deviceData st) = Some r ->
  heap st !! r = Some cur ->
  let updated := normalize now (JS.dps_of data) cur in
  let st' := handleDeviceData now i data st in
  heap st' = heap st ++ [updated] /\
  deviceData st' = JSMap.set i (length (heap st)) (deviceData st) /\
  pending st' = pending st /\
  listeners st' = listeners st /\
  broadcasts (trace st') = broadcasts (trace st) ++ [MDeviceData i updated].
Proof.
  intros Hr Hcur. cbv zeta.
  unfold handleDeviceData, alloc, writeRecords, deref.
  cbn [deviceData heap emit]. rewrite Hr, Hcur.
  destruct (JSMap.get i (deviceWriters _)) as [path|];
    [destruct (existsb (String.eqb path) _)|];
    simpl; rewrite !broadcasts_app; simpl; rewrite ?app_nil_r; repeat split.
Qed.

(** The WebSocket toggle handler after its [set] resolved. *)
Lemma ws_toggle_settled_fields now ws i r newState x st :
  heap st !! r = Some x ->
  let st' := ws_toggle_settled now ws i r newState JS.Resolved st in
  reading i st' = Some (with_power_state newState now x) /\
  broadcasts (trace st')
  = broadcasts (trace st) ++ [MDeviceData i (with_power_state newState now x)].
Proof.
  intros Hx. cbv zeta. unfold ws_toggle_settled, mutate, deref.
  cbn [heap deviceData emit set_heap set_deviceData].
  rewrite list_lookup_alter_eq, Hx. cbn [fmap option_fmap option_map].
  unfold reading, snapshot, deref.
  cbn [heap deviceData trace emit set_heap set_deviceData].
  rewrite get_set_eq, list_lookup_alter_eq, Hx, !broadcasts_app. simpl.
  now rewrite app_nil_r.
Qed.

End ReportDuringToggle.

(** X13. The WebSocket toggle handler keeps the object it read before
    [await device.set].  When the device reports in the meantime,
    [handleDeviceData] stores a new object; the handler, once the [set]
    resolves, updates the object it kept and stores that one back.  The
    reading then carries the new switch state on top of the values from
    before the report: what the report said is gone from the map. *)
Theorem toggle_confirmation_overwrites_report
    (now1 now2 now3 : string) (ws h h' r : nat) (l : Multi.Listener)
    (o : Multi.DeviceData) (data : JS.RawData) (i : string) (st : Multi.State) :
  i <> "" ->
  JSMap.get i (Multi.devices st) = Some h ->
  JSMap.get i (Multi.deviceData st) = Some r ->
  Multi.heap st !! r = Some o ->
  Multi.connected o = true ->
  Multi.listener_of h' st = Some l ->
  Multi.Config.id (Multi.l_config l) = i ->
  let newState := JS.not (Multi.power_state o) in
  let st1 := Multi.step now1 (Multi.EWsMessage ws (Multi.Toggle (Some i))) st in
  let st2 := Multi.step now2 (Multi.EData h' data) st1 in
  let st3 := Multi.step now3 (Multi.ESettle (length (Multi.pending st)) JS.Resolved) st2 in
  Multi.reading i st2 = Some (Multi.normalize now2 (JS.dps_of data) o) /\
  Multi.reading i st3 = Some (Multi.with_power_state newState now3 o) /\
  Observe.broadcasts (Multi.trace st3)
  = Observe.broadcasts (Multi.trace st)
      ++ [ Multi.MDeviceData i (Multi.normalize now2 (JS.dps_of data) o);
           Multi.MDeviceData i (Multi.with_power_state newState now3 o) ].
Proof.
  intros Hne Hdev Hdata Hobj Hconn Hl Hid. cbv zeta.
  assert (E1 : Multi.step now1 (Multi.EWsMessage ws (Multi.Toggle (Some i))) st
               = Multi.set_pending
                   (Multi.pending st
                      ++ [Multi.PWsSet ws i r (JS.not (Multi.power_state o))])
                   (Multi.emit (Multi.Link (Multi.LSet h 1 (JS.not (Multi.power_state o))))
                      (Multi.emit (Multi.Console ("Toggling " ++ i ++ " from:")%string)
                         (Multi.emit (Multi.Console "Received WebSocket message:") st)))).
  { unfold Multi.step, Multi.ws_message. rewrite (nonempty_Some _ Hne).
    now rewrite (ws_toggle_connected _ i h r o) by assumption. }
  rewrite E1. clear E1.
  set (st1 := Multi.set_pending _ _).
  assert (Hb1 : Observe.broadcasts (Multi.trace st1) = Observe.broadcasts (Multi.trace st)).
  { unfold st1. simpl. rewrite !broadcasts_app. simpl. now rewrite !app_nil_r. }
  assert (E2 : Multi.step now2 (Multi.EData h' data) st1
               = Multi.handleDeviceData now2 i data st1).
  { unfold Multi.step.
    change (Multi.listener_of h' st1) with (Multi.listener_of h' st).
    now rewrite Hl, Hid. }
  rewrite E2. clear E2.
  destruct (handleDeviceData_fields now2 i data r o st1 Hdata Hobj)
    as (Hheap2 & Hdata2 & Hpd2 & _ & Hb2).
  set (st2 := Multi.handleDeviceData now2 i data st1) in *.
  change (Multi.heap st1) with (Multi.heap st) in *.
  change (Multi.deviceData st1) with (Multi.deviceData st) in *.
  change (Multi.pending st1)
    with (Multi.pending st ++ [Multi.PWsSet ws i r (JS.not (Multi.power_state o))]) in *.
  clearbody st2. clearbody st1.
  destruct (pending_last (Multi.pending st)
              (Multi.PWsSet ws i r (JS.not (Multi.power_state o)))) as [Hp1 Hp2].
  split.
  - unfold Multi.reading, Multi.snapshot, Multi.deref.
    rewrite Hdata2, get_set_eq, Hheap2. simpl. now apply list_lookup_middle.
  - unfold Multi.step. rewrite Hpd2, Hp1, Hp2. cbn [Multi.settle].
    destruct (ws_toggle_settled_fields now3 ws i r (JS.not (Multi.power_state o)) o
                (Multi.set_pending (Multi.pending st) st2)) as [Hread Hb3].
    { cbn [Multi.heap Multi.set_pending]. rewrite Hheap2.
      now apply lookup_app_l_Some. }
    split; [exact Hread|].
    rewrite Hb3. cbn [Multi.trace Multi.set_pending].
    now rewrite Hb2, Hb1, <- app_assoc.
Qed.

(** The plug is on the air; it is toggled, reports 220 V before the [set]
    resolves, and the reading ends up with the 0 V of connection time. *)
Lemma toggle_confirmation_overwrites_report_witness :
  let st := Examples.plug_connected in
  let o := Multi.with_connected true (Multi.initializeDeviceData "t0" Examples.plug) in
  let data := JS.Wrapped Examples.full_update in
  let newState := JS.not (Multi.power_state o) in
  let st1 := Multi.step "t5" (Multi.EWsMessage 4 (Multi.Toggle (Some "device_1"))) st in
  let st2 := Multi.step "t6" (Multi.EData 0 data) st1 in
  let st3 := Multi.step "t7" (Multi.ESettle (length (Multi.pending st)) JS.Resolved) st2 in
  Multi.reading "device_1" st2 = Some (Multi.normalize "t6" (JS.dps_of data) o) /\
  Multi.reading "device_1" st3 = Some (Multi.with_power_state newState "t7" o) /\
  Observe.broadcasts (Multi.trace st3)
  = Observe.broadcasts (Multi.trace st)
      ++ [ Multi.MDeviceData "device_1" (Multi.normalize "t6" (JS.dps_of data) o);
           Multi.MDeviceData "device_1" (Multi.with_power_state newState "t7" o) ].
Proof.
  apply (toggle_confirmation_overwrites_report "t5" "t6" "t7" 4 0 0 0
           {| Multi.l_handle := 0; Multi.l_config := Examples.plug;
              Multi.l_currentData := Some 0 |}
           (Multi.with_connected true (Multi.initializeDeviceData "t0" Examples.plug))
           (JS.Wrapped Examples.full_update) "device_1" Examples.plug_connected);
    try (vm_compute; reflexivity).
  discriminate.
Defined.

(** ** The object store *)

Section Store.

Import Multi Disabled Observe.

Implicit Types (st : State).

Lemma get_Some_entry {V : Type} (m : list (string * V)) k v :
  JSMap.get k m = Some v -> In (k, v) m.
Proof.
  induction m as [|[k' v'] m IH]; simpl; [discriminate|].
  destruct (String.eqb_spec k' k) as [->|Hne]; [intros [= ->]; now left | auto].
Qed.

Lemma Forall_set {V : Type} (P : string * V -> Prop) (m : list (string * V)) k v :
  (forall k', String.eqb k' k = true -> P (k', v)) -> P (k, v) ->
  Forall P m -> Forall P (JSMap.set k v m).
Proof.
  intros Hv Hk. induction 1 as [|[k' v'] m Hx Hm IH]; simpl.
  - constructor; auto.
  - destruct (String.eqb k' k) eqn:E; constructor; auto.
Qed.

Lemma Forall_JSMap_delete {V : Type} (P : string * V -> Prop) (m : list (string * V)) k :
  Forall P m -> Forall P (JSMap.delete k m).
Proof.
  induction 1 as [|[k' v'] m Hx Hm IH]; simpl; auto.
  destruct (String.eqb k' k); simpl; auto.
Qed.

Lemma sv_get i r st :
  store_valid st -> JSMap.get i (deviceData st) = Some r -> has_id (heap st) r i.
Proof.
  intros H Hr. apply get_Some_entry in Hr.
  pose proof (sv_deviceData _ H) as Hall. rewrite List.Forall_forall in Hall.
  exact (Hall _ Hr).
Qed.

Lemma sv_emit e st : store_valid st -> store_valid (emit e st).
Proof. intros []. constructor; auto. Qed.

Lemma sv_set_heap hp' st :
  (forall r i, has_id (heap st) r i -> has_id hp' r i) ->
  store_valid st -> store_valid (set_heap hp' st).
Proof.
  intros Hmono []. constructor; simpl.
  - eapply Forall_impl; [eassumption|]. intros e He. simpl in *. auto.
  - eapply Forall_impl; [eassumption|]. intros l Hl r Hr. auto.
  - eapply Forall_impl; [eassumption|]. intros [] Hp; simpl in *; auto.
Qed.

Lemma sv_alloc o st : store_valid st -> store_valid (snd (alloc o st)).
Proof. intros H. apply sv_set_heap; auto. intros r i. apply has_id_alloc. Qed.

Lemma sv_mutate (f : DeviceData -> DeviceData) r st :
  (forall o, id (f o) = id o) -> store_valid st -> store_valid (mutate r f st).
Proof. intros Hf H. apply sv_set_heap; auto. intros r' i. now apply has_id_alter. Qed.

Lemma sv_set_deviceData i r st :
  has_id (heap st) r i ->
  store_valid st -> store_valid (set_deviceData (JSMap.set i r (deviceData st)) st).
Proof.
  intros Hr []. constructor; simpl; auto. apply Forall_set; auto.
  intros k' Hk. apply String.eqb_eq in Hk. now subst.
Qed.

Lemma sv_delete_deviceData i st :
  store_valid st -> store_valid (set_deviceData (JSMap.delete i (deviceData st)) st).
Proof.
  intros []. constructor; simpl; auto. now apply Forall_JSMap_delete.
Qed.

Lemma sv_set_devices v st : store_valid st -> store_valid (set_devices v st).
Proof. intros []. constructor; auto. Qed.

Lemma sv_set_deviceWriters v st : store_valid st -> store_valid (set_deviceWriters v st).
Proof. intros []. constructor; auto. Qed.

Lemma sv_set_csv_files v st : store_valid st -> store_valid (set_csv_files v st).
Proof. intros []. constructor; auto. Qed.

Lemma sv_set_config_file v st : store_valid st -> store_valid (set_config_file v st).
Proof. intros []. constructor; auto. Qed.

Lemma sv_set_timers v st : store_valid st -> store_valid (set_timers v st).
Proof. intros []. constructor; auto. Qed.

Lemma sv_set_links v st : store_valid st -> store_valid (set_links v st).
Proof. intros []. constructor; auto. Qed.

Lemma sv_set_refreshing v st : store_valid st -> store_valid (set_refreshing v st).
Proof. intros []. constructor; auto. Qed.

Lemma sv_add_pending p st :
  pending_valid (heap st) p ->
  store_valid st -> store_valid (set_pending (pending st ++ [p]) st).
Proof. intros Hp []. constructor; simpl; auto. apply Forall_app. auto. Qed.

Lemma sv_delete_pending k st :
  store_valid st -> store_valid (set_pending (delete k (pending st)) st).
Proof. intros []. constructor; simpl; auto. now apply Forall_delete. Qed.

Lemma sv_add_listener l st :
  listener_valid (heap st) l ->
  store_valid st -> store_valid (set_listeners (listeners st ++ [l]) st).
Proof. intros Hl []. constructor; simpl; auto. apply Forall_app. auto. Qed.

Lemma sv_mark_connected b i cur st :
  (forall r, cur = Some r -> has_id (heap st) r i) ->
  store_valid st -> store_valid (mark_connected b i cur st).
Proof.
  intros Hcur H. unfold mark_connected. destruct cur as [r|]; auto.
  apply sv_set_deviceData.
  - simpl. apply has_id_alter; auto.
  - now apply sv_mutate.
Qed.

Lemma sv_connectToDevice c st : store_valid st -> store_valid (connectToDevice c st).
Proof.
  intros H. unfold connectToDevice.
  apply sv_add_pending; [exact I|]. apply sv_emit, sv_set_links. now apply sv_emit.
Qed.

Lemma sv_connectToDevice_failed c message st :
  store_valid st -> store_valid (connectToDevice_failed c message st).
Proof.
  intros H. unfold connectToDevice_failed.
  apply sv_set_timers, sv_emit, sv_mark_connected; [|now apply sv_emit].
  simpl. intros r Hr. eapply sv_get; eauto.
Qed.

Lemma sv_connectToDevice_connected c h st :
  store_valid st -> store_valid (connectToDevice_connected c h st).
Proof.
  intros H. unfold connectToDevice_connected.
  apply sv_emit, sv_add_listener.
  - intros r Hr. simpl in *. apply has_id_mark_connected. simpl.
    eapply sv_get; eauto.
  - apply sv_emit, sv_mark_connected; [|now apply sv_set_devices].
    simpl. intros r Hr. eapply sv_get; eauto.
Qed.

Lemma sv_writeRecords path rows st : store_valid st -> store_valid (writeRecords path rows st).
Proof.
  intros H. unfold writeRecords. apply sv_emit.
  destruct (existsb _ _); auto. now apply sv_set_csv_files.
Qed.

Lemma sv_handleDeviceData now i data st :
  store_valid st -> store_valid (handleDeviceData now i data st).
Proof.
  intros H. unfold handleDeviceData.
  set (st0 := emit (Console _) st).
  assert (H0 : store_valid st0) by now apply sv_emit.
  clearbody st0. clear H st.
  destruct (JSMap.get i (deviceData st0)) as [r|] eqn:Hr; auto.
  destruct (deref st0 r) as [cur|] eqn:Hcur; auto.
  assert (Hid : id cur = i).
  { destruct (sv_get _ _ _ H0 Hr) as (x & Hx & Hxi). unfold deref in Hcur. congruence. }
  set (updatedData := normalize now (JS.dps_of data) cur).
  assert (Hstored :
            store_valid
              (set_deviceData (JSMap.set i (length (heap st0)) (deviceData st0))
                 (snd (alloc updatedData st0)))).
  { apply (sv_set_deviceData i (length (heap st0)) (snd (alloc updatedData st0))).
    - simpl. rewrite <- Hid. apply (has_id_new (heap st0) updatedData).
    - now apply sv_alloc. }
  simpl. apply sv_emit.
  destruct (JSMap.get i (deviceWriters st0)).
  - apply sv_writeRecords. now apply sv_emit.
  - now apply sv_emit.
Qed.

Lemma sv_register now c st : store_valid st -> store_valid (register now c st).
Proof.
  intros H. unfold register, initializeCSVWriter.
  assert (Hstored :
            store_valid
              (set_deviceData (JSMap.set (Config.id c) (length (heap st)) (deviceData st))
                 (snd (alloc (initializeDeviceData now c) st)))).
  { apply (sv_set_deviceData (Config.id c) (length (heap st))
             (snd (alloc (initializeDeviceData now c) st))).
    - apply (has_id_new (heap st) (initializeDeviceData now c)).
    - now apply sv_alloc. }
  simpl. destruct (existsb _ _).
  - now apply sv_set_deviceWriters.
  - apply sv_set_deviceWriters, sv_emit. now apply sv_set_csv_files.
Qed.

Lemma sv_settle now p o st :
  pending_valid (heap st) p -> store_valid st -> store_valid (settle now p o st).
Proof.
  intros Hp H. destruct p as [c h|c h|ws i r newState|req i newState|i]; simpl in *.
  - destruct o; [|now apply sv_connectToDevice_failed].
    unfold connectToDevice_found. apply sv_add_pending; [exact I|]. now apply sv_emit.
  - destruct o; auto using sv_connectToDevice_connected, sv_connectToDevice_failed.
  - unfold ws_toggle_settled. destruct o; [|auto using sv_emit].
    assert (Hset :
              store_valid
                (set_deviceData
                   (JSMap.set i r
                      (deviceData
                         (mutate r (with_power_state newState now)
                            (emit (Console ("Device " ++ i ++ " toggled successfully to:")%string)
                               st))))
                   (mutate r (with_power_state newState now)
                      (emit (Console ("Device " ++ i ++ " toggled successfully to:")%string)
                         st)))).
    { apply sv_set_deviceData.
      - simpl. now apply has_id_alter.
      - apply sv_mutate; auto. now apply sv_emit. }
    destruct (deref _ r); auto using sv_emit.
  - destruct o; simpl; auto using sv_emit.
  - destruct o; simpl; auto using sv_emit.
Qed.

Lemma sv_listener h st l :
  store_valid st -> listener_of h st = Some l -> listener_valid (heap st) l.
Proof.
  intros H Hl. apply List.find_some in Hl as [Hin _].
  pose proof (sv_listeners _ H) as Hall.
  rewrite List.Forall_forall in Hall. auto.
Qed.

(** Every callback keeps the references valid. *)
Lemma sv_step now e st : store_valid st -> store_valid (step now e st).
Proof.
  intros H.
  destruct e as [k|k o|h data|h message|h|i isConnected|ws|ws m|req|req i|req i|req body|req i];
    simpl.
  - destruct (timers st !! k) as [[n c]|]; auto.
    apply sv_connectToDevice. now apply sv_set_timers.
  - destruct (pending st !! k) as [p|] eqn:E; auto.
    apply sv_settle; [|now apply sv_delete_pending].
    exact (Forall_lookup_1 _ _ _ _ (sv_pending _ H) E).
  - destruct (listener_of h st) as [l|]; auto. now apply sv_handleDeviceData.
  - destruct (listener_of h st) as [l|] eqn:E; auto. unfold on_error.
    apply sv_emit, sv_mark_connected; [|now apply sv_emit].
    exact (sv_listener _ _ _ H E).
  - destruct (listener_of h st) as [l|] eqn:E; auto. unfold on_disconnect.
    apply sv_set_timers, sv_emit, sv_mark_connected; [|now apply sv_emit].
    exact (sv_listener _ _ _ H E).
  - unfold refresh_visit. destruct (refreshing st); auto.
    destruct (JSMap.get i (devices st)); auto. destruct isConnected; auto.
    apply sv_add_pending; [exact I|]. now apply sv_emit.
  - unfold ws_connection. auto using sv_emit.
  - destruct m as [deviceId| | |error]; simpl; auto using sv_emit.
    destruct (nonempty deviceId) as [i|]; auto using sv_emit.
    unfold ws_toggle.
    destruct (JSMap.get i (devices _)); auto using sv_emit.
    destruct (JSMap.get i (deviceData _)) as [r|] eqn:Hr; auto using sv_emit.
    destruct (deref _ r) as [x|]; auto using sv_emit.
    destruct (connected x); auto using sv_emit.
    apply sv_add_pending; [|auto using sv_emit].
    simpl. eapply sv_get; eauto.
  - unfold get_devices. auto using sv_emit.
  - unfold get_device. destruct (snapshot _ _); auto using sv_emit.
  - unfold post_toggle. destruct (JSMap.get i (devices st)); auto using sv_emit.
    destruct (snapshot _ _) as [x|]; auto using sv_emit.
    destruct (connected x); auto using sv_emit.
    apply sv_add_pending; [exact I|]. now apply sv_emit.
  - unfold post_devices.
    destruct (nonempty (Body.id body)); auto using sv_emit.
    destruct (nonempty (Body.device_id body)); auto using sv_emit.
    destruct (nonempty (Body.device_key body)); auto using sv_emit.
    destruct (nonempty (Body.device_ip body)); auto using sv_emit.
    destruct (List.find _ _); auto using sv_emit.
    apply sv_emit, sv_connectToDevice, sv_register. now apply sv_set_config_file.
  - unfold delete_device.
    apply sv_emit, sv_emit.
    match goal with
    | |- store_valid match config_file ?s with _ => _ end =>
        assert (Hs : store_valid s)
    end.
    { apply sv_set_deviceWriters, sv_delete_deviceData.
      destruct (JSMap.get i (devices st)); auto.
      apply sv_set_devices. now apply sv_emit. }
    destruct (config_file _); auto. now apply sv_set_config_file.
Qed.

Lemma sv_boot now file env csv : store_valid (boot now file env csv).
Proof.
  unfold boot, connectToAllDevices.
  set (st0 := emit (Console "Server running") (initial_state file csv)).
  assert (H0 : store_valid st0).
  { apply sv_emit. constructor; simpl; auto. }
  clearbody st0.
  destruct (Nat.eqb _ 0); [now apply sv_emit|].
  unfold startPeriodicRefresh. apply sv_set_refreshing, sv_set_timers.
  generalize (loadDeviceConfig (config_file st0) env). intros cs.
  assert (H1 : store_valid
                 (emit (Console "disabled device(s) to show...")
                    (emit (Console "enabled device(s) to connect...")
                       (emit (Console "Found device(s) total...") st0))))
    by auto using sv_emit.
  revert H1. generalize (emit (Console "disabled device(s) to show...")
                           (emit (Console "enabled device(s) to connect...")
                              (emit (Console "Found device(s) total...") st0))).
  induction cs as [|c cs IH]; intros st H; simpl; auto using sv_register.
Qed.

Lemma sv_run es st : store_valid st -> store_valid (run es st).
Proof.
  revert st. induction es as [|[now e] es IH]; intros st H; simpl; auto using sv_step.
Qed.

End Store.

(** X14. In every state the server can reach, whatever configuration it was
    started on, a device has an entry in [deviceData] exactly when it has a
    reading; the reading held under an id carries that id; and the list of
    readings sent to clients has one reading per entry of the map. *)
Theorem map_entries_have_readings
    (now : string) (file : option (list Multi.Config.t)) (env : option Multi.EnvDevice)
    (csv : list string) (es : list (string * Multi.Event)) (i : string) :
  let st := Multi.run es (Multi.boot now file env csv) in
  (is_Some (JSMap.get i (Multi.deviceData st)) <-> is_Some (Multi.reading i st)) /\
  (forall o, Multi.reading i st = Some o -> Multi.id o = i) /\
  length (Multi.allDevicesData st) = length (Multi.deviceData st).
Proof.
  cbv zeta.
  pose proof (sv_run es _ (sv_boot now file env csv)) as H.
  revert H. generalize (Multi.run es (Multi.boot now file env csv)). intros st H.
  split; [|split].
  - unfold Multi.reading, Multi.snapshot. split.
    + intros [r Hr]. rewrite Hr. unfold Multi.deref.
      destruct (sv_get _ _ _ H Hr) as (x & Hx & _). eauto.
    + destruct (JSMap.get i (Multi.deviceData st)); eauto. intros [x Hx]. discriminate.
  - unfold Multi.reading, Multi.snapshot, Multi.deref. intros o.
    destruct (JSMap.get i (Multi.deviceData st)) as [r|] eqn:Hr; [|discriminate].
    destruct (sv_get _ _ _ H Hr) as (x & Hx & Hid). congruence.
  - unfold Multi.allDevicesData, Multi.deref, JSMap.values.
    pose proof (Observe.sv_deviceData _ H) as Hv. clear H.
    set (m := Multi.deviceData st) in *. clearbody m.
    induction Hv as [|[k r] m Hr Hm IH]; auto.
    cbn [List.map snd]. rewrite omap_cons_eq.
    simpl in Hr. destruct Hr as (x & Hx & _). rewrite Hx.
    simpl. now rewrite IH.
Qed.

(** * The single-device server as a whole *)

Section SingleLoop.

Import Single SingleServer.

Implicit Types (st : SingleServer.State) (s : Single.State).

Lemma single_csv_rows_app (t1 t2 : list Effect) :
  csv_rows (t1 ++ t2) = csv_rows t1 ++ csv_rows t2.
Proof. apply omap_app. Qed.

Lemma single_broadcasts_app (t1 t2 : list Effect) :
  broadcasts (t1 ++ t2) = broadcasts t1 ++ broadcasts t2.
Proof. apply omap_app. Qed.

Lemma single_link_calls_app (t1 t2 : list Effect) :
  link_calls (t1 ++ t2) = link_calls t1 ++ link_calls t2.
Proof. apply omap_app. Qed.

Lemma repeat_snoc {A : Type} (x : A) (n : nat) : repeat x n ++ [x] = x :: repeat x n.
Proof. induction n as [|n IH]; simpl; congruence. Qed.

(** The listeners leave the registrations and the pollers alone. *)
Lemma iter_registrations (f : Single.State -> Single.State) (n : nat) s :
  (forall s, listeners (f s) = listeners s /\ intervals (f s) = intervals s) ->
  listeners (Nat.iter n f s) = listeners s /\ intervals (Nat.iter n f s) = intervals s.
Proof.
  intros Hf. induction n as [|n [IHl IHi]]; simpl; auto.
  destruct (Hf (Nat.iter n f s)) as [-> ->]. auto.
Qed.

Lemma on_data_registrations now data s :
  listeners (on_data now data s) = listeners s /\
  intervals (on_data now data s) = intervals s.
Proof. split; reflexivity. Qed.

Lemma on_error_registrations message s :
  listeners (on_error message s) = listeners s /\
  intervals (on_error message s) = intervals s.
Proof. split; reflexivity. Qed.

Lemma on_disconnect_registrations s :
  listeners (on_disconnect s) = listeners s /\ intervals (on_disconnect s) = intervals s.
Proof. split; reflexivity. Qed.

Lemma getDeviceStatusSafe_settled_registrations now r s :
  listeners (getDeviceStatusSafe_settled now r s) = listeners s /\
  intervals (getDeviceStatusSafe_settled now r s) = intervals s.
Proof.
  destruct r as [data|message]; simpl; auto.
  destruct (String.eqb message "Timeout"); simpl; auto.
Qed.

Lemma step_registrations now e st :
  listeners (server st) <= listeners (server (step now e st)) /\
  intervals (server st) <= intervals (server (step now e st)).
Proof.
  destruct e as [k|k x| |data|message| |ws|ws m|ws|req|req]; simpl.
  - destruct (timers (server st) !! k); simpl; auto.
  - destruct (pending st !! k) as [p|]; auto.
    destruct p, x as [[|message]|r]; simpl; auto.
    + destruct (getDeviceStatusSafe_settled_registrations now r (server st)) as [-> ->].
      auto.
    + destruct (getDeviceStatusSafe_settled_registrations now r (server st)) as [-> ->].
      auto.
  - destruct (Nat.eqb _ 0); auto. destruct (deviceConnected (server st)); simpl; auto.
  - destruct (iter_registrations _ (listeners (server st)) (server st)
                (on_data_registrations now data)) as [-> ->]. auto.
  - destruct (iter_registrations _ (listeners (server st)) (server st)
                (on_error_registrations message)) as [-> ->]. auto.
  - destruct (iter_registrations _ (listeners (server st)) (server st)
                on_disconnect_registrations) as [-> ->]. auto.
  - auto.
  - destruct m; simpl; auto. destruct (deviceConnected (server st)); simpl; auto.
  - auto.
  - auto.
  - unfold post_toggle. destruct (deviceConnected (server st)); simpl; auto.
Qed.

Lemma run_registrations es st :
  listeners (server st) <= listeners (server (run es st)) /\
  intervals (server st) <= intervals (server (run es st)).
Proof.
  revert st. induction es as [|[now e] es IH]; intros st; simpl; auto.
  destruct (step_registrations now e st), (IH (step now e st)). lia.
Qed.

Lemma iter_on_data now data (n : nat) s :
  length (csv_rows (trace (Nat.iter n (on_data now data) s)))
  = length (csv_rows (trace s)) + n /\
  length (broadcasts (trace (Nat.iter n (on_data now data) s)))
  = length (broadcasts (trace s)) + n.
Proof.
  induction n as [|n [IHc IHb]]; simpl; [lia|].
  rewrite !single_csv_rows_app, !single_broadcasts_app, !length_app, IHc, IHb.
  simpl. lia.
Qed.

Lemma iter_on_error message (n : nat) s :
  broadcasts (trace (Nat.iter n (on_error message) s))
  = broadcasts (trace s) ++ repeat (MError message) n.
Proof.
  induction n as [|n IH]; simpl; [now rewrite app_nil_r|].
  rewrite !single_broadcasts_app, IH. simpl.
  rewrite <- !app_assoc. simpl. now rewrite repeat_snoc.
Qed.

Lemma iter_on_disconnect (n : nat) s :
  timers (Nat.iter n on_disconnect s) = timers s ++ repeat 5000%N n.
Proof.
  induction n as [|n IH]; simpl; [now rewrite app_nil_r|].
  rewrite IH, <- app_assoc. now rewrite repeat_snoc.
Qed.

End SingleLoop.

(** X15. The three listeners are registered on the one link instance each time
    [connectToDevice] succeeds, and nothing removes a registration or stops
    a poller.  So with [n] registrations a report of the device is written
    to the CSV file and broadcast [n] times, an error is broadcast [n]
    times, and the loss of the link schedules [n] reconnections, 5000 ms
    each; and over any run the registrations and the pollers never get
    fewer. *)
Theorem every_registration_handles_the_event (now : string) (st : SingleServer.State) :
  let n := Single.listeners (SingleServer.server st) in
  let trace_of st := Single.trace (SingleServer.server st) in
  (forall data,
      let st' := SingleServer.step now (SingleServer.EData data) st in
      length (SingleServer.csv_rows (trace_of st'))
      = length (SingleServer.csv_rows (trace_of st)) + n /\
      length (SingleServer.broadcasts (trace_of st'))
      = length (SingleServer.broadcasts (trace_of st)) + n) /\
  (forall message,
      SingleServer.broadcasts (trace_of (SingleServer.step now (SingleServer.EError message) st))
      = SingleServer.broadcasts (trace_of st) ++ repeat (Single.MError message) n) /\
  Single.timers (SingleServer.server (SingleServer.step now SingleServer.EDisconnect st))
  = Single.timers (SingleServer.server st) ++ repeat 5000%N n /\
  (forall es,
      n <= Single.listeners (SingleServer.server (SingleServer.run es st)) /\
      Single.intervals (SingleServer.server st)
      <= Single.intervals (SingleServer.server (SingleServer.run es st))).
Proof.
  cbv zeta. split; [|split; [|split]].
  - intros data. exact (iter_on_data now data _ (SingleServer.server st)).
  - intros message. exact (iter_on_error message _ (SingleServer.server st)).
  - exact (iter_on_disconnect _ (SingleServer.server st)).
  - intros es. apply run_registrations.
Qed.

Section SingleRequests.

Import Single SingleServer.

Implicit Types (st : SingleServer.State) (s : Single.State).

(** The continuation suspended last is resumed. *)
Lemma single_settle_last now ps p x st :
  pending st = ps ++ [p] ->
  step now (ESettle (length ps) x) st
  = match settle now p x {| server := server st; pending := ps; sent := sent st |} with
    | Some st' => st'
    | None => st
    end.
Proof.
  intros H. unfold step, resume. rewrite H.
  rewrite (list_lookup_middle ps [] p (length ps) eq_refl).
  now rewrite delete_middle, app_nil_r.
Qed.

Lemma settle_awaited now j p x st :
  j = length (pending st) ->
  step now (ESettle j x) (await p st)
  = match settle now p x st with
    | Some st' => st'
    | None => await p st
    end.
Proof.
  intros ->. rewrite (single_settle_last now (pending st) p) by reflexivity.
  now destruct st.
Qed.

Lemma timer_fired now k st :
  is_Some (timers (server st) !! k) ->
  step now (ETimer k) st = connectToDevice (lift (clear_timer k) st).
Proof. intros [d Hd]. unfold step. now rewrite Hd. Qed.

Lemma rest_toggle_confirmed now ps req st :
  pending st = ps ++ [PRestSet req] ->
  sent (step now (ESettle (length ps) (Promise JS.Resolved)) st)
  = sent st ++ [Http req (RToggled (JS.not (power_state (latestDeviceData (server st)))))].
Proof.
  intros H. now rewrite (single_settle_last now ps (PRestSet req)) by exact H.
Qed.

Lemma iter_on_data_power_state now data (b : bool) (n : nat) s :
  JS.prop (JS.dps_of data) "1" = JS.Bool b ->
  0 < n ->
  power_state (latestDeviceData (Nat.iter n (on_data now data) s)) = JS.Bool b.
Proof.
  intros Hd Hn. destruct n as [|n]; [lia|].
  simpl. unfold JS.pick. now rewrite Hd.
Qed.

Lemma dispatch_fields f st :
  pending (dispatch f st) = pending st /\ sent (dispatch f st) = sent st.
Proof. split; reflexivity. Qed.

End SingleRequests.

(** X16. A reconnection started by a timer, with [find] and [connect]
    resolving, registers the three listeners once more on the same link,
    and once its first status has settled, whatever it is, one more poller
    runs.  The timer is used up, the three calls go to the link in order,
    and nothing else is left suspended. *)
Theorem reconnection_registers_again
    (now now' : string) (k : nat) (r : Single.StatusResult) (st : SingleServer.State)
    (Hk : is_Some (Single.timers (SingleServer.server st) !! k)) :
  let j := length (SingleServer.pending st) in
  let found :=
    SingleServer.step now (SingleServer.ESettle j (SingleServer.Promise JS.Resolved))
      (SingleServer.step now (SingleServer.ETimer k) st) in
  let connected :=
    SingleServer.step now (SingleServer.ESettle j (SingleServer.Promise JS.Resolved)) found in
  let polling := SingleServer.step now' (SingleServer.ESettle j (SingleServer.Race r)) connected in
  Single.listeners (SingleServer.server connected)
  = S (Single.listeners (SingleServer.server st)) /\
  Single.deviceConnected (SingleServer.server connected) = true /\
  SingleServer.link_calls (Single.trace (SingleServer.server connected))
  = SingleServer.link_calls (Single.trace (SingleServer.server st))
    ++ [Single.LFind; Single.LConnect; Single.LGet] /\
  SingleServer.pending connected = SingleServer.pending st ++ [SingleServer.PFirstStatus] /\
  Single.timers (SingleServer.server connected)
  = delete k (Single.timers (SingleServer.server st)) /\
  Single.listeners (SingleServer.server polling)
  = S (Single.listeners (SingleServer.server st)) /\
  Single.intervals (SingleServer.server polling)
  = S (Single.intervals (SingleServer.server st)) /\
  SingleServer.pending polling = SingleServer.pending st.
Proof.
  cbv zeta. rewrite (timer_fired now k st Hk).
  unfold SingleServer.connectToDevice.
  rewrite (settle_awaited now _ SingleServer.PFind) by reflexivity.
  cbn [SingleServer.settle].
  rewrite (settle_awaited now _ SingleServer.PConnect) by reflexivity.
  cbn [SingleServer.settle].
  rewrite (settle_awaited now' _ SingleServer.PFirstStatus) by reflexivity.
  cbn [SingleServer.settle].
  split; [reflexivity|]. split; [reflexivity|]. split.
  { simpl. rewrite !single_link_calls_app. simpl.
    now rewrite <- !app_assoc. }
  split; [reflexivity|]. split; [reflexivity|].
  cbn [SingleServer.lift SingleServer.server SingleServer.pending SingleServer.await].
  unfold Single.connectToDevice_status_settled.
  match goal with
  | |- context [Single.getDeviceStatusSafe_settled now' r ?s] =>
      destruct (getDeviceStatusSafe_settled_registrations now' r s) as [Hl Hi]
  end.
  cbn [Single.add_interval Single.listeners Single.intervals].
  rewrite Hl, Hi. auto.
Qed.

Lemma reconnection_registers_again_witness :
  let st := SingleServer.step "t4" SingleServer.EDisconnect SingleServer.connected_once in
  is_Some (Single.timers (SingleServer.server st) !! 0) /\
  Single.listeners (SingleServer.server st) = 1 /\
  Single.listeners
    (SingleServer.server
       (SingleServer.step "t6" (SingleServer.ESettle 0 (SingleServer.Promise JS.Resolved))
          (SingleServer.step "t6" (SingleServer.ESettle 0 (SingleServer.Promise JS.Resolved))
             (SingleServer.step "t6" (SingleServer.ETimer 0) st)))) = 2.
Proof.
  cbv zeta.
  assert (H : is_Some
                (Single.timers
                   (SingleServer.server
                      (SingleServer.step "t4" SingleServer.EDisconnect
                         SingleServer.connected_once)) !! 0))
    by (vm_compute; eauto).
  split; [exact H|]. split; [vm_compute; reflexivity|].
  exact (proj1 (reconnection_registers_again "t6" "t8" 0 Single.timed_out _ H)).
Defined.

(** X17. [POST /api/toggle] on a connected device sends the negation of the
    switch state to the link and answers only once the link has confirmed.
    The [new_state] of the answer is the negation of the switch state at
    that time, not the value sent: it is that value if nothing came in
    between, in which case the reading is left as it was and nothing is
    broadcast, and it is the opposite, the state the device has left, if
    the device reported the new state before the confirmation. *)
Theorem rest_toggle_answer_is_recomputed
    (now now' : string) (req : nat) (data : JS.RawData) (st : SingleServer.State)
    (Hc : Single.deviceConnected (SingleServer.server st) = true)
    (Hl : 0 < Single.listeners (SingleServer.server st))
    (Hd : JS.prop (JS.dps_of data) "1"
          = JS.Bool
              (JS.not (Single.power_state (Single.latestDeviceData (SingleServer.server st))))) :
  let b := JS.not (Single.power_state (Single.latestDeviceData (SingleServer.server st))) in
  let j := length (SingleServer.pending st) in
  let asked := SingleServer.step now (SingleServer.EPostToggle req) st in
  let reported := SingleServer.step now (SingleServer.EData data) asked in
  let confirm := SingleServer.step now' (SingleServer.ESettle j (SingleServer.Promise JS.Resolved)) in
  Single.trace (SingleServer.server asked)
  = Single.trace (SingleServer.server st) ++ [Single.Link (Single.LSet 1 b)] /\
  SingleServer.sent asked = SingleServer.sent st /\
  SingleServer.sent (confirm asked)
  = SingleServer.sent st ++ [SingleServer.Http req (SingleServer.RToggled b)] /\
  SingleServer.server (confirm asked) = SingleServer.server asked /\
  Single.latestDeviceData (SingleServer.server asked)
  = Single.latestDeviceData (SingleServer.server st) /\
  Single.power_state (Single.latestDeviceData (SingleServer.server reported)) = JS.Bool b /\
  SingleServer.sent (confirm reported)
  = SingleServer.sent st ++ [SingleServer.Http req (SingleServer.RToggled (negb b))].
Proof.
  cbv zeta.
  assert (Ha : SingleServer.step now (SingleServer.EPostToggle req) st
               = SingleServer.await (SingleServer.PRestSet req)
                   (SingleServer.lift
                      (fun s =>
                         Single.emit
                           (Single.Link
                              (Single.LSet 1
                                 (JS.not (Single.power_state (Single.latestDeviceData s))))) s)
                      st)).
  { unfold SingleServer.step, SingleServer.post_toggle. now rewrite Hc. }
  rewrite Ha. clear Ha.
  split; [reflexivity|]. split; [reflexivity|].
  rewrite (settle_awaited now' _ (SingleServer.PRestSet req)) by reflexivity.
  split; [reflexivity|]. split; [reflexivity|]. split; [reflexivity|].
  assert (Hp : Single.power_state
                 (Single.latestDeviceData
                    (SingleServer.server
                       (SingleServer.step now (SingleServer.EData data)
                          (SingleServer.await (SingleServer.PRestSet req)
                             (SingleServer.lift
                                (fun s =>
                                   Single.emit
                                     (Single.Link
                                        (Single.LSet 1
                                           (JS.not
                                              (Single.power_state
                                                 (Single.latestDeviceData s))))) s)
                                st)))))
               = JS.Bool
                   (JS.not
                      (Single.power_state (Single.latestDeviceData (SingleServer.server st))))).
  { unfold SingleServer.step, SingleServer.dispatch. simpl.
    now apply iter_on_data_power_state. }
  split; [exact Hp|].
  rewrite (rest_toggle_confirmed now' (SingleServer.pending st) req) by reflexivity.
  rewrite Hp. reflexivity.
Qed.

(** The plug is connected and on; it reports being off before the link
    confirms the toggle, and the answer names the state it has left. *)
Lemma rest_toggle_answer_is_recomputed_witness :
  Single.power_state (Single.latestDeviceData (SingleServer.server SingleServer.connected_once))
  = JS.Bool true /\
  SingleServer.sent
    (SingleServer.step "t6" (SingleServer.ESettle 0 (SingleServer.Promise JS.Resolved))
       (SingleServer.step "t5" (SingleServer.EData (JS.Wrapped [("1", JS.Bool false)]))
          (SingleServer.step "t5" (SingleServer.EPostToggle 1) SingleServer.connected_once)))
  = [SingleServer.Http 1 (SingleServer.RToggled true)].
Proof.
  split; [vm_compute; reflexivity|].
  assert (Hc : Single.deviceConnected (SingleServer.server SingleServer.connected_once) = true)
    by (vm_compute; reflexivity).
  assert (Hl : 0 < Single.listeners (SingleServer.server SingleServer.connected_once))
    by (vm_compute; lia).
  assert (Hd : JS.prop (JS.dps_of (JS.Wrapped [("1", JS.Bool false)])) "1"
               = JS.Bool
                   (JS.not
                      (Single.power_state
                         (Single.latestDeviceData
                            (SingleServer.server SingleServer.connected_once)))))
    by (vm_compute; reflexivity).
  exact (proj2 (proj2 (proj2 (proj2 (proj2 (proj2
           (rest_toggle_answer_is_recomputed "t5" "t6" 1 _ _ Hc Hl Hd))))))).
Defined.

Section SingleToggle.

Import Single SingleServer.

Implicit Types (st : SingleServer.State) (s : Single.State).

Lemma toggle_asked now ws st :
  deviceConnected (server st) = true ->
  step now (EWsMessage ws WToggle) st
  = await (PWsSet ws (JS.not (power_state (latestDeviceData (server st)))))
      (lift (emit (Link (LSet 1 (JS.not (power_state (latestDeviceData (server st)))))))
         (lift (emit (Console "Toggling device power state from:"))
            (lift (emit (Console "Received WebSocket message:")) st))).
Proof. intros Hc. unfold step, ws_message. simpl. now rewrite Hc. Qed.

Lemma ws_toggle_confirmed now ps ws newState st :
  pending st = ps ++ [PWsSet ws newState] ->
  let st' := step now (ESettle (length ps) (Promise JS.Resolved)) st in
  latestDeviceData (server st') = with_power_state newState now (latestDeviceData (server st)) /\
  trace (server st')
  = trace (server st)
    ++ [Console "Device toggled successfully to:";
        Broadcast (MData (with_power_state newState now (latestDeviceData (server st))))] /\
  sent st' = sent st /\
  pending st' = ps.
Proof.
  intros H. cbv zeta.
  rewrite (single_settle_last now ps (PWsSet ws newState)) by exact H.
  simpl. now rewrite <- app_assoc.
Qed.

End SingleToggle.

(** X18. A toggle sent over the WebSocket to a connected device asks the link
    for the negation of the switch state.  When the link confirms, the
    switch state and the time stamp of the reading held at that time are
    overwritten and the reading is broadcast: a report that came in while
    the confirmation was awaited is kept in its other fields.  The client
    that asked is sent nothing of its own. *)
Theorem ws_toggle_updates_the_latest_reading
    (now now' : string) (ws : nat) (data : JS.RawData) (st : SingleServer.State)
    (Hc : Single.deviceConnected (SingleServer.server st) = true) :
  let reading st := Single.latestDeviceData (SingleServer.server st) in
  let b := JS.not (Single.power_state (reading st)) in
  let j := length (SingleServer.pending st) in
  let asked := SingleServer.step now (SingleServer.EWsMessage ws SingleServer.WToggle) st in
  let reported := SingleServer.step now (SingleServer.EData data) asked in
  let confirmed :=
    SingleServer.step now' (SingleServer.ESettle j (SingleServer.Promise JS.Resolved))
      reported in
  SingleServer.link_calls (Single.trace (SingleServer.server asked))
  = SingleServer.link_calls (Single.trace (SingleServer.server st)) ++ [Single.LSet 1 b] /\
  reading asked = reading st /\
  reading confirmed = SingleServer.with_power_state b now' (reading reported) /\
  SingleServer.broadcasts (Single.trace (SingleServer.server confirmed))
  = SingleServer.broadcasts (Single.trace (SingleServer.server reported))
    ++ [Single.MData (reading confirmed)] /\
  SingleServer.sent confirmed = SingleServer.sent st /\
  SingleServer.pending confirmed = SingleServer.pending st.
Proof.
  cbv zeta. rewrite (toggle_asked now ws st Hc).
  split.
  { simpl. rewrite !single_link_calls_app. simpl. now rewrite !app_nil_r. }
  split; [reflexivity|].
  match goal with
  | |- context [SingleServer.step now' ?e ?x] =>
      destruct (ws_toggle_confirmed now' (SingleServer.pending st) ws
                  (JS.not
                     (Single.power_state (Single.latestDeviceData (SingleServer.server st))))
                  x eq_refl) as (Hr & Ht & Hs & Hp)
  end.
  rewrite Hr, Ht, Hs, Hp.
  split; [reflexivity|]. split.
  { rewrite single_broadcasts_app. reflexivity. }
  split; reflexivity.
Qed.

(** The plug is on and reports a power of 12.5 W while the toggle is
    under way: the confirmed reading is off and keeps the power. *)
Lemma ws_toggle_updates_the_latest_reading_witness :
  Single.deviceConnected (SingleServer.server SingleServer.connected_once) = true /\
  Single.latestDeviceData
    (SingleServer.server
       (SingleServer.step "t6" (SingleServer.ESettle 0 (SingleServer.Promise JS.Resolved))
          (SingleServer.step "t5" (SingleServer.EData (JS.Wrapped [("19", JS.Num 125%float)]))
             (SingleServer.step "t5" (SingleServer.EWsMessage 1 SingleServer.WToggle)
                SingleServer.connected_once))))
  = SingleServer.with_power_state false "t6"
      (Single.latestDeviceData
         (SingleServer.server
            (SingleServer.step "t5" (SingleServer.EData (JS.Wrapped [("19", JS.Num 125%float)]))
               (SingleServer.step "t5" (SingleServer.EWsMessage 1 SingleServer.WToggle)
                  SingleServer.connected_once)))).
Proof.
  assert (Hc : Single.deviceConnected (SingleServer.server SingleServer.connected_once) = true)
    by (vm_compute; reflexivity).
  split; [exact Hc|].
  exact (proj1 (proj2 (proj2
           (ws_toggle_updates_the_latest_reading "t5" "t6" 1
              (JS.Wrapped [("19", JS.Num 125%float)]) _ Hc)))).
Defined.

(** X19. While [deviceConnected] is false a toggle never reaches the link.  Sent
    over the WebSocket it is logged and dropped: the client is told
    nothing.  Sent to [POST /api/toggle] it is answered with status 400.
    The [connected] flag of the reading plays no part in either. *)
Theorem toggle_without_link
    (now : string) (ws req : nat) (st : SingleServer.State)
    (Hc : Single.deviceConnected (SingleServer.server st) = false) :
  SingleServer.step now (SingleServer.EWsMessage ws SingleServer.WToggle) st
  = SingleServer.lift (Single.emit (Single.Console "Received WebSocket message:")) st /\
  SingleServer.step now (SingleServer.EPostToggle req) st
  = SingleServer.send
      (SingleServer.Http req (SingleServer.RError 400%N "Device not connected")) st.
Proof.
  unfold SingleServer.step, SingleServer.ws_message, SingleServer.post_toggle. simpl.
  rewrite Hc. split; reflexivity.
Qed.

(** The link has been lost: the reading is marked disconnected as well. *)
Lemma toggle_without_link_witness :
  let st := SingleServer.step "t4" SingleServer.EDisconnect SingleServer.connected_once in
  SingleServer.sent (SingleServer.step "t5" (SingleServer.EWsMessage 1 SingleServer.WToggle) st)
  = [] /\
  SingleServer.sent (SingleServer.step "t5" (SingleServer.EPostToggle 2) st)
  = [SingleServer.Http 2 (SingleServer.RError 400%N "Device not connected")].
Proof.
  cbv zeta.
  assert (Hc : Single.deviceConnected
                 (SingleServer.server
                    (SingleServer.step "t4" SingleServer.EDisconnect
                       SingleServer.connected_once)) = false)
    by (vm_compute; reflexivity).
  destruct (toggle_without_link "t5" 1 2 _ Hc) as [-> ->].
  split; vm_compute; reflexivity.
Defined.

(** * The history endpoint *)

Section HistoryFacts.

Import History.

Local Open Scope Z_scope.

Context {Values : Type} (values : string -> Z -> Z -> Values).

Lemma hour_value : hour = 3600000.
Proof. reflexivity. Qed.

Lemma history_lookup deviceId startDate endDate (k : nat) (p : Point Values) :
  generateSampleHistoricalData values deviceId startDate endDate !! k = Some p <->
  p = {| timestamp := startDate + Z.of_nat k * hour;
         measured := values deviceId (Z.of_nat k) (startDate + Z.of_nat k * hour) |} /\
  Z.of_nat k < Z.min ((endDate - startDate) / hour) 168 + 1.
Proof.
  unfold generateSampleHistoricalData.
  change (List.map ?f ?l) with (f <$> l).
  rewrite list_lookup_fmap. split.
  - destruct (seqZ 0 _ !! k) as [i|] eqn:E; [|discriminate].
    apply lookup_seqZ in E as [-> E]. simpl. intros [= <-]. auto.
  - intros [-> H]. rewrite lookup_seqZ_lt by exact H. reflexivity.
Qed.

Lemma history_length deviceId startDate endDate :
  length (generateSampleHistoricalData values deviceId startDate endDate)
  = Z.to_nat (Z.min ((endDate - startDate) / hour) 168 + 1).
Proof.
  unfold generateSampleHistoricalData. now rewrite length_map, length_seqZ.
Qed.

Lemma whole_hours (a : Z) : hour * (a / hour) <= a.
Proof. apply Z.mul_div_le. reflexivity. Qed.

End HistoryFacts.

(** X20. The sample history has one point for every whole hour from the start
    date on: the point at position [k] carries the time of the start plus
    [k] hours, which is not after the end date, and there is no point
    beyond the 168th hour. *)
Theorem history_points_are_hourly
    (Values : Type) (values : string -> Z -> Z -> Values) (deviceId : string)
    (startDate endDate : Z) (k : nat) (p : History.Point Values)
    (Hk : History.generateSampleHistoricalData values deviceId startDate endDate !! k
          = Some p) :
  History.timestamp p = (startDate + Z.of_nat k * History.hour)%Z /\
  (History.timestamp p <= endDate)%Z /\
  k <= 168 /\
  History.measured p = values deviceId (Z.of_nat k) (History.timestamp p).
Proof.
  apply history_lookup in Hk as [-> Hk]. simpl.
  pose proof (whole_hours (endDate - startDate)) as Hw.
  rewrite hour_value in *.
  repeat split; lia.
Qed.

(** A range of two and a half hours: the last point is two hours in. *)
Lemma history_points_are_hourly_witness :
  History.generateSampleHistoricalData (fun _ i _ => i) "device_1" 1000 9001000 !! 2
  = Some {| History.timestamp := 7201000%Z; History.measured := 2%Z |} /\
  History.timestamp {| History.timestamp := 7201000%Z; History.measured := 2%Z |}
  = (1000 + Z.of_nat 2 * History.hour)%Z.
Proof.
  assert (H : History.generateSampleHistoricalData (fun _ i _ => i) "device_1" 1000 9001000 !! 2
              = Some {| History.timestamp := 7201000%Z; History.measured := 2%Z |})
    by (vm_compute; reflexivity).
  split; [exact H|].
  exact (proj1 (history_points_are_hourly Z (fun _ i _ => i) "device_1" 1000 9001000 2 _ H)).
Defined.

(** X21. What [GET /api/devices/:deviceId/history] answers, whether the server
    knows the device or not.  Without dates it covers the last 24 hours
    with 25 points; a range gives at most 169 points, the first at the
    start date; an end date before the start date gives an empty list, not
    an error; and a date that cannot be parsed gives status 500. *)
Theorem history_answers
    (Values : Type) (values : string -> Z -> Z -> Values) (deviceId : string) (now now' : Z)
    (Hnow : (now <= now' < now + History.hour)%Z) :
  (exists data,
      History.get_history values now now' deviceId None None
      = History.ROk deviceId (now - 24 * History.hour)%Z now' data /\
      length data = 25) /\
  (forall s e,
      History.get_history values now now' deviceId (Some (History.At s)) (Some (History.At e))
      = History.ROk deviceId s e (History.generateSampleHistoricalData values deviceId s e) /\
      length (History.generateSampleHistoricalData values deviceId s e) <= 169 /\
      ((e < s)%Z -> History.generateSampleHistoricalData values deviceId s e = []) /\
      ((s <= e)%Z ->
       exists p, History.generateSampleHistoricalData values deviceId s e !! 0 = Some p /\
                 History.timestamp p = s)) /\
  (forall d,
      History.get_history values now now' deviceId (Some History.Invalid) d
      = History.RError 500%N "Failed to fetch historical data" /\
      History.get_history values now now' deviceId d (Some History.Invalid)
      = History.RError 500%N "Failed to fetch historical data").
Proof.
  pose proof hour_value as Hh.
  split; [|split].
  - eexists. split; [reflexivity|].
    rewrite history_length.
    replace ((now' - (now - 24 * 60 * 60 * 1000)) / History.hour)%Z with 24%Z;
      [reflexivity|].
    rewrite Hh in *. apply (Z.div_unique _ _ 24 (now' - now)); lia.
  - intros s e. split; [reflexivity|]. split; [|split].
    + rewrite history_length. lia.
    + intros Hlt. apply length_zero_iff_nil. rewrite history_length.
      assert ((e - s) / History.hour < 0)%Z; [|lia].
      apply Z.div_lt_upper_bound; rewrite ?Hh; lia.
    + intros Hle. eexists. split.
      * apply history_lookup. split; [reflexivity|].
        assert (0 <= (e - s) / History.hour)%Z; [|simpl; lia].
        apply Z.div_pos; rewrite ?Hh; lia.
      * simpl. lia.
  - intros d. split.
    + reflexivity.
    + destruct d as [[|t]|]; reflexivity.
Qed.

Lemma history_answers_witness :
  (1000000 <= 1000005 < 1000000 + History.hour)%Z /\
  exists data,
    History.get_history (fun _ i _ => i) 1000000 1000005 "device_9" None None
    = History.ROk "device_9" (1000000 - 24 * History.hour)%Z 1000005 data /\
    length data = 25.
Proof.
  assert (H : (1000000 <= 1000005 < 1000000 + History.hour)%Z) by (vm_compute; split; congruence).
  split; [exact H|].
  exact (proj1 (history_answers Z (fun _ i _ => i) "device_9" 1000000 1000005 H)).
Defined.

(** * The dashboard's copy of the devices *)

Section ClientFacts.

Import Client.

Context {Point : Type} (newPoint : JS.Object -> Point).

Implicit Types (st : Client.State Point) (prev : list JS.Object).

Lemma length_slice_last {A : Type} (n : nat) (l : list A) : length (slice_last n l) <= n.
Proof. unfold slice_last. rewrite length_drop. lia. Qed.

Lemma last_slice_last {A : Type} (n : nat) (l : list A) (x : A) :
  0 < n -> last (slice_last n (l ++ [x])) = Some x.
Proof.
  intros Hn. unfold slice_last. rewrite length_app. simpl.
  rewrite drop_app_le by lia. apply last_snoc.
Qed.

Lemma history_onmessage m j st :
  history j (onmessage newPoint m st)
  = match m with
    | DeviceData i data =>
        if String.eqb i j then slice_last 200 (history i st ++ [newPoint data])
        else history j st
    | DeviceRemoved i => if String.eqb i j then [] else history j st
    | _ => history j st
    end.
Proof.
  destruct m as [data|i data|i|i|i|]; try reflexivity; unfold history; simpl.
  - destruct (String.eqb_spec i j) as [->|Hne].
    + now rewrite get_set_eq.
    + now rewrite get_set_ne.
  - destruct (String.eqb_spec i j) as [->|Hne].
    + now rewrite get_delete_eq.
    + now rewrite get_delete_ne.
Qed.

Lemma history_bounded_onmessage m st :
  (forall j, length (history j st) <= 200) ->
  forall j, length (history j (onmessage newPoint m st)) <= 200.
Proof.
  intros H j. rewrite history_onmessage.
  destruct m as [data|i data|i|i|i|]; auto.
  - destruct (String.eqb i j); auto using length_slice_last.
  - destruct (String.eqb i j); simpl; auto. lia.
Qed.

Lemma history_bounded_receive ms st :
  (forall j, length (history j st) <= 200) ->
  forall j, length (history j (receive newPoint ms st)) <= 200.
Proof.
  revert st. induction ms as [|m ms IH]; intros st H; simpl; auto.
  apply IH. now apply history_bounded_onmessage.
Qed.

(** *** Replacing a device in the list *)

Variable deviceId : string.
Variable data : JS.Object.
Hypothesis data_id : has_id deviceId data = true.

Lemma filter_replace prev :
  List.filter (has_id deviceId)
    (List.map (fun device => if has_id deviceId device then data else device) prev)
  = repeat data (length (List.filter (has_id deviceId) prev)).
Proof using data_id.
  induction prev as [|d prev IH]; auto.
  cbn [List.map List.filter].
  destruct (has_id deviceId d) eqn:E.
  - rewrite data_id. cbn [length repeat]. now rewrite IH.
  - now rewrite E.
Qed.

Lemma filter_other_replace prev :
  List.filter (fun device => negb (has_id deviceId device))
    (List.map (fun device => if has_id deviceId device then data else device) prev)
  = List.filter (fun device => negb (has_id deviceId device)) prev.
Proof using data_id.
  induction prev as [|d prev IH]; auto.
  cbn [List.map List.filter].
  destruct (has_id deviceId d) eqn:E.
  - rewrite data_id. cbn [negb]. exact IH.
  - rewrite E. cbn [negb]. now rewrite IH.
Qed.

Lemma find_head_filter (f : JS.Object -> bool) prev :
  List.find f prev = head (List.filter f prev).
Proof.
  induction prev as [|d prev IH]; simpl; auto. now destruct (f d).
Qed.

Lemma find_None_filter (f : JS.Object -> bool) prev :
  List.find f prev = None <-> List.filter f prev = [].
Proof.
  rewrite find_head_filter. now destruct (List.filter f prev).
Qed.

Lemma upsert_devices st :
  let st' := onmessage newPoint (DeviceData deviceId data) st in
  List.filter (has_id deviceId) (devices st')
  = repeat data (Nat.max 1 (length (List.filter (has_id deviceId) (devices st)))) /\
  List.filter (fun device => negb (has_id deviceId device)) (devices st')
  = List.filter (fun device => negb (has_id deviceId device)) (devices st).
Proof using data_id.
  cbv zeta. cbn [onmessage devices].
  destruct (List.find (has_id deviceId) (devices st)) as [d|] eqn:E.
  - split; [|apply filter_other_replace].
    rewrite filter_replace. f_equal.
    rewrite find_head_filter in E.
    destruct (List.filter (has_id deviceId) (devices st)); [discriminate|simpl; lia].
  - rewrite !List.filter_app, filter_replace, filter_other_replace.
    apply find_None_filter in E. rewrite E.
    cbn [List.filter length repeat Nat.max]. rewrite data_id.
    split; [reflexivity|apply app_nil_r].
Qed.

End ClientFacts.

(** X22. The dashboard keeps at most 200 points of history for a device,
    whatever messages arrive and in whatever order.  A reading adds its
    point at the end of the history of its device and leaves the other
    histories alone. *)
Theorem client_history_is_bounded
    (Point : Type) (newPoint : JS.Object -> Point) (ms : list Client.Message)
    (st : Client.State Point)
    (H : forall j, length (Client.history j st) <= 200) :
  let st' := Client.receive newPoint ms st in
  (forall j, length (Client.history j st') <= 200) /\
  (forall i data,
      last (Client.history i (Client.onmessage newPoint (Client.DeviceData i data) st'))
      = Some (newPoint data) /\
      forall j, j <> i ->
        Client.history j (Client.onmessage newPoint (Client.DeviceData i data) st')
        = Client.history j st').
Proof.
  cbv zeta. split; [now apply history_bounded_receive|].
  intros i data. split.
  - rewrite history_onmessage, String.eqb_refl. apply last_slice_last. lia.
  - intros j Hne. rewrite history_onmessage.
    destruct (String.eqb_spec i j); congruence.
Qed.

(** From an empty dashboard, after 201 readings of one device. *)
Lemma client_history_is_bounded_witness :
  (forall j, length (Client.history j (Client.initial nat)) <= 200) /\
  length
    (Client.history "device_1"
       (Client.receive (fun _ => 0) (repeat (Client.DeviceData "device_1" []) 201)
          (Client.initial nat))) <= 200.
Proof.
  assert (H : forall j, length (Client.history j (Client.initial nat)) <= 200)
    by (intros j; simpl; lia).
  split; [exact H|].
  exact (proj1 (client_history_is_bounded nat (fun _ => 0)
                  (repeat (Client.DeviceData "device_1" []) 201) _ H) "device_1").
Defined.

(** X23. A reading whose [id] is the [deviceId] of its message takes the place
    of every device of that id in the dashboard's list, or is added at the
    end when there is none, so that the device is listed with this reading;
    the devices of other ids stay as they are, in their order.  When the
    device is then removed the list is what the other devices were. *)
Theorem client_reading_replaces_device
    (Point : Type) (newPoint : JS.Object -> Point) (deviceId : string) (data : JS.Object)
    (st : Client.State Point)
    (Hid : Client.has_id deviceId data = true) :
  let mine := List.filter (Client.has_id deviceId) in
  let others := List.filter (fun device => negb (Client.has_id deviceId device)) in
  let st' := Client.onmessage newPoint (Client.DeviceData deviceId data) st in
  List.find (Client.has_id deviceId) (Client.devices st') = Some data /\
  mine (Client.devices st') = repeat data (Nat.max 1 (length (mine (Client.devices st)))) /\
  others (Client.devices st') = others (Client.devices st) /\
  Client.devices (Client.onmessage newPoint (Client.DeviceRemoved deviceId) st')
  = others (Client.devices st) /\
  Client.history deviceId (Client.onmessage newPoint (Client.DeviceRemoved deviceId) st') = [].
Proof.
  cbv zeta.
  destruct (upsert_devices newPoint deviceId data Hid st) as [Hm Ho].
  split; [|split; [exact Hm|split; [exact Ho|split]]].
  - rewrite find_head_filter, Hm.
    destruct (length _) as [|n]; reflexivity.
  - cbn [Client.onmessage Client.devices]. exact Ho.
  - rewrite history_onmessage. now rewrite String.eqb_refl.
Qed.

Lemma client_reading_replaces_device_witness :
  let plug := [("id", JS.Str "device_1"); ("power", JS.Num 12%float)] in
  let lamp := [("id", JS.Str "device_2")] in
  let st := {| Client.devices := [[("id", JS.Str "device_1")]; lamp];
               Client.historicalData := @nil (string * list nat) |} in
  Client.has_id "device_1" plug = true /\
  Client.devices (Client.onmessage (fun _ => 0) (Client.DeviceData "device_1" plug) st)
  = [plug; lamp] /\
  List.find (Client.has_id "device_1")
    (Client.devices (Client.onmessage (fun _ => 0) (Client.DeviceData "device_1" plug) st))
  = Some plug.
Proof.
  cbv zeta.
  assert (H : Client.has_id "device_1"
                [("id", JS.Str "device_1"); ("power", JS.Num 12%float)] = true)
    by reflexivity.
  split; [exact H|]. split; [reflexivity|].
  exact (proj1 (client_reading_replaces_device nat (fun _ => 0) "device_1" _ _ H)).
Defined.
